(** * Read-through caching and write invalidation of the course catalogue

    A shallow embedding of the cache policy of the course catalogue service:
    the Redis gateway ([lib/redis.ts]), the request validators
    ([lib/validation.ts], [lib/csv-parser.ts]), the course service
    ([lib/course-service.ts]) and the route handlers that read or write the
    same cache keys ([app/api/courses/...]).

    Conventions of the embedding.
    - A JavaScript [number] is a binary64 float ([PrimFloat.float]); array
      lengths and TTL seconds, which the code only ever uses as integers,
      are in [Z].
    - A JavaScript string is a [string] holding its UTF-8 bytes; where
      the code counts UTF-16 code units (the bounds of the request
      schemas) the model counts them too ([Validation.js_length]).
    - An [async] function is a state transformer on the [World] (the course
      collection, the Redis keyspace and the Redis fault schedule) that
      returns a value, throws, or never settles.  Requests run one after
      the other; the commands issued under one [Promise.all] touch
      disjoint keys and are sequenced left to right.
    - Time does not pass inside the model: a cache entry keeps the TTL it
      was written with and is not expired.
    - Storage-assigned members of a stored document ([_id], [__v],
      [createdAt], [updatedAt]) are left out: a document is its nine
      schema paths, and what is said of a document is said of those.
    - The store is assumed reachable ([dbConnect] succeeds). *)

From Stdlib Require Import ZArith String Ascii List Bool Lia.
From Stdlib Require Import Floats.PrimFloat Floats.FloatOps Floats.SpecFloat Floats.FloatAxioms.
From stdpp Require Import gmap strings pretty.

#[local] Set Warnings "-inexact-float,-register-all".
#[local] Open Scope string_scope.
#[local] Open Scope Z_scope.

(** ** ECMAScript numbers and JSON *)

Module JS.

Definition number := float.

(** The integer [z] as a number (exact below 2^53, as in JavaScript). *)
Definition Z2F (z : Z) : number :=
  match z with
  | Z0 => 0%float
  | Zpos p => SF2Prim (S754_finite false p 0)
  | Zneg p => SF2Prim (S754_finite true p 0)
  end.

(** [a / b] rounded up, for [0 < b]. *)
Definition cdiv (a b : Z) : Z := - ((- a) / b).

(** [10^d] and [2^d] as fractions of positive integers. *)
Definition pow_frac (base d : Z) : Z * Z :=
  if 0 <=? d then (base ^ d, 1) else (1, base ^ (- d)).

(** Number::toString, step 5: the decimal digit strings [s * 10^(n-k)] of
    [k] digits that round to the float [m * 2^e], each with its distance
    to the float as a fraction (in units of [2^(e-2)]). *)
Definition digit_candidates (m e k n : Z) : list (Z * Z * Z * Z) :=
  let '(tn, td) := pow_frac 10 (n - k) in
  let '(un, ud) := pow_frac 2 (e - 2) in
  let a := tn * ud in
  let b := td * un in
  let lo4 := if (m =? 2 ^ 52) && (-1074 <? e) then 4 * m - 1 else 4 * m - 2 in
  let hi4 := 4 * m + 2 in
  let smin0 := if Z.even m then cdiv (lo4 * b) a else (lo4 * b) / a + 1 in
  let smax0 := if Z.even m then (hi4 * b) / a else cdiv (hi4 * b) a - 1 in
  let smin := Z.max smin0 (10 ^ (k - 1)) in
  let smax := Z.min smax0 (10 ^ k - 1) in
  if smax <? smin then []
  else
    let t := (4 * m * b) / a in
    let clamp c := Z.max smin (Z.min smax c) in
    let cand c := (Z.abs (clamp c * a - 4 * m * b), b, clamp c, n) in
    [cand t; cand (t + 1)].

(** The closest candidate; of two equally close ones, the even digit string. *)
Definition closer (x y : Z * Z * Z * Z) : Z * Z * Z * Z :=
  let '(xn, xd, xs, _) := x in
  let '(yn, yd, ys, _) := y in
  if xn * yd <? yn * xd then x
  else if yn * xd <? xn * yd then y
  else if Z.even xs then x else y.

Definition closest (l : list (Z * Z * Z * Z)) : option (Z * Z) :=
  match l with
  | [] => None
  | x :: r => let '(_, _, s, n) := fold_left closer r x in Some (s, n)
  end.

(** The shortest digit string: the least [k] in [k0 .. k0 + fuel) that has
    a candidate, as [(s, n, k)]. *)
Fixpoint shortest_digits (fuel : nat) (m e n0 k : Z) : Z * Z * Z :=
  match fuel with
  | O => (m, 0, k)
  | S fuel' =>
      let cs := flat_map (fun n => digit_candidates m e k n)
                         [n0 - 1; n0; n0 + 1; n0 + 2] in
      match closest cs with
      | Some (s, n) => (s, n, k)
      | None => shortest_digits fuel' m e n0 (k + 1)
      end
  end.

Definition zeros (n : Z) : string := string_of_list_ascii (repeat "0"%char (Z.to_nat n)).

Definition str_take (n : Z) (s : string) : string := String.substring 0 (Z.to_nat n) s.
Definition str_drop (n : Z) (s : string) : string :=
  String.substring (Z.to_nat n) (String.length s - Z.to_nat n) s.

(** Number::toString, steps 6 to 10. *)
Definition format_digits (s n k : Z) : string :=
  let ds := pretty s in
  if (k <=? n) && (n <=? 21) then ds +:+ zeros (n - k)
  else if (0 <? n) && (n <=? 21) then str_take n ds +:+ "." +:+ str_drop n ds
  else if (-6 <? n) && (n <=? 0) then "0." +:+ zeros (- n) +:+ ds
  else
    let ex := n - 1 in
    let sign := if 0 <=? ex then "+" else "-" in
    if k =? 1 then ds +:+ "e" +:+ sign +:+ pretty (Z.abs ex)
    else str_take 1 ds +:+ "." +:+ str_drop 1 ds +:+ "e" +:+ sign +:+ pretty (Z.abs ex).

(** Number::toString(x), radix 10. *)
Definition Number_toString (x : number) : string :=
  match Prim2SF x with
  | S754_nan => "NaN"
  | S754_zero _ => "0"
  | S754_infinity sign => if sign then "-Infinity" else "Infinity"
  | S754_finite sign m e =>
      let n0 := ((Z.log2 (Zpos m) + e) * 30103) / 100000 + 1 in
      let '(s, n, k) := shortest_digits 17 (Zpos m) e n0 1 in
      (if sign then "-" else EmptyString) +:+ format_digits s n k
  end.

Definition is_finite (x : number) : bool := negb (is_nan x) && negb (is_infinity x).

(** Math.ceil. *)
Definition Math_ceil (x : number) : number :=
  match Prim2SF x with
  | S754_finite sign m e =>
      if 0 <=? e then x
      else
        let c := if sign then (Zpos m) / 2 ^ (- e) else cdiv (Zpos m) (2 ^ (- e)) in
        if c =? 0 then (-0)%float else Z2F (if sign then - c else c)
  | _ => x
  end.

(** *** JSON values

    An object keeps its members in insertion order, as a JavaScript object
    with string keys does; [JUndefined] only occurs as a member or element
    of a value given to JSON.stringify. *)
Inductive json : Type :=
| JUndefined
| JNull
| JBool (b : bool)
| JNumber (x : number)
| JString (s : string)
| JArray (elements : list json)
| JObject (members : list (string * json)).

(** [o[k]]. *)
Fixpoint obj_get (k : string) (members : list (string * json)) : option json :=
  match members with
  | [] => None
  | (k', v) :: rest => if String.eqb k k' then Some v else obj_get k rest
  end.

(** [o[k] = v]: an existing member keeps its place, a new one goes last. *)
Fixpoint obj_set (k : string) (v : json) (members : list (string * json))
  : list (string * json) :=
  match members with
  | [] => [(k, v)]
  | (k', v') :: rest =>
      if String.eqb k k' then (k, v) :: rest else (k', v') :: obj_set k v rest
  end.

(** [{...a, ...b}]. *)
Definition obj_spread (a b : list (string * json)) : list (string * json) :=
  fold_left (fun acc kv => obj_set (fst kv) (snd kv) acc) b a.

(** *** JSON.stringify *)

Definition dquote : string := String "034"%char EmptyString.
Definition backslash : string := String "092"%char EmptyString.

Definition hex_digit (n : N) : ascii :=
  if (n <? 10)%N then ascii_of_N (48 + n) else ascii_of_N (87 + n).

(** QuoteJSONString, one character. *)
Definition quote_char (c : ascii) : string :=
  let n := N_of_ascii c in
  if (n =? 8)%N then backslash +:+ "b"
  else if (n =? 9)%N then backslash +:+ "t"
  else if (n =? 10)%N then backslash +:+ "n"
  else if (n =? 12)%N then backslash +:+ "f"
  else if (n =? 13)%N then backslash +:+ "r"
  else if (n =? 34)%N then backslash +:+ dquote
  else if (n =? 92)%N then backslash +:+ backslash
  else if (n <? 32)%N then
    backslash +:+ "u00" +:+ String (hex_digit (n / 16)) (String (hex_digit (n mod 16)) EmptyString)
  else String c EmptyString.

Fixpoint quote_chars (s : string) : string :=
  match s with
  | EmptyString => EmptyString
  | String c r => quote_char c +:+ quote_chars r
  end.

Definition QuoteJSONString (s : string) : string := dquote +:+ quote_chars s +:+ dquote.

Fixpoint join_comma (l : list string) : string :=
  match l with
  | [] => EmptyString
  | [x] => x
  | x :: r => x +:+ "," +:+ join_comma r
  end.

(** SerializeJSONProperty: [None] is JavaScript's [undefined]. *)
Fixpoint serialize (v : json) : option string :=
  match v with
  | JUndefined => None
  | JNull => Some "null"
  | JBool b => Some (if b then "true" else "false")
  | JNumber x => Some (if is_finite x then Number_toString x else "null")
  | JString s => Some (QuoteJSONString s)
  | JArray l =>
      Some ("[" +:+ join_comma (map (fun e => default "null" (serialize e)) l) +:+ "]")
  | JObject ms =>
      Some ("{" +:+ join_comma
                   (flat_map (fun kv => match serialize (snd kv) with
                                        | Some t => [QuoteJSONString (fst kv) +:+ ":" +:+ t]
                                        | None => []
                                        end) ms) +:+ "}")
  end.

(** [JSON.stringify(v)] where a string is expected (a template literal or
    a Redis payload); the service only ever passes objects, for which the
    result is a string. *)
Definition JSON_stringify (v : json) : string := default "undefined" (serialize v).

(** *** Exceptions and results of a call *)

(** A write error of an unordered bulk insert. *)
Record WriteError := { we_index : Z; we_code : Z }.

Inductive exn : Type :=
| SyntaxError                                        (* JSON.parse *)
| RedisError                                         (* connection or command failure *)
| ValidationError (paths : list string)              (* Mongoose validators *)
| MongoServerError (code : Z)                        (* a single rejected write *)
| MongoBulkWriteError (code : Z) (writeErrors : list WriteError).

(** How an awaited call ends: with a value, with an exception, or not at
    all (its promise never settles). *)
Inductive Result (A : Type) : Type :=
| Ok (a : A)
| Throw (e : exn)
| Pending.
Arguments Ok {A} a.
Arguments Throw {A} e.
Arguments Pending {A}.

(** *** JSON.parse *)

(** The number [a / b] ([0 <= a], [0 < b]) rounded to the nearest float,
    ties to even. *)
Definition round_half_even (a b : Z) : Z :=
  let q := a / b in
  let r := a mod b in
  if 2 * r <? b then q else if b <? 2 * r then q + 1 else if Z.even q then q else q + 1.

Definition float_of_fraction (sign : bool) (a b : Z) : number :=
  if a =? 0 then (if sign then (-0)%float else 0%float)
  else
    let l0 := Z.log2 a - Z.log2 b in
    let below := if 0 <=? l0 then a <? b * 2 ^ l0 else a * 2 ^ (- l0) <? b in
    let l := if below then l0 - 1 else l0 in
    let e := Z.max (l - 52) (-1074) in
    let m := if 0 <=? e then round_half_even a (b * 2 ^ e)
             else round_half_even (a * 2 ^ (- e)) b in
    match m with
    | Zpos p => SF2Prim (S754_finite sign p e)
    | _ => if sign then (-0)%float else 0%float
    end.

(** The decimal [mant * 10^ex] of [digits] digits as a float. *)
Definition float_of_decimal (sign : bool) (mant digits ex : Z) : number :=
  if mant =? 0 then float_of_fraction sign 0 1
  else if 310 <? ex then (if sign then neg_infinity else infinity)
  else if ex + digits <? -330 then float_of_fraction sign 0 1
  else if 0 <=? ex then float_of_fraction sign (mant * 10 ^ ex) 1
  else float_of_fraction sign mant (10 ^ (- ex)).

Definition is_ws (c : ascii) : bool :=
  let n := N_of_ascii c in
  ((n =? 32) || (n =? 9) || (n =? 10) || (n =? 13))%N.

Fixpoint skip_ws (s : string) : string :=
  match s with
  | String c r => if is_ws c then skip_ws r else s
  | EmptyString => s
  end.

Fixpoint strip_prefix (p s : string) : option string :=
  match p, s with
  | EmptyString, _ => Some s
  | String a p', String b s' => if Ascii.eqb a b then strip_prefix p' s' else None
  | _, _ => None
  end.

Definition digit_val (c : ascii) : option Z :=
  let n := Z.of_N (N_of_ascii c) in
  if (48 <=? n) && (n <=? 57) then Some (n - 48) else None.

(** The digits at the head of [s]: their value, their count, the rest. *)
Fixpoint read_digits (s : string) (acc count : Z) : Z * Z * string :=
  match s with
  | String c r =>
      match digit_val c with
      | Some d => read_digits r (10 * acc + d) (count + 1)
      | None => (acc, count, s)
      end
  | EmptyString => (acc, count, s)
  end.

Definition parse_exponent (sign : bool) (mant digits frac : Z) (s : string)
  : option (number * string) :=
  match s with
  | String c r =>
      if (Ascii.eqb c "e" || Ascii.eqb c "E")%char then
        let '(neg, r1) :=
          match r with
          | String d r' =>
              if Ascii.eqb d "+" then (false, r')
              else if Ascii.eqb d "-" then (true, r') else (false, r)
          | EmptyString => (false, r)
          end in
        let '(ev, ec, rest) := read_digits r1 0 0 in
        if ec =? 0 then None
        else Some (float_of_decimal sign mant digits ((if neg then - ev else ev) - frac), rest)
      else Some (float_of_decimal sign mant digits (- frac), s)
  | EmptyString => Some (float_of_decimal sign mant digits (- frac), s)
  end.

(** A JSON number: [-? int frac? exp?]. *)
Definition parse_number (s : string) : option (number * string) :=
  let '(sign, s1) :=
    match s with
    | String c r => if Ascii.eqb c "-" then (true, r) else (false, s)
    | EmptyString => (false, s)
    end in
  match s1 with
  | String c r =>
      match digit_val c with
      | None => None
      | Some d =>
          let '(ip, ic, s2) := if d =? 0 then (0, 1, r) else read_digits s1 0 0 in
          match s2 with
          | String c2 r2 =>
              if Ascii.eqb c2 "." then
                let '(fv, fc, s3) := read_digits r2 0 0 in
                if fc =? 0 then None
                else parse_exponent sign (ip * 10 ^ fc + fv) (ic + fc) fc s3
              else parse_exponent sign ip ic 0 s2
          | EmptyString => parse_exponent sign ip ic 0 s2
          end
      end
  | EmptyString => None
  end.

Definition hex_val (c : ascii) : option N :=
  let n := N_of_ascii c in
  if (48 <=? n)%N && (n <=? 57)%N then Some (n - 48)%N
  else if (97 <=? n)%N && (n <=? 102)%N then Some (n - 87)%N
  else if (65 <=? n)%N && (n <=? 70)%N then Some (n - 55)%N
  else None.

(** The code point [cp] in UTF-8; a surrogate code unit has no encoding. *)
Definition utf8 (cp : N) : option string :=
  if (cp <? 128)%N then Some (String (ascii_of_N cp) EmptyString)
  else if (cp <? 2048)%N then
    Some (String (ascii_of_N (192 + cp / 64)) (String (ascii_of_N (128 + cp mod 64)) EmptyString))
  else if (55296 <=? cp)%N && (cp <=? 57343)%N then None
  else if (cp <? 65536)%N then
    Some (String (ascii_of_N (224 + cp / 4096))
            (String (ascii_of_N (128 + (cp / 64) mod 64))
               (String (ascii_of_N (128 + cp mod 64)) EmptyString)))
  else
    Some (String (ascii_of_N (240 + cp / 262144))
            (String (ascii_of_N (128 + (cp / 4096) mod 64))
               (String (ascii_of_N (128 + (cp / 64) mod 64))
                  (String (ascii_of_N (128 + cp mod 64)) EmptyString)))).

(** The character written as the escapes of a surrogate pair. *)
Definition of_surrogates (high low : N) : N :=
  (65536 + (high - 55296) * 1024 + (low - 56320))%N.

Definition unescape (e : ascii) : option ascii :=
  let n := N_of_ascii e in
  if (n =? 34)%N then Some "034"%char
  else if (n =? 92)%N then Some "092"%char
  else if (n =? 47)%N then Some "/"%char
  else if (n =? 98)%N then Some "008"%char
  else if (n =? 102)%N then Some "012"%char
  else if (n =? 110)%N then Some "010"%char
  else if (n =? 114)%N then Some "013"%char
  else if (n =? 116)%N then Some "009"%char
  else None.

(** The characters of a JSON string up to its closing quote, and the rest.
    A character outside the basic plane may be written as the two escapes
    of its surrogate pair.  The escape of a surrogate that is not half of
    a pair, which [JSON.parse] turns into a string that is not well
    formed, is not accepted. *)
Fixpoint parse_chars (s : string) : option (string * string) :=
  match s with
  | EmptyString => None
  | String c r =>
      let n := N_of_ascii c in
      if (n =? 34)%N then Some (EmptyString, r)
      else if (n <? 32)%N then None
      else if (n =? 92)%N then
        match r with
        | String e r' =>
            if Ascii.eqb e "u" then
              match r' with
              | String h1 (String h2 (String h3 (String h4 r''))) =>
                  match hex_val h1, hex_val h2, hex_val h3, hex_val h4 with
                  | Some a, Some b, Some c', Some d =>
                      let cp := (((a * 16 + b) * 16 + c') * 16 + d)%N in
                      if (55296 <=? cp)%N && (cp <=? 56319)%N then
                        match r'' with
                        | String b1 (String u1
                            (String l1 (String l2 (String l3 (String l4 r3))))) =>
                            if Ascii.eqb b1 "092" && Ascii.eqb u1 "u" then
                              match hex_val l1, hex_val l2, hex_val l3, hex_val l4 with
                              | Some a2, Some b2, Some c2, Some d2 =>
                                  let low := (((a2 * 16 + b2) * 16 + c2) * 16 + d2)%N in
                                  if (56320 <=? low)%N && (low <=? 57343)%N then
                                    match utf8 (of_surrogates cp low), parse_chars r3 with
                                    | Some u, Some (t, rest) => Some (u +:+ t, rest)
                                    | _, _ => None
                                    end
                                  else None
                              | _, _, _, _ => None
                              end
                            else None
                        | _ => None
                        end
                      else
                        match utf8 cp, parse_chars r'' with
                        | Some u, Some (t, rest) => Some (u +:+ t, rest)
                        | _, _ => None
                        end
                  | _, _, _, _ => None
                  end
              | _ => None
              end
            else
              match unescape e, parse_chars r' with
              | Some ch, Some (t, rest) => Some (String ch t, rest)
              | _, _ => None
              end
        | EmptyString => None
        end
      else
        match parse_chars r with
        | Some (t, rest) => Some (String c t, rest)
        | None => None
        end
  end.

Fixpoint parse_value (fuel : nat) (s : string) {struct fuel} : option (json * string) :=
  match fuel with
  | O => None
  | S fuel' =>
      match skip_ws s with
      | EmptyString => None
      | String c r as s' =>
          if Ascii.eqb c "n" then option_map (pair JNull) (strip_prefix "ull" r)
          else if Ascii.eqb c "t" then option_map (pair (JBool true)) (strip_prefix "rue" r)
          else if Ascii.eqb c "f" then option_map (pair (JBool false)) (strip_prefix "alse" r)
          else if Ascii.eqb c "034" then
            match parse_chars r with
            | Some (str, rest) => Some (JString str, rest)
            | None => None
            end
          else if Ascii.eqb c "[" then
            match skip_ws r with
            | String c' r' =>
                if Ascii.eqb c' "]" then Some (JArray [], r')
                else match parse_elements fuel' r [] with
                     | Some (l, rest) => Some (JArray l, rest)
                     | None => None
                     end
            | EmptyString => None
            end
          else if Ascii.eqb c "{" then
            match skip_ws r with
            | String c' r' =>
                if Ascii.eqb c' "}" then Some (JObject [], r')
                else match parse_members fuel' r [] with
                     | Some (ms, rest) => Some (JObject ms, rest)
                     | None => None
                     end
            | EmptyString => None
            end
          else
            match parse_number s' with
            | Some (x, rest) => Some (JNumber x, rest)
            | None => None
            end
      end
  end
with parse_elements (fuel : nat) (s : string) (acc : list json) {struct fuel}
  : option (list json * string) :=
  match fuel with
  | O => None
  | S fuel' =>
      match parse_value fuel' s with
      | Some (v, r) =>
          match skip_ws r with
          | String c r' =>
              if Ascii.eqb c "," then parse_elements fuel' r' (app acc [v])
              else if Ascii.eqb c "]" then Some (app acc [v], r')
              else None
          | EmptyString => None
          end
      | None => None
      end
  end
with parse_members (fuel : nat) (s : string) (acc : list (string * json)) {struct fuel}
  : option (list (string * json) * string) :=
  match fuel with
  | O => None
  | S fuel' =>
      match skip_ws s with
      | String q r =>
          if Ascii.eqb q "034" then
            match parse_chars r with
            | Some (k, r1) =>
                match skip_ws r1 with
                | String c r2 =>
                    if Ascii.eqb c ":" then
                      match parse_value fuel' r2 with
                      | Some (v, r3) =>
                          match skip_ws r3 with
                          | String c' r4 =>
                              if Ascii.eqb c' "," then parse_members fuel' r4 (obj_set k v acc)
                              else if Ascii.eqb c' "}" then Some (obj_set k v acc, r4)
                              else None
                          | EmptyString => None
                          end
                      | None => None
                      end
                    else None
                | EmptyString => None
                end
            | None => None
            end
          else None
      | EmptyString => None
      end
  end.

(** [JSON.parse(text)]: the value, or a SyntaxError. *)
Definition JSON_parse (text : string) : Result json :=
  match parse_value (S (String.length text)) text with
  | Some (v, rest) =>
      match skip_ws rest with
      | EmptyString => Ok v
      | _ => Throw SyntaxError
      end
  | None => Throw SyntaxError
  end.

(** *** Values in conditions and as property keys *)

(** ToBoolean. *)
Definition truthy (v : json) : bool :=
  match v with
  | JUndefined | JNull => false
  | JBool b => b
  | JNumber x => negb (is_zero x || is_nan x)
  | JString s => negb (String.eqb s EmptyString)
  | JArray _ | JObject _ => true
  end.

(** A string or null used as a condition: the string when it is truthy. *)
Definition truthy_string (s : option string) : option string :=
  match s with
  | Some t => if String.eqb t EmptyString then None else Some t
  | None => None
  end.

(** ToString (an array joins its elements with commas). *)
Fixpoint ToString (v : json) : string :=
  match v with
  | JUndefined => "undefined"
  | JNull => "null"
  | JBool b => if b then "true" else "false"
  | JNumber x => Number_toString x
  | JString s => s
  | JArray l =>
      join_comma (map (fun e => match e with
                                | JUndefined | JNull => EmptyString
                                | _ => ToString e
                                end) l)
  | JObject _ => "[object Object]"
  end.

(** [v.k] on a parsed value: undefined when [v] has no such member. *)
Definition member (k : string) (v : json) : json :=
  match v with
  | JObject ms => default JUndefined (obj_get k ms)
  | _ => JUndefined
  end.

(** The own enumerable members [{...v}] copies. *)
Definition spread_members (v : json) : list (string * json) :=
  match v with
  | JObject ms => ms
  | JArray l => imap (fun i e => (pretty (Z.of_nat i), e)) l
  | JString s =>
      imap (fun i c => (pretty (Z.of_nat i), JString (String c EmptyString)))
           (list_ascii_of_string s)
  | _ => []
  end.

(** A member of an options object when it is a string (a number); any
    other value is outside the declared type and read as absent. *)
Definition prop_string (k : string) (o : list (string * json)) : option string :=
  match obj_get k o with
  | Some (JString s) => Some s
  | _ => None
  end.

Definition prop_number (k : string) (o : list (string * json)) : option number :=
  match obj_get k o with
  | Some (JNumber x) => Some x
  | _ => None
  end.

(** *** parseFloat and parseInt *)

Definition is_js_ws (c : ascii) : bool :=
  let n := N_of_ascii c in
  ((n =? 32) || ((9 <=? n) && (n <=? 13)))%N.

Fixpoint trim_start (s : string) : string :=
  match s with
  | String c r => if is_js_ws c then trim_start r else s
  | EmptyString => s
  end.

Definition read_sign (s : string) : bool * string :=
  match s with
  | String c r =>
      if Ascii.eqb c "-" then (true, r) else if Ascii.eqb c "+" then (false, r) else (false, s)
  | EmptyString => (false, s)
  end.

(** [parseFloat(s)]: the longest prefix of the trimmed string that is a
    decimal literal, NaN when there is none. *)
Definition parseFloat (s : string) : number :=
  let '(sign, s1) := read_sign (trim_start s) in
  match strip_prefix "Infinity" s1 with
  | Some _ => if sign then neg_infinity else infinity
  | None =>
      let '(ip, ic, s2) := read_digits s1 0 0 in
      let '(fv, fc, s3) :=
        match s2 with
        | String c r => if Ascii.eqb c "." then read_digits r 0 0 else (0, 0, s2)
        | EmptyString => (0, 0, s2)
        end in
      if ic + fc =? 0 then nan
      else
        let mant := ip * 10 ^ fc + fv in
        let ex :=
          match s3 with
          | String c r =>
              if (Ascii.eqb c "e" || Ascii.eqb c "E")%char then
                let '(neg, r1) := read_sign r in
                let '(ev, ec, _) := read_digits r1 0 0 in
                if ec =? 0 then 0 else if neg then - ev else ev
              else 0
          | EmptyString => 0
          end in
        float_of_decimal sign mant (ic + fc) (ex - fc)
  end.

Fixpoint read_hex (s : string) (acc count : Z) : Z * Z :=
  match s with
  | String c r =>
      match hex_val c with
      | Some d => read_hex r (16 * acc + Z.of_N d) (count + 1)
      | None => (acc, count)
      end
  | EmptyString => (acc, count)
  end.

(** [parseInt(s)] without a radix. *)
Definition parseInt (s : string) : number :=
  let '(sign, s1) := read_sign (trim_start s) in
  let hex :=
    match strip_prefix "0x" s1, strip_prefix "0X" s1 with
    | Some r, _ | None, Some r => Some r
    | None, None => None
    end in
  let '(value, count) :=
    match hex with
    | Some r => read_hex r 0 0
    | None => let '(v, c, _) := read_digits s1 0 0 in (v, c)
    end in
  if count =? 0 then nan else float_of_fraction sign value 1.

End JS.

(** ** The course model ([lib/models/Course.ts]) *)

Module CourseModel.
Import JS.

(** [ICourseData], without the members the storage assigns ([_id], [__v]
    and the timestamps [createdAt] and [updatedAt]): a document is its nine
    schema paths. *)
Record ICourseData := {
  course_id : string;
  title : string;
  description : string;
  category : string;
  instructor : string;
  duration : string;
  price : string;
  rating : number;
  skill_level : string
}.

(** [Partial<ICourse>]: each member may be absent. *)
Record PartialCourse := {
  p_course_id : option string;
  p_title : option string;
  p_description : option string;
  p_category : option string;
  p_instructor : option string;
  p_duration : option string;
  p_price : option string;
  p_rating : option number;
  p_skill_level : option string
}.

Definition no_change : PartialCourse :=
  {| p_course_id := None; p_title := None; p_description := None; p_category := None;
     p_instructor := None; p_duration := None; p_price := None; p_rating := None;
     p_skill_level := None |}.

Definition to_partial (c : ICourseData) : PartialCourse :=
  {| p_course_id := Some (course_id c); p_title := Some (title c);
     p_description := Some (description c); p_category := Some (category c);
     p_instructor := Some (instructor c); p_duration := Some (duration c);
     p_price := Some (price c); p_rating := Some (rating c);
     p_skill_level := Some (skill_level c) |}.

(** The document as JSON.stringify and the callers see it. *)
Definition course_json (c : ICourseData) : json :=
  JObject [("course_id", JString (course_id c)); ("title", JString (title c));
           ("description", JString (description c)); ("category", JString (category c));
           ("instructor", JString (instructor c)); ("duration", JString (duration c));
           ("price", JString (price c)); ("rating", JNumber (rating c));
           ("skill_level", JString (skill_level c))].

(** *** Schema validators

    [required: true] on a String path rejects the empty string; [min: 0],
    [max: 5] on [rating]; [enum] on [skill_level]. *)
Definition skill_levels : list string := ["beginner"; "intermediate"; "advanced"].

Definition required_string (s : string) : bool := negb (String.eqb s EmptyString).
Definition rating_in_range (r : number) : bool := (PrimFloat.leb 0 r && PrimFloat.leb r 5)%float.
Definition skill_level_in_enum (s : string) : bool := existsb (String.eqb s) skill_levels.

(** The failing paths of one member: an absent member fails when [required]. *)
Definition check_path {A} (path : string) (required : bool) (ok : A -> bool) (v : option A)
  : list string :=
  match v with
  | Some a => if ok a then [] else [path]
  | None => if required then [path] else []
  end.

(** The paths whose validators fail: on a new document ([required = true])
    every member is checked, on an update ([runValidators], [required =
    false]) the members the update sets. *)
Definition invalid_paths (required : bool) (p : PartialCourse) : list string :=
  (check_path "course_id" required required_string (p_course_id p)
  ++ check_path "title" required required_string (p_title p)
  ++ check_path "description" required required_string (p_description p)
  ++ check_path "category" required required_string (p_category p)
  ++ check_path "instructor" required required_string (p_instructor p)
  ++ check_path "duration" required required_string (p_duration p)
  ++ check_path "price" required required_string (p_price p)
  ++ check_path "rating" required rating_in_range (p_rating p)
  ++ check_path "skill_level" required skill_level_in_enum (p_skill_level p))%list.

(** A new document that passes validation, as it is stored. *)
Definition validated (p : PartialCourse) : option ICourseData :=
  match invalid_paths true p, p with
  | [], {| p_course_id := Some i; p_title := Some t; p_description := Some d;
           p_category := Some c; p_instructor := Some n; p_duration := Some u;
           p_price := Some m; p_rating := Some r; p_skill_level := Some s |} =>
      Some {| course_id := i; title := t; description := d; category := c;
              instructor := n; duration := u; price := m; rating := r; skill_level := s |}
  | _, _ => None
  end.

(** [$set] of the members the update has. *)
Definition apply_update (u : PartialCourse) (c : ICourseData) : ICourseData :=
  {| course_id := default (course_id c) (p_course_id u);
     title := default (title c) (p_title u);
     description := default (description c) (p_description u);
     category := default (category c) (p_category u);
     instructor := default (instructor c) (p_instructor u);
     duration := default (duration c) (p_duration u);
     price := default (price c) (p_price u);
     rating := default (rating c) (p_rating u);
     skill_level := default (skill_level c) (p_skill_level u) |}.

Definition has_id (id : string) (c : ICourseData) : bool := String.eqb (course_id c) id.

(** The first document with business key [id] replaced by [c']. *)
Fixpoint replace_first (id : string) (c' : ICourseData) (coll : list ICourseData)
  : list ICourseData :=
  match coll with
  | [] => []
  | c :: rest => if has_id id c then c' :: rest else c :: replace_first id c' rest
  end.

(** The first document with business key [id] removed. *)
Fixpoint remove_first (id : string) (coll : list ICourseData) : list ICourseData :=
  match coll with
  | [] => []
  | c :: rest => if has_id id c then rest else c :: remove_first id rest
  end.

(** An unordered bulk insert under the unique index on [course_id]: each
    document is written unless its key is taken, in which case its index
    is reported with code 11000 and the others still go in. *)
Fixpoint insert_unordered (docs : list ICourseData) (index : Z) (coll : list ICourseData)
  : list ICourseData * list WriteError :=
  match docs with
  | [] => (coll, [])
  | d :: rest =>
      if existsb (has_id (course_id d)) coll then
        let '(coll', errs) := insert_unordered rest (index + 1) coll in
        (coll', {| we_index := index; we_code := 11000 |} :: errs)
      else insert_unordered rest (index + 1) (coll ++ [d])%list
  end.

End CourseModel.

(** ** The world a request runs in *)

Import JS CourseModel.

(** A Redis entry: the payload and, when it was written with SETEX, its
    time to live in seconds. *)
Record Entry := { payload : string; ttl : option Z }.

(** The store calls a request issues, for the record. *)
Inductive MongoCall : Type :=
| CallFindOne (id : string)
| CallFind (query : json)
| CallCountDocuments (query : json)
| CallAggregate (pipeline : json)
| CallSave
| CallFindOneAndUpdate (id : string)
| CallFindOneAndDelete (id : string)
| CallInsertMany (documents : nat).

(** What becomes of a command sent through the Redis client: the server
    answers it; the client rejects it (an error reply, a connection lost
    under the command, a closed client); or the server cannot be reached.
    [connect] is configured with a [reconnectStrategy] that always returns
    a delay, so the client retries without end: while the server is
    unreachable, neither [connect] nor a command settles. *)
Inductive Fate : Type := Answered | Rejected | Unreachable.

Record World := {
  courses : list ICourseData;     (* the collection, in insertion order *)
  cache : gmap string Entry;      (* the Redis keyspace *)
  redis_clock : nat;              (* Redis commands settled so far *)
  redis_fate : nat -> Fate;       (* what becomes of the n-th command *)
  mongo_log : list MongoCall      (* store calls so far, the latest first *)
}.

Definition with_courses (cs : list ICourseData) (w : World) : World :=
  {| courses := cs; cache := cache w; redis_clock := redis_clock w;
     redis_fate := redis_fate w; mongo_log := mongo_log w |}.

Definition with_cache (c : gmap string Entry) (w : World) : World :=
  {| courses := courses w; cache := c; redis_clock := redis_clock w;
     redis_fate := redis_fate w; mongo_log := mongo_log w |}.

Definition tick (w : World) : World :=
  {| courses := courses w; cache := cache w; redis_clock := S (redis_clock w);
     redis_fate := redis_fate w; mongo_log := mongo_log w |}.

Definition logged (c : MongoCall) (w : World) : World :=
  {| courses := courses w; cache := cache w; redis_clock := redis_clock w;
     redis_fate := redis_fate w; mongo_log := c :: mongo_log w |}.

(** An [async] call: from a world to how it ends and the world it leaves
    (for a call that never settles, the world as far as it got). *)
Definition M (A : Type) : Type := World -> Result A * World.

#[global] Instance M_ret : MRet M := fun A a w => (Ok a, w).

#[global] Instance M_bind : MBind M := fun A B k m w =>
  match m w with
  | (Ok a, w') => k a w'
  | (Throw e, w') => (Throw e, w')
  | (Pending, w') => (Pending, w')
  end.

Definition throw {A} (e : exn) : M A := fun w => (Throw e, w).

(** [try { m } catch (error) { h error }]. *)
Definition try_catch {A} (m : M A) (h : exn -> M A) : M A := fun w =>
  match m w with
  | (Ok a, w') => (Ok a, w')
  | (Throw e, w') => h e w'
  | (Pending, w') => (Pending, w')
  end.

Definition result_of {A} (r : Result A * World) : Result A := fst r.
Definition world_of {A} (r : Result A * World) : World := snd r.

(** ** The cache gateway ([lib/redis.ts]) *)

Module redisService.

(** Redis glob patterns with [*], [?] and literal characters, which is
    what the patterns of the service, ['search:*'] and ['courses:*'], are
    made of; character classes and backslash escapes are left out. *)
Fixpoint glob (p s : list ascii) : bool :=
  match p with
  | [] => match s with [] => true | _ => false end
  | c :: p' =>
      if Ascii.eqb c "*" then
        (fix star (t : list ascii) : bool :=
           glob p' t || match t with [] => false | _ :: t' => star t' end) s
      else
        match s with
        | [] => false
        | d :: s' => (Ascii.eqb c "?" || Ascii.eqb c d) && glob p' s'
        end
  end.

Definition matches (pattern key : string) : bool :=
  glob (list_ascii_of_string pattern) (list_ascii_of_string key).

(** [await this.connect()] followed by one command of the client, as the
    fault schedule has it: the command runs on the keyspace; or the
    attempt is rejected as a whole and throws; or the server is
    unreachable and the attempt never settles. *)
Definition command {A} (run : gmap string Entry -> A * gmap string Entry) : M A := fun w =>
  match redis_fate w (redis_clock w) with
  | Answered => let '(a, c) := run (cache w) in (Ok a, with_cache c (tick w))
  | Rejected => (Throw RedisError, tick w)
  | Unreachable => (Pending, w)
  end.

Definition client_get (key : string) : M (option string) :=
  command (fun c => (payload <$> c !! key, c)).

Definition client_setEx (key : string) (seconds : Z) (value : string) : M unit :=
  command (fun c => (tt, <[key := {| payload := value; ttl := Some seconds |}]> c)).

Definition client_set (key value : string) : M unit :=
  command (fun c => (tt, <[key := {| payload := value; ttl := None |}]> c)).

Definition client_del (keys : list string) : M unit :=
  command (fun c => (tt, foldr delete c keys)).

Definition client_exists (key : string) : M Z :=
  command (fun c => (match c !! key with Some _ => 1 | None => 0 end, c)).

Definition client_keys (pattern : string) : M (list string) :=
  command (fun c => (filter (fun k => matches pattern k = true) (map_to_list c).*1, c)).

Definition get (key : string) : M (option string) :=
  try_catch (client_get key) (fun _ => mret None).

Definition set (key value : string) (expireInSeconds : option Z) : M bool :=
  try_catch
    (match expireInSeconds with
     | Some seconds =>
         if seconds =? 0 then client_set key value else client_setEx key seconds value
     | None => client_set key value
     end ≫= fun _ => mret true)
    (fun _ => mret false).

Definition del (key : string) : M bool :=
  try_catch (client_del [key] ≫= fun _ => mret true) (fun _ => mret false).

Definition exists_ (key : string) : M bool :=
  try_catch (result ← client_exists key; mret (result =? 1)) (fun _ => mret false).

Definition flushPattern (pattern : string) : M bool :=
  try_catch
    (keys ← client_keys pattern;
     (if (0 <? Z.of_nat (length keys)) then client_del keys else mret tt) ≫= fun _ =>
     mret true)
    (fun _ => mret false).

End redisService.

(** ** The store gateway: the Mongoose model [Course] *)

(** The query engine of the store (filtered, text and regular-expression
    search, sorting, paging, aggregation pipelines) is a black box: a
    parameter of the development.  A query may be rejected, for instance
    for an ill-formed regular expression. *)
Record Engine := {
  run_find : json -> json -> number -> number -> list ICourseData -> Result (list ICourseData);
  run_countDocuments : json -> list ICourseData -> Result number;
  run_aggregate : json -> list ICourseData -> Result (list json)
}.

Module Course.

Definition of_result {A} (r : Result A) : M A := fun w => (r, w).

Definition event (c : MongoCall) : M unit := fun w => (Ok tt, logged c w).

(** [Course.findOne({ course_id: courseId }).lean()]. *)
Definition findOne (courseId : string) : M (option ICourseData) := fun w =>
  (Ok (List.find (has_id courseId) (courses w)), logged (CallFindOne courseId) w).

(** [Course.find(query).sort(sort).skip(skip).limit(limit).lean()]. *)
Definition find (E : Engine) (query sort : json) (skip limit : number) : M (list ICourseData) :=
  fun w => (run_find E query sort skip limit (courses w), logged (CallFind query) w).

Definition countDocuments (E : Engine) (query : json) : M number := fun w =>
  (run_countDocuments E query (courses w), logged (CallCountDocuments query) w).

Definition aggregate (E : Engine) (pipeline : json) : M (list json) := fun w =>
  (run_aggregate E pipeline (courses w), logged (CallAggregate pipeline) w).

(** [new Course(courseData).save()]: validation, then the insert under the
    unique index. *)
Definition save (courseData : PartialCourse) : M ICourseData := fun w =>
  let w := logged CallSave w in
  match validated courseData with
  | None => (Throw (ValidationError (invalid_paths true courseData)), w)
  | Some c =>
      if existsb (has_id (course_id c)) (courses w) then (Throw (MongoServerError 11000), w)
      else (Ok c, with_courses (courses w ++ [c])%list w)
  end.

(** [Course.findOneAndUpdate({ course_id: courseId }, updateData,
    { new: true, runValidators: true })]: the update validators run before
    the query; the first matching document is updated, unless that would
    give two documents the same [course_id]; the updated document is
    returned, or null when none matches. *)
Definition findOneAndUpdate (courseId : string) (updateData : PartialCourse)
  : M (option ICourseData) := fun w =>
  let w := logged (CallFindOneAndUpdate courseId) w in
  match invalid_paths false updateData with
  | (_ :: _) as paths => (Throw (ValidationError paths), w)
  | [] =>
      match List.find (has_id courseId) (courses w) with
      | None => (Ok None, w)
      | Some c =>
          let c' := apply_update updateData c in
          if negb (String.eqb (course_id c') courseId)
             && existsb (has_id (course_id c')) (courses w)
          then (Throw (MongoServerError 11000), w)
          else (Ok (Some c'), with_courses (replace_first courseId c' (courses w)) w)
      end
  end.

(** [Course.findOneAndDelete({ course_id: courseId })]. *)
Definition findOneAndDelete (courseId : string) : M (option ICourseData) := fun w =>
  let w := logged (CallFindOneAndDelete courseId) w in
  match List.find (has_id courseId) (courses w) with
  | None => (Ok None, w)
  | Some c => (Ok (Some c), with_courses (remove_first courseId (courses w)) w)
  end.

(** [Course.insertMany(docs, { ordered: false })]: documents that fail
    validation are left out, the others are written unordered; write
    errors reject the call with the first error's code once every
    document has been tried. *)
Definition insertMany (docs : list PartialCourse) : M (list ICourseData) := fun w =>
  let w := logged (CallInsertMany (length docs)) w in
  let valid := omap validated docs in
  let '(coll, errs) := insert_unordered valid 0 (courses w) in
  match errs with
  | [] => (Ok valid, with_courses coll w)
  | e :: _ => (Throw (MongoBulkWriteError (we_code e) errs), with_courses coll w)
  end.

End Course.

(** ** The course service ([lib/course-service.ts]) *)

Module CourseService.

Record BulkInsertResult := {
  insertedCount : Z;
  duplicateCount : Z;
  errors : list WriteError
}.

Definition CACHE_TTL_COURSE_DETAIL : Z := 1800.
Definition CACHE_TTL_SEARCH_RESULTS : Z := 600.
Definition CACHE_TTL_COURSE_LIST : Z := 300.

(** The key [searchCourses] caches a descriptor under. *)
Definition search_cache_key (options : list (string * json)) : string :=
  "search:" +:+ JSON_stringify (JObject options).

Definition invalidateSearchCaches : M unit :=
  _ ← redisService.flushPattern "search:*";
  _ ← redisService.flushPattern "courses:*";
  _ ← redisService.del "course:stats";
  mret tt.

(** The members of the descriptor, with their defaults. *)
Definition page_of (options : list (string * json)) : number :=
  default 1%float (prop_number "page" options).

Definition limit_of (options : list (string * json)) : number :=
  default 20%float (prop_number "limit" options).

(** [mongoQuery]: the filter built from the descriptor. *)
Definition mongoQuery (options : list (string * json)) : list (string * json) :=
  let query := default EmptyString (prop_string "query" options) in
  let category := prop_string "category" options in
  let skillLevel := prop_string "skillLevel" options in
  let minRating := prop_number "minRating" options in
  let mongoQuery : list (string * json) := [] in
  let mongoQuery :=
    if truthy (JString query)
    then obj_set "$text" (JObject [("$search", JString query)]) mongoQuery
    else mongoQuery in
  let mongoQuery :=
    match truthy_string category with
    | Some c =>
        if negb (String.eqb c "all")
        then obj_set "category"
               (JObject [("$regex", JString c); ("$options", JString "i")]) mongoQuery
        else mongoQuery
    | None => mongoQuery
    end in
  let mongoQuery :=
    match truthy_string skillLevel with
    | Some l =>
        if negb (String.eqb l "all")
        then obj_set "skill_level" (JString l) mongoQuery
        else mongoQuery
    | None => mongoQuery
    end in
  match minRating with
  | Some r => obj_set "rating" (JObject [("$gte", JNumber r)]) mongoQuery
  | None => mongoQuery
  end.

(** [sortCriteria]. *)
Definition sortCriteria (options : list (string * json)) : json :=
  let query := default EmptyString (prop_string "query" options) in
  if truthy (JString query)
  then JObject [("score", JObject [("$meta", JString "textScore")]);
                ("rating", JNumber (-1)%float)]
  else JObject [("rating", JNumber (-1)%float)].

(** [result]: the page made of what the store returned. *)
Definition search_result (courses : list ICourseData) (totalCount page limit : number) : json :=
  JObject [("courses", JArray (map course_json courses));
           ("totalCount", JNumber totalCount);
           ("pagination",
            JObject [("currentPage", JNumber page);
                     ("totalPages", JNumber (Math_ceil (totalCount / limit)%float));
                     ("hasNext", JBool (PrimFloat.ltb (page * limit)%float totalCount));
                     ("hasPrev", JBool (PrimFloat.ltb 1%float page))]);
           ("cached", JBool false)].

(** The three pipelines of the statistics. *)
Definition by_category : json :=
  JArray [JObject [("$group", JObject [("_id", JString "$category");
                                        ("count", JObject [("$sum", JNumber 1%float)])])]].

Definition by_skill_level : json :=
  JArray [JObject [("$group", JObject [("_id", JString "$skill_level");
                                        ("count", JObject [("$sum", JNumber 1%float)])])]].

Definition average_rating : json :=
  JArray [JObject [("$group", JObject [("_id", JNull);
                                        ("avgRating", JObject [("$avg", JString "$rating")])])]].

(** [stats]: the statistics made of what the store returned. *)
Definition stats_result (totalCourses : number) (categoryStats skillLevelStats avgRating : list json)
  : json :=
  let count_by items :=
    fold_left (fun acc item => obj_set (ToString (member "_id" item)) (member "count" item) acc)
              items [] in
  let average :=
    match avgRating with
    | first :: _ => member "avgRating" first
    | [] => JUndefined
    end in
  JObject [("totalCourses", JNumber totalCourses);
           ("categoriesCount", JObject (count_by categoryStats));
           ("skillLevelCount", JObject (count_by skillLevelStats));
           ("averageRating", if truthy average then average else JNumber 0%float)].

Section WithEngine.
Variable E : Engine.

Definition searchCourses (options : list (string * json)) : M json :=
  let page := page_of options in
  let limit := limit_of options in
  let cacheKey := search_cache_key options in
  cachedResult ← redisService.get cacheKey;
  match truthy_string cachedResult with
  | Some text =>
      parsed ← Course.of_result (JSON_parse text);
      mret (JObject (obj_set "cached" (JBool true) (spread_members parsed)))
  | None =>
      let skip := ((page - 1) * limit)%float in
      courses ← Course.find E (JObject (mongoQuery options)) (sortCriteria options) skip limit;
      totalCount ← Course.countDocuments E (JObject (mongoQuery options));
      let result := search_result courses totalCount page limit in
      _ ← redisService.set cacheKey (JSON_stringify result) (Some CACHE_TTL_SEARCH_RESULTS);
      mret result
  end.

Definition getCourseStats : M json :=
  let cacheKey := "course:stats" in
  cachedStats ← redisService.get cacheKey;
  match truthy_string cachedStats with
  | Some text => Course.of_result (JSON_parse text)
  | None =>
      totalCourses ← Course.countDocuments E (JObject []);
      categoryStats ← Course.aggregate E by_category;
      skillLevelStats ← Course.aggregate E by_skill_level;
      avgRating ← Course.aggregate E average_rating;
      let stats := stats_result totalCourses categoryStats skillLevelStats avgRating in
      _ ← redisService.set cacheKey (JSON_stringify stats) (Some 900);
      mret stats
  end.

End WithEngine.

Definition getCourseById (courseId : string) : M json :=
  let cacheKey := "course:" +:+ courseId in
  cachedCourse ← redisService.get cacheKey;
  match truthy_string cachedCourse with
  | Some text => Course.of_result (JSON_parse text)
  | None =>
      course ← Course.findOne courseId;
      match course with
      | Some c =>
          _ ← redisService.set cacheKey (JSON_stringify (course_json c))
                (Some CACHE_TTL_COURSE_DETAIL);
          mret (course_json c)
      | None => mret JNull
      end
  end.

Definition createCourse (courseData : PartialCourse) : M ICourseData :=
  savedCourse ← Course.save courseData;
  _ ← invalidateSearchCaches;
  mret savedCourse.

Definition updateCourse (courseId : string) (updateData : PartialCourse)
  : M (option ICourseData) :=
  updatedCourse ← Course.findOneAndUpdate courseId updateData;
  match updatedCourse with
  | Some _ =>
      _ ← redisService.del ("course:" +:+ courseId);
      _ ← invalidateSearchCaches;
      mret updatedCourse
  | None => mret updatedCourse
  end.

Definition deleteCourse (courseId : string) : M bool :=
  result ← Course.findOneAndDelete courseId;
  match result with
  | Some _ =>
      _ ← redisService.del ("course:" +:+ courseId);
      _ ← invalidateSearchCaches;
      mret true
  | None => mret false
  end.

Definition bulkInsertCourses (courses : list PartialCourse) : M BulkInsertResult :=
  counts ←
    try_catch
      (result ← Course.insertMany courses;
       mret {| insertedCount := Z.of_nat (length result); duplicateCount := 0; errors := [] |})
      (fun error =>
         match error with
         | MongoBulkWriteError 11000 writeErrors =>
             mret {| insertedCount := Z.of_nat (length courses) - Z.of_nat (length writeErrors);
                     duplicateCount := Z.of_nat (length writeErrors);
                     errors := writeErrors |}
         | MongoServerError 11000 =>
             mret {| insertedCount := Z.of_nat (length courses); duplicateCount := 0;
                     errors := [] |}
         | _ => throw error
         end);
  _ ← invalidateSearchCaches;
  mret counts.

End CourseService.

(** ** Request validation ([lib/validation.ts]) *)

Module Validation.

(** A zod issue: the path of the offending member and the message. *)
Record ZodIssue := { path : list string; message : string }.

(** What [validateRequest] returns: [{ success: true, data }] or
    [{ success: false, errors }]. *)
Inductive Validated (A : Type) : Type :=
| Success (data : A)
| Failure (errors : list string).
Arguments Success {A} data.
Arguments Failure {A} errors.

(** zod's name of the type of a value. *)
Definition parsed_type (v : json) : string :=
  match v with
  | JUndefined => "undefined"
  | JNull => "null"
  | JBool _ => "boolean"
  | JNumber x => if is_nan x then "nan" else "number"
  | JString _ => "string"
  | JArray _ => "array"
  | JObject _ => "object"
  end.

Definition issue (field message : string) : ZodIssue :=
  {| path := [field]; message := message |}.

Definition wrong_type (field expected : string) (v : json) : list ZodIssue :=
  match v with
  | JUndefined => [issue field "Required"]
  | _ => [issue field ("Expected " +:+ expected +:+ ", received " +:+ parsed_type v)]
  end.

(** [s.length]: the number of UTF-16 code units of a string, which is
    held here as its UTF-8 bytes.  A continuation byte adds nothing and
    the lead byte of a four-byte sequence, a character outside the basic
    plane, adds two. *)
Definition code_units (c : ascii) : nat :=
  let n := N_of_ascii c in
  if (n <? 128)%N then 1 else if (n <? 192)%N then 0 else if (n <? 240)%N then 1 else 2.

Fixpoint js_length (s : string) : nat :=
  match s with
  | EmptyString => 0
  | String c r => code_units c + js_length r
  end.

(** [z.string().min(least, message)] and an optional [.max(most, message)]:
    zod compares [s.length]. *)
Definition check_string (field : string) (least : nat) (too_short : string)
    (most : option (nat * string)) (v : json) : list ZodIssue :=
  match v with
  | JString s =>
      ((if (js_length s <? least)%nat then [issue field too_short] else [])
       ++ match most with
          | Some (m, too_long) =>
              if (m <? js_length s)%nat then [issue field too_long] else []
          | None => []
          end)%list
  | _ => wrong_type field "string" v
  end.

(** [z.number().min(0).max(5, 'Rating must be between 0 and 5')]. *)
Definition check_rating (field : string) (v : json) : list ZodIssue :=
  match v with
  | JNumber x =>
      if is_nan x then wrong_type field "number" v
      else
        ((if PrimFloat.ltb x 0 then [issue field "Number must be greater than or equal to 0"]
          else [])
         ++ (if PrimFloat.ltb 5 x then [issue field "Rating must be between 0 and 5"] else []))%list
  | _ => wrong_type field "number" v
  end.

Definition enum_expected : string := "'beginner' | 'intermediate' | 'advanced'".

(** [z.enum(['beginner', 'intermediate', 'advanced'])]. *)
Definition check_skill_level (field : string) (v : json) : list ZodIssue :=
  match v with
  | JString s =>
      if skill_level_in_enum s then []
      else [issue field ("Invalid enum value. Expected " +:+ enum_expected
                         +:+ ", received '" +:+ s +:+ "'")]
  | _ => wrong_type field enum_expected v
  end.

(** [.partial()] makes a member optional: an absent one is accepted. *)
Definition member_check (partial : bool) (check : json -> list ZodIssue) (v : json)
  : list ZodIssue :=
  match v with
  | JUndefined => if partial then [] else check v
  | _ => check v
  end.

(** The issues of the members of [CourseCreateSchema] (of
    [CourseUpdateSchema] when [partial]), in the order of the schema. *)
Definition course_issues (partial : bool) (body : json) : list ZodIssue :=
  match body with
  | JObject _ =>
      let on field check := member_check partial (check field) (member field body) in
      (on "course_id" (fun f => check_string f 1 "Course ID is required" None)
       ++ on "title" (fun f => check_string f 1 "Title is required" (Some (200%nat, "Title too long")))
       ++ on "description"
            (fun f => check_string f 10 "Description must be at least 10 characters" None)
       ++ on "category" (fun f => check_string f 1 "Category is required" None)
       ++ on "instructor" (fun f => check_string f 1 "Instructor is required" None)
       ++ on "duration" (fun f => check_string f 1 "Duration is required" None)
       ++ on "price" (fun f => check_string f 1 "Price is required" None)
       ++ on "rating" check_rating
       ++ on "skill_level" check_skill_level)%list
  | JUndefined => [{| path := []; message := "Required" |}]
  | _ => [{| path := []; message := "Expected object, received " +:+ parsed_type body |}]
  end.

(** The parsed data: the members of the schema, unknown keys stripped. *)
Definition course_data (body : json) : PartialCourse :=
  let ms := spread_members body in
  {| p_course_id := prop_string "course_id" ms; p_title := prop_string "title" ms;
     p_description := prop_string "description" ms; p_category := prop_string "category" ms;
     p_instructor := prop_string "instructor" ms; p_duration := prop_string "duration" ms;
     p_price := prop_string "price" ms; p_rating := prop_number "rating" ms;
     p_skill_level := prop_string "skill_level" ms |}.

(** A schema: [schema.parse(data)] gives the data or the issues. *)
Record ZodSchema (A : Type) := { parse : json -> list ZodIssue + A }.
Arguments parse {A} _ _.

Definition course_schema (partial : bool) : ZodSchema PartialCourse :=
  {| parse := fun body =>
       match course_issues partial body with
       | [] => inr (course_data body)
       | issues => inl issues
       end |}.

Definition CourseCreateSchema : ZodSchema PartialCourse := course_schema false.
Definition CourseUpdateSchema : ZodSchema PartialCourse := course_schema true.

Definition validateRequest {A} (schema : ZodSchema A) (data : json) : Validated A :=
  match parse schema data with
  | inr validated => Success validated
  | inl issues =>
      Failure (map (fun err => String.concat "." (path err) +:+ ": " +:+ message err) issues)
  end.

(** [createErrorResponse] and [createSuccessResponse]; [timestamp] is
    [new Date().toISOString()] at the call. *)
Definition createErrorResponse (timestamp message : string) (details code : json) : json :=
  JObject [("error", JString message); ("details", details); ("code", code);
           ("timestamp", JString timestamp)].

Definition createSuccessResponse (timestamp : string) (data message : json) : json :=
  JObject [("success", JBool true); ("data", data); ("message", message);
           ("timestamp", JString timestamp)].

End Validation.

(** ** CSV rows ([lib/csv-parser.ts]) *)

Module CsvParser.

Record CSVCourseData := {
  course_id : string;
  title : string;
  description : string;
  category : string;
  instructor : string;
  duration : string;
  price : string;
  rating : string;
  skill_level : string
}.

Definition required (value field : string) : list string :=
  if truthy (JString value) then [] else [field +:+ " is required"].

Definition validateCourseData (data : CSVCourseData) : list string :=
  (required (course_id data) "course_id"
   ++ required (title data) "title"
   ++ required (description data) "description"
   ++ required (category data) "category"
   ++ required (instructor data) "instructor"
   ++ required (duration data) "duration"
   ++ required (price data) "price"
   ++ (if truthy (JString (rating data)) then
         let rating := parseFloat (rating data) in
         if is_nan rating || PrimFloat.ltb rating 0 || PrimFloat.ltb 5 rating
         then ["rating must be a number between 0 and 5"]
         else []
       else [])
   ++ (if truthy (JString (skill_level data)) && negb (skill_level_in_enum (skill_level data))
       then ["skill_level must be beginner, intermediate, or advanced"]
       else []))%list.

End CsvParser.

(** ** Route handlers *)

(** [lib/auth.ts]: the verified token of a request, if any. *)
Module Auth.

Record JWTPayload := {
  userId : string;
  email : string;
  role : string;
  iat : number;
  exp : number
}.

Definition isAdmin (payload : option JWTPayload) : bool :=
  match payload with
  | Some p => String.eqb (role p) "admin"
  | None => false
  end.

End Auth.

(** [NextResponse.json(body, { status })]. *)
Record Response := { status : Z; body : json }.

Definition respond (status : Z) (body : json) : M Response :=
  mret {| status := status; body := body |}.

(** How an awaited call of the platform ends: with a value, or with an
    error of the given message. *)
Inductive Promise (A : Type) : Type :=
| Resolves (a : A)
| Rejects (message : string).
Arguments Resolves {A} a.
Arguments Rejects {A} message.

(** [app/api/courses/[id]/route.ts].  [message_of] is the text of the
    [message] of a caught error, [now] the timestamp of the response. *)
Module CourseIdRoute.
Import Validation.

Section Handlers.
Variable message_of : exn -> string.
Variable now : string.

Definition GET (courseId : string) : M Response :=
  try_catch
    (let cacheKey := "course:" +:+ courseId in
     cachedCourse ← redisService.get cacheKey;
     match truthy_string cachedCourse with
     | Some text =>
         parsed ← Course.of_result (JSON_parse text);
         respond 200 (JObject (obj_set "cached" (JBool true) (spread_members parsed)))
     | None =>
         course ← Course.findOne courseId;
         match course with
         | None =>
             respond 404
               (createErrorResponse now "Course not found"
                  (JString ("No course found with ID: " +:+ courseId)) JUndefined)
         | Some c =>
             let response := createSuccessResponse now (course_json c) JUndefined in
             _ ← redisService.set cacheKey (JSON_stringify response) (Some 1800);
             respond 200 response
         end
     end)
    (fun error =>
       respond 500
         (createErrorResponse now "Failed to fetch course" (JString (message_of error)) JUndefined)).

(** [json] is how [request.json()] ends; when it rejects, the handler's
    [catch] answers with the message of the error. *)
Definition PUT (user : option Auth.JWTPayload) (courseId : string) (json : Promise json)
  : M Response :=
  try_catch
    (if negb (Auth.isAdmin user) then
       respond 401 (createErrorResponse now "Unauthorized" (JString "Admin access required") JUndefined)
     else
       match json with
       | Rejects message =>
           respond 500
             (createErrorResponse now "Failed to update course" (JString message) JUndefined)
       | Resolves body =>
           match validateRequest CourseUpdateSchema body with
           | Failure errors =>
               respond 400
                 (createErrorResponse now "Validation failed" (JString (String.concat ", " errors))
                    JUndefined)
           | Success data =>
               updatedCourse ← Course.findOneAndUpdate courseId data;
               match updatedCourse with
               | None =>
                   respond 404
                     (createErrorResponse now "Course not found"
                        (JString ("No course found with ID: " +:+ courseId)) JUndefined)
               | Some c =>
                   _ ← redisService.del ("course:" +:+ courseId);
                   _ ← redisService.flushPattern "search:*";
                   _ ← redisService.flushPattern "courses:*";
                   respond 200
                     (createSuccessResponse now (course_json c)
                        (JString "Course updated successfully"))
               end
           end
       end)
    (fun error =>
       respond 500
         (createErrorResponse now "Failed to update course" (JString (message_of error)) JUndefined)).

Definition DELETE (user : option Auth.JWTPayload) (courseId : string) : M Response :=
  try_catch
    (if negb (Auth.isAdmin user) then
       respond 401 (createErrorResponse now "Unauthorized" (JString "Admin access required") JUndefined)
     else
       deletedCourse ← Course.findOneAndDelete courseId;
       match deletedCourse with
       | None =>
           respond 404
             (createErrorResponse now "Course not found"
                (JString ("No course found with ID: " +:+ courseId)) JUndefined)
       | Some _ =>
           _ ← redisService.del ("course:" +:+ courseId);
           _ ← redisService.flushPattern "search:*";
           _ ← redisService.flushPattern "courses:*";
           respond 200 (createSuccessResponse now JNull (JString "Course deleted successfully"))
       end)
    (fun error =>
       respond 500
         (createErrorResponse now "Failed to delete course" (JString (message_of error)) JUndefined)).

End Handlers.
End CourseIdRoute.

(** The search route (in the same source file): the key its GET handler
    caches a result page under.  The members are written in one fixed
    order, whatever the order of the parameters in the URL; an absent
    parameter is null. *)
Module SearchRoute.

Definition nullable (s : option string) : json :=
  match s with
  | Some t => JString t
  | None => JNull
  end.

(** [query.toLowerCase()] on one character. *)
Definition lower (c : ascii) : ascii :=
  let n := N_of_ascii c in
  if ((65 <=? n) && (n <=? 90))%N then ascii_of_N (n + 32) else c.

Definition toLowerCase (s : string) : string :=
  string_of_list_ascii (map lower (list_ascii_of_string s)).

Definition cache_key (query : string) (category skillLevel minRating : option string)
    (page limit : number) : string :=
  "search:" +:+ JSON_stringify
    (JObject [("query", JString (toLowerCase query)); ("category", nullable category);
              ("skillLevel", nullable skillLevel); ("minRating", nullable minRating);
              ("page", JNumber page); ("limit", JNumber limit)]).

End SearchRoute.

(** [app/api/courses/upload/route.ts]: the listing of the GET handler. *)
Module UploadRoute.

(** The filter of the listing: the parameters that are present. *)
Definition list_query (category skill_level : option string) : list (string * json) :=
  let query : list (string * json) := [] in
  let query :=
    match truthy_string category with
    | Some c => obj_set "category" (JString c) query
    | None => query
    end in
  match truthy_string skill_level with
  | Some l => obj_set "skill_level" (JString l) query
  | None => query
  end.

(** The key of a listing page. *)
Definition list_cache_key (query : list (string * json)) (page limit : number) : string :=
  "courses:list:" +:+ JSON_stringify (JObject query) +:+ ":" +:+ Number_toString page
  +:+ ":" +:+ Number_toString limit.

(** [result]: the page made of what the store returned. *)
Definition list_result (courses : list ICourseData) (totalCount page limit : number) : json :=
  JObject [("success", JBool true);
           ("courses", JArray (map course_json courses));
           ("pagination",
            JObject [("currentPage", JNumber page);
                     ("totalPages", JNumber (Math_ceil (totalCount / limit)%float));
                     ("totalCourses", JNumber totalCount);
                     ("hasNext", JBool (PrimFloat.ltb (page * limit)%float totalCount));
                     ("hasPrev", JBool (PrimFloat.ltb 1%float page))])].

(** [.sort({ createdAt: -1 })]. *)
Definition newest_first : json := JObject [("createdAt", JNumber (-1)%float)].

Section Handlers.
Variable E : Engine.

Definition GET (user : option Auth.JWTPayload) (page limit category skill_level : option string)
  : M Response :=
  if negb (Auth.isAdmin user) then
    respond 401 (JObject [("error", JString "Unauthorized. Admin access required.")])
  else
    try_catch
      (let page := parseInt (default "1" (truthy_string page)) in
       let limit := parseInt (default "20" (truthy_string limit)) in
       let query := list_query category skill_level in
       let cacheKey := list_cache_key query page limit in
       cachedResult ← redisService.get cacheKey;
       match truthy_string cachedResult with
       | Some text =>
           parsed ← Course.of_result (JSON_parse text);
           respond 200 parsed
       | None =>
           let skip := ((page - 1) * limit)%float in
           courses ← Course.find E (JObject query) newest_first skip limit;
           totalCount ← Course.countDocuments E (JObject query);
           let result := list_result courses totalCount page limit in
           _ ← redisService.set cacheKey (JSON_stringify result) (Some 300);
           respond 200 result
       end)
      (fun _ => respond 500 (JObject [("error", JString "Failed to fetch courses")])).

End Handlers.
End UploadRoute.

(** ** Credentials of a request ([lib/auth.ts]) *)

Module AuthRequest.

(** What [getTokenFromRequest] reads of a request: the value of the
    [auth-token] cookie and the [authorization] header, when present. *)
Record Credentials := { cookie : option string; authorization : option string }.

(** [s.startsWith(p)]. *)
Definition startsWith (p s : string) : bool :=
  match strip_prefix p s with
  | Some _ => true
  | None => false
  end.

Definition getTokenFromRequest (request : Credentials) : option string :=
  match truthy_string (cookie request) with
  | Some tokenFromCookie => Some tokenFromCookie
  | None =>
      match truthy_string (authorization request) with
      | Some authHeader =>
          if startsWith "Bearer " authHeader then Some (str_drop 7 authHeader) else None
      | None => None
      end
  end.

Section Verifier.
(** [verifyToken]: the payload [jwt.verify] decodes under the secret, null
    when it throws. *)
Variable verifyToken : string -> option Auth.JWTPayload.

Definition isAuthenticated (request : Credentials) : option Auth.JWTPayload :=
  match truthy_string (getTokenFromRequest request) with
  | Some token => verifyToken token
  | None => None
  end.

End Verifier.
End AuthRequest.

(** [app/api/admin/dashboard/route.ts]; [payload] is what
    [isAuthenticated(request)] returned. *)
Module DashboardRoute.

Definition GET (now : string) (payload : option Auth.JWTPayload) : M Response :=
  try_catch
    (match payload with
     | None => respond 401 (JObject [("error", JString "Authentication required")])
     | Some p =>
         if negb (Auth.isAdmin payload) then
           respond 403 (JObject [("error", JString "Admin access required")])
         else
           respond 200
             (JObject [("message", JString "Welcome to the admin dashboard!");
                       ("admin", JObject [("id", JString (Auth.userId p));
                                          ("email", JString (Auth.email p));
                                          ("role", JString (Auth.role p))]);
                       ("dashboardData",
                        JObject [("totalUsers", JNumber 1%float);
                                 ("totalCourses", JNumber 0%float);
                                 ("systemStatus", JString "operational");
                                 ("lastLogin", JString now)])])
     end)
    (fun _ => respond 500 (JObject [("error", JString "Internal server error")])).

End DashboardRoute.

(** [app/api/health/route.ts].  The process supplies the clock, its
    environment and its uptime; [dbConnect] tells whether the connection to
    the store is established. *)
Module HealthRoute.

Section Process.
Variable now : string.
Variable npm_package_version : option string.
Variable GEMINI_API_KEY : option string.
Variable uptime : number.
Variable dbConnect : bool.

Definition GET : M Response :=
  let status := "healthy" in
  let '(mongodb, status) :=
    if dbConnect then ("connected", status) else ("disconnected", "degraded") in
  redis ←
    try_catch (_ ← redisService.get "health-check"; mret "connected")
              (fun _ => mret "disconnected");
  let gemini :=
    match truthy_string GEMINI_API_KEY with
    | Some _ => "configured"
    | None => "not-configured"
    end in
  respond (if String.eqb status "healthy" then 200 else 503)
    (JObject [("status", JString status);
              ("timestamp", JString now);
              ("services", JObject [("mongodb", JString mongodb); ("redis", JString redis);
                                    ("gemini", JString gemini)]);
              ("version", JString (default "1.0.0" (truthy_string npm_package_version)));
              ("uptime", JNumber uptime)]).

End Process.
End HealthRoute.

(** The advanced search (POST of the search route): the key a result page
    is cached under, for a request body that is a JSON object.  A member
    that is absent takes the default of the destructuring. *)
Module AdvancedSearchRoute.

Definition or_default (d : json) (v : option json) : json :=
  match v with
  | None | Some JUndefined => d
  | Some x => x
  end.

Definition cache_key (body : list (string * json)) : string :=
  let query := or_default (JString EmptyString) (obj_get "query" body) in
  let filters := or_default (JObject []) (obj_get "filters" body) in
  let sort := or_default (JObject [("rating", JNumber (-1)%float)]) (obj_get "sort" body) in
  let page := or_default (JNumber 1%float) (obj_get "page" body) in
  let limit := or_default (JNumber 20%float) (obj_get "limit" body) in
  "advanced_search:" +:+ JSON_stringify
    (JObject [("query", query); ("filters", filters); ("sort", sort); ("page", page);
              ("limit", limit)]).

End AdvancedSearchRoute.

(** ** The CSV import ([lib/csv-parser.ts], POST of
    [app/api/courses/upload/route.ts])

    A row is taken at its declared type [CSVCourseData]: each member is a
    string, and a column the file does not have reads as the empty string
    (the code tests a member for truthiness before any other use).  The
    parser is configured with [cast: true], which hands a cell that is a
    numeral over as that number; [parseFloat] and the range test of a
    rating are the same for the number and for its text, but a cell that
    reads as zero is falsy as a number and truthy as text, and a number
    is stored and reported as the store and JSON print it, not as the
    file spells it.  Statements on which this bears are about records
    whose cells other than the rating do not read as zero. *)

Module CsvBuffer.
Import CsvParser.

(** The test of the ['data'] handler: a record is kept when these four
    members are truthy. *)
Definition complete (data : CSVCourseData) : bool :=
  truthy (JString (course_id data)) && truthy (JString (title data))
  && truthy (JString (description data)) && truthy (JString (category data)).

(** [parseCSVBuffer]: [stream] is what the csv-parse stream makes of the
    buffer, the records of its ['data'] events up to ['end'], or its
    ['error']. *)
Definition parseCSVBuffer (stream : Promise (list CSVCourseData))
  : Promise (list CSVCourseData) :=
  match stream with
  | Resolves records => Resolves (List.filter complete records)
  | Rejects message => Rejects message
  end.

End CsvBuffer.

Module CourseUpload.
Import CsvParser.

(** The uploaded [File]: its media type and what the CSV parser reads in
    its bytes. *)
Record File := { type : string; records : Promise (list CSVCourseData) }.

(** An entry of the error report. *)
Record RowError := { row : Z; row_course_id : string; row_errors : list string }.

Definition row_error_json (e : RowError) : json :=
  JObject [("row", JNumber (Z2F (row e))); ("course_id", JString (row_course_id e));
           ("errors", JArray (map JString (row_errors e)))].

(** The document made of a valid row. *)
Definition courseDoc (courseData : CSVCourseData) : PartialCourse :=
  {| p_course_id := Some (course_id courseData);
     p_title := Some (title courseData);
     p_description := Some (description courseData);
     p_category := Some (category courseData);
     p_instructor := Some (instructor courseData);
     p_duration := Some (duration courseData);
     p_price := Some (price courseData);
     p_rating := Some (let r := parseFloat (rating courseData) in
                       if truthy (JNumber r) then r else 0%float);
     p_skill_level := Some (default "beginner" (truthy_string (Some (skill_level courseData)))) |}.

(** The loop over the rows from index [i] on: the documents of the valid
    rows and the report of the others. *)
Fixpoint process (csvData : list CSVCourseData) (i : Z) : list PartialCourse * list RowError :=
  match csvData with
  | [] => ([], [])
  | courseData :: rest =>
      let validationErrors := validateCourseData courseData in
      let '(validCourses, errors) := process rest (i + 1) in
      if 0 <? Z.of_nat (length validationErrors) then
        (validCourses,
         {| row := i + 2; row_course_id := course_id courseData;
            row_errors := validationErrors |} :: errors)
      else (courseDoc courseData :: validCourses, errors)
  end.

Section Handlers.
Variable message_of : exn -> string.

Definition failed (details : string) : M Response :=
  respond 500 (JObject [("error", JString "Internal server error during course upload");
                        ("details", JString details)]).

(** [formData] is how [request.formData()] ends: with the [file] field of
    the form, if any, or with an error. *)
Definition POST (user : option Auth.JWTPayload) (formData : Promise (option File))
  : M Response :=
  try_catch
    (if negb (Auth.isAdmin user) then
       respond 401 (JObject [("error", JString "Unauthorized. Admin access required.")])
     else
       match formData with
       | Rejects message => failed message
       | Resolves None => respond 400 (JObject [("error", JString "No file provided")])
       | Resolves (Some file) =>
           if negb (String.eqb (type file) "text/csv") then
             respond 400
               (JObject [("error", JString "Invalid file type. Please upload a CSV file.")])
           else
             match CsvBuffer.parseCSVBuffer (records file) with
             | Rejects message =>
                 respond 400 (JObject [("error", JString "Failed to parse CSV file");
                                       ("details", JString message)])
             | Resolves csvData =>
                 if Z.of_nat (length csvData) =? 0 then
                   respond 400
                     (JObject [("error", JString "CSV file is empty or contains no valid data")])
                 else
                   let '(validCourses, errors) := process csvData 0 in
                   counts ←
                     (if 0 <? Z.of_nat (length validCourses) then
                        counts ←
                          try_catch
                            (result ← Course.insertMany validCourses;
                             mret (Z.of_nat (length result), 0))
                            (fun error =>
                               match error with
                               | MongoBulkWriteError 11000 writeErrors =>
                                   mret (Z.of_nat (length validCourses)
                                         - Z.of_nat (length writeErrors),
                                         Z.of_nat (length writeErrors))
                               | MongoServerError 11000 =>
                                   mret (Z.of_nat (length validCourses), 0)
                               | _ => throw error
                               end);
                        _ ← redisService.flushPattern "courses:*";
                        _ ← redisService.flushPattern "search:*";
                        mret counts
                      else mret (0, 0));
                   let '(insertedCount, duplicateCount) := counts in
                   respond 200
                     (JObject [("success", JBool true);
                               ("message", JString "Course upload completed");
                               ("summary",
                                JObject [("totalRows", JNumber (Z2F (Z.of_nat (length csvData))));
                                         ("validCourses",
                                          JNumber (Z2F (Z.of_nat (length validCourses))));
                                         ("insertedCourses", JNumber (Z2F insertedCount));
                                         ("duplicateCourses", JNumber (Z2F duplicateCount));
                                         ("errorRows", JNumber (Z2F (Z.of_nat (length errors))))]);
                               ("errors",
                                if 0 <? Z.of_nat (length errors)
                                then JArray (map row_error_json errors)
                                else JUndefined)])
             end
       end)
    (fun error => failed (message_of error)).

End Handlers.
End CourseUpload.

(** ** Course recommendations ([lib/gemini.ts]) *)

Module GeminiService.

(** [UserPreferences]; an absent optional member is [JUndefined]. *)
Record UserPreferences := {
  topics : list string;
  skillLevel : string;
  duration : json;
  format : json;
  budget : json
}.

(** [a || b] on values. *)
Definition or_else (a b : json) : json := if truthy a then a else b.

(** [preferences.topics[0] || fallback]. *)
Definition first_topic (preferences : UserPreferences) (fallback : string) : string :=
  match topics preferences with
  | t :: _ => if truthy (JString t) then t else fallback
  | [] => fallback
  end.

Definition topics_json (preferences : UserPreferences) : json :=
  JArray (map JString (topics preferences)).

Definition mock (preferences : UserPreferences) (id title description provider duration format
    price : string) (rating : number) (url : string) : json :=
  JObject [("id", JString id); ("title", JString title); ("description", JString description);
           ("provider", JString provider); ("skillLevel", JString (skillLevel preferences));
           ("duration", JString duration); ("format", JString format); ("price", JString price);
           ("rating", JNumber rating); ("topics", topics_json preferences);
           ("url", JString url)].

Definition getMockRecommendations (preferences : UserPreferences) : list json :=
  [mock preferences "mock-1"
     ("Complete " +:+ first_topic preferences "Programming" +:+ " Course")
     ("Comprehensive " +:+ skillLevel preferences +:+ " level course covering "
      +:+ String.concat ", " (topics preferences))
     "TechEdu" "8 weeks" "video" "free" 4.7%float "https://example.com/course1";
   mock preferences "mock-2"
     (first_topic preferences "Development" +:+ " Fundamentals")
     ("Learn the basics of " +:+ String.concat " and " (topics preferences)
      +:+ " from industry experts")
     "CodeAcademy" "6 weeks" "interactive" "$49" 4.5%float "https://example.com/course2";
   mock preferences "mock-3"
     ("Advanced " +:+ first_topic preferences "Technology" +:+ " Concepts")
     "Deep dive into advanced concepts and real-world applications"
     "UniLearn" "12 weeks" "text" "free" 4.3%float "https://example.com/course3";
   mock preferences "mock-4"
     (String.concat " & " (topics preferences) +:+ " Bootcamp")
     "Intensive bootcamp covering practical skills and projects"
     "SkillUp" "4 weeks" "video" "$99" 4.8%float "https://example.com/course4";
   mock preferences "mock-5"
     ("Professional " +:+ first_topic preferences "Development" +:+ " Path")
     "Career-focused curriculum designed for professional growth"
     "ProLearn" "16 weeks" "interactive" "$199" 4.6%float "https://example.com/course5"].

(** The suffix of [s] that starts at the first [c]. *)
Fixpoint from_first (c : ascii) (s : string) : option string :=
  match s with
  | EmptyString => None
  | String a r => if Ascii.eqb a c then Some s else from_first c r
  end.

(** The prefix of [s] that ends at the last [c]. *)
Fixpoint upto_last (c : ascii) (s : string) : option string :=
  match s with
  | EmptyString => None
  | String a r =>
      match upto_last c r with
      | Some t => Some (String a t)
      | None => if Ascii.eqb a c then Some (String a EmptyString) else None
      end
  end.

(** [text.match(/\[[\s\S]*\]/)]: from the first opening bracket to the
    last closing bracket after it. *)
Definition jsonMatch (text : string) : option string :=
  match from_first "[" text with
  | Some rest => upto_last "]" rest
  | None => None
  end.

Section Clock.
(** [Date.now()] when the element of index [i] is mapped. *)
Variable now : nat -> Z.

(** The callback of [courses.map]; reading a member of null throws (the
    result is [None]). *)
Definition recommendation (preferences : UserPreferences) (index : nat) (course : json)
  : option json :=
  match course with
  | JNull | JUndefined => None
  | _ =>
      Some (JObject
              [("id", JString ("gemini-" +:+ pretty (now index) +:+ "-"
                               +:+ pretty (Z.of_nat index)));
               ("title", or_else (member "title" course) (JString "Untitled Course"));
               ("description",
                or_else (member "description" course) (JString "No description available"));
               ("provider", or_else (member "provider" course) (JString "Unknown Provider"));
               ("skillLevel",
                or_else (member "skillLevel" course) (JString (skillLevel preferences)));
               ("duration", or_else (member "duration" course) (JString "Variable"));
               ("format", or_else (member "format" course) (JString "Mixed"));
               ("price", or_else (member "price" course) (JString "Unknown"));
               ("rating", or_else (member "rating" course) (JNumber 4%float));
               ("topics", or_else (member "topics" course) (topics_json preferences));
               ("url", member "url" course)])
  end.

(** The elements mapped from index [i] on, unless one throws. *)
Fixpoint recommendations (preferences : UserPreferences) (i : nat) (courses : list json)
  : option (list json) :=
  match courses with
  | [] => Some []
  | course :: rest =>
      match recommendation preferences i course, recommendations preferences (S i) rest with
      | Some r, Some rs => Some (r :: rs)
      | _, _ => None
      end
  end.

Definition parseAIResponse (text : string) (preferences : UserPreferences) : list json :=
  match jsonMatch text with
  | Some matched =>
      match JSON_parse matched with
      | Ok (JArray courses) =>
          match recommendations preferences 0 courses with
          | Some mapped => mapped
          | None => getMockRecommendations preferences
          end
      | _ => getMockRecommendations preferences
      end
  | None => getMockRecommendations preferences
  end.

(** [generateCourseRecommendations]: [GEMINI_API_KEY] is the variable of
    the environment the client is made from, [generateContent] how the
    call of the model ends, with the text of its response or an error (the
    prompt goes to the model and nowhere else). *)
Definition generateCourseRecommendations (GEMINI_API_KEY : option string)
    (generateContent : Promise string) (preferences : UserPreferences) : list json :=
  match truthy_string GEMINI_API_KEY with
  | None => getMockRecommendations preferences
  | Some _ =>
      match generateContent with
      | Resolves text => parseAIResponse text preferences
      | Rejects _ => getMockRecommendations preferences
      end
  end.

End Clock.
End GeminiService.

(** [app/api/recommendations/route.ts] *)
Module RecommendationsRoute.
Import GeminiService.

(** [s.trim()], for the white space of the ASCII range. *)
Fixpoint trim_end (s : string) : string :=
  match s with
  | EmptyString => EmptyString
  | String c r =>
      match trim_end r with
      | EmptyString => if is_js_ws c then EmptyString else String c EmptyString
      | r' => String c r'
      end
  end.

Definition trim (s : string) : string := trim_end (trim_start s).

(** [s.split(',')]. *)
Fixpoint split_comma (s : string) : list string :=
  match s with
  | EmptyString => [EmptyString]
  | String c r =>
      if Ascii.eqb c "," then EmptyString :: split_comma r
      else match split_comma r with
           | piece :: pieces => String c piece :: pieces
           | [] => [String c EmptyString]
           end
  end.

(** [topics.map(topic => topic.trim())]: an element that is not a string
    has no [trim] to call, and the callback throws. *)
Fixpoint trimmed (topics : list json) : option (list string) :=
  match topics with
  | [] => Some []
  | JString topic :: rest =>
      match trimmed rest with
      | Some ts => Some (trim topic :: ts)
      | None => None
      end
  | _ :: _ => None
  end.

Definition preferences_json (preferences : UserPreferences) : json :=
  JObject [("topics", topics_json preferences);
           ("skillLevel", JString (skillLevel preferences));
           ("duration", duration preferences);
           ("format", format preferences);
           ("budget", budget preferences)].

Section Handlers.
Variable now : nat -> Z.
(** The timestamp of the response and the text of the TypeError the engine
    raises. *)
Variable generatedAt : string.
Variable type_error : string.
Variable GEMINI_API_KEY : option string.
Variable generateContent : Promise string.

Definition failed (details : string) : Response :=
  {| status := 500;
     body := JObject [("error", JString "Failed to generate course recommendations");
                      ("details", JString details)] |}.

Definition answer (preferences : UserPreferences) : Response :=
  let recommendations :=
    generateCourseRecommendations now GEMINI_API_KEY generateContent preferences in
  {| status := 200;
     body := JObject [("success", JBool true);
                      ("preferences", preferences_json preferences);
                      ("recommendations", JArray recommendations);
                      ("count", JNumber (Z2F (Z.of_nat (length recommendations))));
                      ("generatedAt", JString generatedAt);
                      ("apiStatus",
                       JString (match truthy_string GEMINI_API_KEY with
                                | Some _ => "live"
                                | None => "mock"
                                end))] |}.

Definition rejected (error : string) : Response :=
  {| status := 400; body := JObject [("error", JString error)] |}.

(** [json] is how [request.json()] ends. *)
Definition POST (json : Promise json) : Response :=
  match json with
  | Rejects message => failed message
  | Resolves (JNull | JUndefined) => failed type_error
  | Resolves body =>
      let topics := member "topics" body in
      let skillLevel := member "skillLevel" body in
      match topics with
      | JArray ((_ :: _) as elements) =>
          match skillLevel with
          | JString level =>
              if skill_level_in_enum level then
                match trimmed elements with
                | None => failed type_error
                | Some ts =>
                    answer {| GeminiService.topics :=
                                List.filter (fun t => truthy (JString t)) ts;
                              GeminiService.skillLevel := level;
                              duration := or_else (member "duration" body) JUndefined;
                              format := or_else (member "format" body) JUndefined;
                              budget := or_else (member "budget" body) JUndefined |}
                end
              else
                rejected "Valid skill level is required (beginner, intermediate, or advanced)"
          | _ => rejected "Valid skill level is required (beginner, intermediate, or advanced)"
          end
      | _ => rejected "Topics array is required and cannot be empty"
      end
  end.

(** The parameters of the URL, each present or not. *)
Definition GET (topics skillLevel duration format budget : option string) : Response :=
  let opt (s : option string) :=
    match truthy_string s with
    | Some t => JString t
    | None => JUndefined
    end in
  answer {| GeminiService.topics :=
              match topics with
              | Some t => map trim (split_comma t)
              | None => ["programming"]
              end;
            GeminiService.skillLevel := default "beginner" (truthy_string skillLevel);
            GeminiService.duration := opt duration;
            GeminiService.format := opt format;
            GeminiService.budget := opt budget |}.

End Handlers.
End RecommendationsRoute.

(** ** A reference engine

    A collection scan that answers the queries, sorts and pipelines
    written below and rejects every other one (code 2, BadValue): exact
    matches on [category] and [skill_level], [rating: { $gte }], the sorts
    [{ rating: -1 }] and [{ createdAt: -1 }], and the three [$group] stages
    of the statistics.  It instantiates the engine in the examples. *)
Module ScanEngine.

Definition unsupported {A} : Result A := Throw (MongoServerError 2).

(** A number that is a natural number. *)
Definition as_nat (x : number) : option nat :=
  match Prim2SF x with
  | S754_zero _ => Some O
  | S754_finite false m e =>
      if 0 <=? e then Some (Z.to_nat (Zpos m * 2 ^ e))
      else if (Zpos m) mod 2 ^ (- e) =? 0 then Some (Z.to_nat (Zpos m / 2 ^ (- e))) else None
  | _ => None
  end.

Definition condition (kv : string * json) : option (ICourseData -> bool) :=
  let '(k, v) := kv in
  match v with
  | JString s =>
      if String.eqb k "category" then Some (fun c => String.eqb (category c) s)
      else if String.eqb k "skill_level" then Some (fun c => String.eqb (skill_level c) s)
      else None
  | JObject [(op, JNumber r)] =>
      if String.eqb k "rating" && String.eqb op "$gte"
      then Some (fun c => PrimFloat.leb r (rating c))
      else None
  | _ => None
  end.

Fixpoint conditions (ms : list (string * json)) : option (ICourseData -> bool) :=
  match ms with
  | [] => Some (fun _ => true)
  | kv :: rest =>
      match condition kv, conditions rest with
      | Some p, Some q => Some (fun c => p c && q c)
      | _, _ => None
      end
  end.

Definition predicate (query : json) : option (ICourseData -> bool) :=
  match query with
  | JObject ms => conditions ms
  | _ => None
  end.

(** Insertion into a list sorted by descending rating, after its equals. *)
Fixpoint insert_by_rating (c : ICourseData) (l : list ICourseData) : list ICourseData :=
  match l with
  | [] => [c]
  | d :: rest =>
      if PrimFloat.ltb (rating d) (rating c) then c :: l else d :: insert_by_rating c rest
  end.

Definition sorted (sort : json) (l : list ICourseData) : option (list ICourseData) :=
  match sort with
  | JObject [(k, JNumber d)] =>
      if PrimFloat.eqb d (-1)%float then
        if String.eqb k "rating" then Some (fold_left (fun acc c => insert_by_rating c acc) l [])
        else if String.eqb k "createdAt" then Some (rev l)
        else None
      else None
  | _ => None
  end.

Definition find (query sort : json) (skip limit : number) (coll : list ICourseData)
  : Result (list ICourseData) :=
  match predicate query, as_nat skip, as_nat limit with
  | Some p, Some s, Some n =>
      match sorted sort (List.filter p coll) with
      | Some l => Ok (if (n =? 0)%nat then drop s l else take n (drop s l))
      | None => unsupported
      end
  | _, _, _ => unsupported
  end.

Definition countDocuments (query : json) (coll : list ICourseData) : Result number :=
  match predicate query with
  | Some p => Ok (Z2F (Z.of_nat (length (List.filter p coll))))
  | None => unsupported
  end.

(** The groups of [$group: { _id: '$field', count: { $sum: 1 } }], in the
    order their keys first occur. *)
Definition group_count (field : ICourseData -> string) (coll : list ICourseData) : list json :=
  map (fun kv => JObject [("_id", JString (fst kv)); ("count", snd kv)])
      (fold_left
         (fun acc c =>
            let n := match obj_get (field c) acc with
                     | Some (JNumber x) => x
                     | _ => 0%float
                     end in
            obj_set (field c) (JNumber (n + 1)%float) acc)
         coll []).

Definition aggregate (pipeline : json) (coll : list ICourseData) : Result (list json) :=
  match pipeline with
  | JArray [JObject [(stage, JObject [(id, key); (name, JObject [(op, arg)])])]] =>
      if String.eqb stage "$group" && String.eqb id "_id" then
        match key, arg with
        | JString k, JNumber _ =>
            if String.eqb op "$sum" && String.eqb k "$category"
            then Ok (group_count category coll)
            else if String.eqb op "$sum" && String.eqb k "$skill_level"
            then Ok (group_count skill_level coll)
            else unsupported
        | JNull, JString f =>
            if String.eqb op "$avg" && String.eqb f "$rating" then
              match coll with
              | [] => Ok []
              | _ =>
                  Ok [JObject [("_id", JNull);
                               (name, JNumber (fold_left (fun s c => s + rating c) coll 0
                                               / Z2F (Z.of_nat (length coll)))%float)]]
              end
            else unsupported
        | _, _ => unsupported
        end
      else unsupported
  | _ => unsupported
  end.

Definition engine : Engine :=
  {| run_find := find; run_countDocuments := countDocuments; run_aggregate := aggregate |}.

End ScanEngine.

(** ** Vocabulary of the statements *)

(** The cache answers every command from now on. *)
Definition cache_up (w : World) : Prop :=
  forall n, (redis_clock w <= n)%nat -> redis_fate w n = Answered.

(** Every command is rejected from now on. *)
Definition cache_down (w : World) : Prop :=
  forall n, (redis_clock w <= n)%nat -> redis_fate w n = Rejected.

(** The server can be reached from now on: every command is answered or
    rejected. *)
Definition reachable (w : World) : Prop :=
  forall n, (redis_clock w <= n)%nat -> redis_fate w n <> Unreachable.

(** The call never ends with an exception, whatever the world. *)
Definition never_throws {A} (m : M A) : Prop :=
  forall w e, result_of (m w) <> Throw e.

(** The call ends, with a value or an exception, wherever the server can
    be reached, and leaves it reachable. *)
Definition settles {A} (m : M A) : Prop :=
  forall w, reachable w -> result_of (m w) <> Pending /\ reachable (world_of (m w)).

(** The store answers every query, with a result or an error. *)
Definition responsive (E : Engine) : Prop :=
  (forall query sort skip limit cs, run_find E query sort skip limit cs <> Pending)
  /\ (forall query cs, run_countDocuments E query cs <> Pending)
  /\ (forall pipeline cs, run_aggregate E pipeline cs <> Pending).

(** The call leaves the entry of [key] alone, however it ends. *)
Definition keeps {A} (key : string) (m : M A) : Prop :=
  forall w, cache (world_of (m w)) !! key = cache w !! key.

(** The payload a lookup of [key] would hit, if any: the entry's payload
    when it is a non-empty string. *)
Definition cached_payload (key : string) (w : World) : option string :=
  truthy_string (payload <$> cache w !! key).

(** The keyspace after every key matching [pattern] is deleted. *)
Definition without_pattern (pattern : string) (c : gmap string Entry) : gmap string Entry :=
  filter (fun kv => redisService.matches pattern (fst kv) = false) c.

(** [n] more commands attempted. *)
Fixpoint ticks (n : nat) (w : World) : World :=
  match n with
  | O => w
  | S n' => ticks n' (tick w)
  end.

(** A step that leaves the store, its log and the fault schedule alone. *)
Definition cache_step (w w' : World) : Prop :=
  courses w' = courses w /\ mongo_log w' = mongo_log w /\ redis_fate w' = redis_fate w
  /\ (redis_clock w <= redis_clock w')%nat.

(** The keyspace after the sweep of [invalidateSearchCaches]. *)
Definition swept (c : gmap string Entry) : gmap string Entry :=
  delete "course:stats" (without_pattern "courses:*" (without_pattern "search:*" c)).

(** The set of keys a successful update or delete of [courseId] is to
    invalidate. *)
Definition invalidated (courseId key : string) : bool :=
  String.eqb key ("course:" +:+ courseId)
  || redisService.matches "search:*" key
  || redisService.matches "courses:*" key
  || String.eqb key "course:stats".

(** What the store alone answers to [getCourseById]. *)
Definition stored_course (courseId : string) (w : World) : json :=
  match List.find (has_id courseId) (courses w) with
  | Some c => course_json c
  | None => JNull
  end.

(** The business key of a document is taken in a collection. *)
Definition key_taken (coll : list ICourseData) (d : ICourseData) : bool :=
  existsb (has_id (course_id d)) coll.

(** Example data. *)
Definition healthy : nat -> Fate := fun _ => Answered.
Definition rejecting : nat -> Fate := fun _ => Rejected.
Definition unreachable : nat -> Fate := fun _ => Unreachable.

Definition cs101 : ICourseData :=
  {| course_id := "cs101"; title := "Algorithms"; description := "Sorting and searching";
     category := "Computer Science"; instructor := "Ada"; duration := "10 weeks";
     price := "free"; rating := 4.2%float; skill_level := "beginner" |}.

Definition world_of_courses (cs : list ICourseData) (fate : nat -> Fate) : World :=
  {| courses := cs; cache := ∅; redis_clock := 0; redis_fate := fate; mongo_log := [] |}.

Definition admin : option Auth.JWTPayload :=
  Some {| Auth.userId := "u1"; Auth.email := "admin@example.com"; Auth.role := "admin";
          Auth.iat := 0%float; Auth.exp := 0%float |}.

(** The world after the statistics were read once, on a healthy cache. *)
Definition stats_world : World :=
  world_of (CourseService.getCourseStats ScanEngine.engine (world_of_courses [cs101] healthy)).

(** Updates of one member. *)
Definition rating_update (r : number) : PartialCourse :=
  {| p_course_id := None; p_title := None; p_description := None; p_category := None;
     p_instructor := None; p_duration := None; p_price := None; p_rating := Some r;
     p_skill_level := None |}.

Definition key_update (id : string) : PartialCourse :=
  {| p_course_id := Some id; p_title := None; p_description := None; p_category := None;
     p_instructor := None; p_duration := None; p_price := None; p_rating := None;
     p_skill_level := None |}.

(** A fault schedule: the third to the sixth command are rejected and all
    others answered. *)
Definition brief_outage : nat -> Fate :=
  fun n => if (2 <=? n)%nat && (n <? 6)%nat then Rejected else Answered.

(** The key of the listing a request asks for. *)
Definition listing_key (page limit category skill_level : option string) : string :=
  UploadRoute.list_cache_key (UploadRoute.list_query category skill_level)
    (parseInt (default "1" (truthy_string page))) (parseInt (default "20" (truthy_string limit))).

(** The world after course cs101 was read once, on a healthy cache. *)
Definition detail_world : World :=
  world_of (CourseService.getCourseById "cs101" (world_of_courses [cs101] healthy)).

(** Two descriptors with the same members, written in a different order. *)
Definition beginner_first : list (string * json) :=
  [("skillLevel", JString "beginner"); ("page", JNumber 1%float)].

Definition page_first : list (string * json) :=
  [("page", JNumber 1%float); ("skillLevel", JString "beginner")].

Definition descriptor_members : list string :=
  ["query"; "category"; "skillLevel"; "minRating"; "page"; "limit"].

(** The text of a caught error, where the examples need one. *)
Definition no_message : exn -> string := fun _ => EmptyString.

Definition new_year : string := "2026-01-01T00:00:00.000Z".

(** The value of a result, when there is one. *)
Definition result_of_option {A} (r : Result A) : option A :=
  match r with
  | Ok a => Some a
  | Throw _ | Pending => None
  end.

Definition ok_or_null (r : Result json) : json :=
  match r with
  | Ok v => v
  | Throw _ | Pending => JNull
  end.

(** A request body and a CSV row that are valid but for their rating. *)
Definition course_body (r : number) : json :=
  JObject [("course_id", JString "cs101"); ("title", JString "Algorithms");
           ("description", JString "Sorting and searching");
           ("category", JString "Computer Science"); ("instructor", JString "Ada");
           ("duration", JString "10 weeks"); ("price", JString "free");
           ("rating", JNumber r); ("skill_level", JString "beginner")].

Definition csv_row (r : string) : CsvParser.CSVCourseData :=
  {| CsvParser.course_id := "cs101"; CsvParser.title := "Algorithms";
     CsvParser.description := "Sorting and searching";
     CsvParser.category := "Computer Science"; CsvParser.instructor := "Ada";
     CsvParser.duration := "10 weeks"; CsvParser.price := "free";
     CsvParser.rating := r; CsvParser.skill_level := "beginner" |}.

Definition too_small_message : string := "rating: Number must be greater than or equal to 0".
Definition too_big_message : string := "rating: Rating must be between 0 and 5".
Definition csv_rating_message : string := "rating must be a number between 0 and 5".

(** A record is valid for the schema. *)
Definition valid_record (d : ICourseData) : Prop := invalid_paths true (to_partial d) = [].

(** The records of a batch whose key is already stored, and the new ones. *)
Definition duplicates (w : World) (docs : list ICourseData) : list ICourseData :=
  List.filter (key_taken (courses w)) docs.

Definition new_records (w : World) (docs : list ICourseData) : list ICourseData :=
  List.filter (fun d => negb (key_taken (courses w) d)) docs.

(** cs101 with a rating outside the schema's range. *)
Definition cs101_overrated : ICourseData := apply_update (rating_update 7%float) cs101.

(** The unique index: no two documents of the collection share a key. *)
Definition unique_keys (w : World) : Prop := NoDup (map course_id (courses w)).

(** The descriptor of the scenario of the specification. *)
Definition beginner_page : list (string * json) :=
  [("query", JString EmptyString); ("skillLevel", JString "beginner");
   ("page", JNumber 1%float); ("limit", JNumber 20%float)].

(** The report of an upload. *)
Definition upload_report (totalRows validCourses insertedCourses duplicateCourses errorRows : Z)
    (errors : json) : json :=
  JObject [("success", JBool true);
           ("message", JString "Course upload completed");
           ("summary",
            JObject [("totalRows", JNumber (Z2F totalRows));
                     ("validCourses", JNumber (Z2F validCourses));
                     ("insertedCourses", JNumber (Z2F insertedCourses));
                     ("duplicateCourses", JNumber (Z2F duplicateCourses));
                     ("errorRows", JNumber (Z2F errorRows))]);
           ("errors", errors)].

(** No cell of the record but the rating reads as zero.  The parser's
    [cast] hands a cell that is a numeral over as [parseFloat] of it; a
    cell that does not read as zero is thus truthy or falsy as its text
    is, and is no skill level when it is a number. *)
Definition zero_free (data : CsvParser.CSVCourseData) : Prop :=
  Forall (fun cell => PrimFloat.eqb (parseFloat cell) 0 = false)
    [CsvParser.course_id data; CsvParser.title data; CsvParser.description data;
     CsvParser.category data; CsvParser.instructor data; CsvParser.duration data;
     CsvParser.price data; CsvParser.skill_level data].

(** An uploaded CSV file of the given records. *)
Definition csv_file (rows : list CsvParser.CSVCourseData) : CourseUpload.File :=
  {| CourseUpload.type := "text/csv"; CourseUpload.records := Resolves rows |}.

(** A file with one row in range, one out of range and one record that
    lacks its title. *)
Definition mixed_rows : list CsvParser.CSVCourseData :=
  [csv_row "4.5"; csv_row "9";
   {| CsvParser.course_id := "cs102"; CsvParser.title := EmptyString;
      CsvParser.description := "Graphs"; CsvParser.category := "Computer Science";
      CsvParser.instructor := "Ada"; CsvParser.duration := "4 weeks";
      CsvParser.price := "free"; CsvParser.rating := "4"; CsvParser.skill_level := "advanced" |}].

(** The members whose absence makes the parser drop a record. *)
Definition key_columns : list string := ["course_id"; "title"; "description"; "category"].

(** The request presents the non-empty token [t]: as its [auth-token]
    cookie or as a bearer credential. *)
Definition presents (request : AuthRequest.Credentials) (t : string) : Prop :=
  t <> EmptyString
  /\ (AuthRequest.cookie request = Some t
      \/ AuthRequest.authorization request = Some ("Bearer " +:+ t)).

(** The set of keys the PUT and DELETE handlers of the course route
    invalidate. *)
Definition route_invalidated (courseId key : string) : bool :=
  String.eqb key ("course:" +:+ courseId)
  || redisService.matches "search:*" key
  || redisService.matches "courses:*" key.

(** A request body that sets the rating to 3. *)
Definition rating_3_body : json := JObject [("rating", JNumber 3%float)].

(** The expiry an entry is stored with: [set] uses SETEX only for a truthy
    number of seconds. *)
Definition stored_ttl (expireInSeconds : option Z) : option Z :=
  match expireInSeconds with
  | Some seconds => if seconds =? 0 then None else Some seconds
  | None => None
  end.

(** A pattern character that stands for itself. *)
Definition literal (c : ascii) : bool :=
  negb (Ascii.eqb c "*") && negb (Ascii.eqb c "?") && negb (Ascii.eqb c "[")
  && negb (Ascii.eqb c "\").

Definition literal_string (p : string) : bool := forallb literal (list_ascii_of_string p).

(** [key.startsWith(p)]. *)
Definition has_prefix (p key : string) : bool :=
  match strip_prefix p key with
  | Some _ => true
  | None => false
  end.

(** A successful write of the service takes [w] to [w']. *)
Inductive wrote (w w' : World) : Prop :=
| wrote_create courseData c :
    CourseService.createCourse courseData w = (Ok c, w') -> wrote w w'
| wrote_update courseId updateData c :
    CourseService.updateCourse courseId updateData w = (Ok (Some c), w') -> wrote w w'
| wrote_delete courseId :
    CourseService.deleteCourse courseId w = (Ok true, w') -> wrote w w'
| wrote_bulk docs counts :
    CourseService.bulkInsertCourses docs w = (Ok counts, w') -> wrote w w'.

(** The keys every write of the service invalidates. *)
Definition swept_key (key : string) : bool :=
  has_prefix "search:" key || has_prefix "courses:" key || String.eqb key "course:stats".

(** A key of one of the families the writes of the service invalidate. *)
Definition course_family (key : string) : bool :=
  has_prefix "search:" key || has_prefix "courses:" key || has_prefix "course:" key.

(** The members every recommendation is to carry. *)
Definition recommendation_members : list string :=
  ["id"; "title"; "description"; "provider"; "skillLevel"; "duration"; "format"; "price";
   "rating"; "topics"].

(** The character [c] occurs in [s]. *)
Definition occurs (c : ascii) (s : string) : bool :=
  existsb (Ascii.eqb c) (list_ascii_of_string s).

(** Preferences for one topic at the beginner level. *)
Definition python_beginner : GeminiService.UserPreferences :=
  {| GeminiService.topics := ["python"]; GeminiService.skillLevel := "beginner";
     GeminiService.duration := JUndefined; GeminiService.format := JUndefined;
     GeminiService.budget := JUndefined |}.

Definition epoch : nat -> Z := fun _ => 1700000000000.

(** A response of the model: one course that only states a price, and an
    empty title. *)
Definition priced_answer : string :=
  "Here you are: [{ " +:+ dquote +:+ "price" +:+ dquote +:+ ": 49, "
  +:+ dquote +:+ "title" +:+ dquote +:+ ": " +:+ dquote +:+ dquote +:+ " }]".

Definition priced_recommendation : json :=
  JObject [("id", JString "gemini-1700000000000-0");
           ("title", JString "Untitled Course");
           ("description", JString "No description available");
           ("provider", JString "Unknown Provider");
           ("skillLevel", JString "beginner");
           ("duration", JString "Variable");
           ("format", JString "Mixed");
           ("price", JNumber 49%float);
           ("rating", JNumber 4%float);
           ("topics", JArray [JString "python"]);
           ("url", JUndefined)].

(** The number is finite and its decimal form, followed by a comma, parses
    back to it. *)
Definition reads_back (x : number) : Prop :=
  is_finite x = true
  /\ forall rest, parse_number (Number_toString x +:+ "," +:+ rest) = Some (x, "," +:+ rest).

(** The world in which course cs101 was read once and the cache has
    rejected every command since. *)
Definition detail_world_down : World :=
  {| courses := courses detail_world; cache := cache detail_world;
     redis_clock := redis_clock detail_world; redis_fate := rejecting;
     mongo_log := mongo_log detail_world |}.

(** The paths of [CourseSchema]: the members of a document that the code
    sets. *)
Definition schema_paths : list string :=
  ["course_id"; "title"; "description"; "category"; "instructor"; "duration"; "price";
   "rating"; "skill_level"].

(** * Properties *)

(** ** The gateway under a working and under a failing command *)

Lemma bind_run {A B} (m : M A) (k : A -> M B) (w : World) :
  (m ≫= k) w = match m w with
               | (Ok a, w') => k a w'
               | (Throw e, w') => (Throw e, w')
               | (Pending, w') => (Pending, w')
               end.
Proof. reflexivity. Qed.

Lemma cache_up_tick w : cache_up w -> cache_up (tick w).
Proof. intros H n Hn. apply H. simpl in Hn. lia. Qed.

Lemma cache_up_ticks n w : cache_up w -> cache_up (ticks n w).
Proof. revert w. induction n; simpl; auto using cache_up_tick. Qed.

Lemma cache_up_with_cache c w : cache_up w -> cache_up (with_cache c w).
Proof. intros H n Hn. apply H. exact Hn. Qed.

Lemma cache_up_logged c w : cache_up w -> cache_up (logged c w).
Proof. intros H n Hn. apply H. exact Hn. Qed.

Lemma cache_up_with_courses cs w : cache_up w -> cache_up (with_courses cs w).
Proof. intros H n Hn. apply H. exact Hn. Qed.

Lemma cache_down_now w : cache_down w -> redis_fate w (redis_clock w) = Rejected.
Proof. intros H. apply H. lia. Qed.

Lemma cache_up_now w : cache_up w -> redis_fate w (redis_clock w) = Answered.
Proof. intros H. apply H. lia. Qed.

Lemma cache_down_tick w : cache_down w -> cache_down (tick w).
Proof. intros H n Hn. apply H. simpl in Hn. lia. Qed.

Lemma cache_down_logged c w : cache_down w -> cache_down (logged c w).
Proof. intros H n Hn. apply H. exact Hn. Qed.

Create HintDb world.
#[local] Hint Resolve cache_up_tick cache_up_ticks cache_up_with_cache cache_up_logged
  cache_up_with_courses cache_down_tick cache_down_logged : world.

Lemma command_ok {A} (run : gmap string Entry -> A * gmap string Entry) w :
  redis_fate w (redis_clock w) = Answered ->
  redisService.command run w = (Ok (fst (run (cache w))), with_cache (snd (run (cache w))) (tick w)).
Proof. intros H. unfold redisService.command. rewrite H. destruct (run (cache w)); reflexivity. Qed.

Lemma command_fails {A} (run : gmap string Entry -> A * gmap string Entry) w :
  redis_fate w (redis_clock w) = Rejected ->
  redisService.command run w = (Throw RedisError, tick w).
Proof. intros H. unfold redisService.command. rewrite H. reflexivity. Qed.

Lemma get_ok key w :
  redis_fate w (redis_clock w) = Answered ->
  redisService.get key w = (Ok (payload <$> cache w !! key), tick w).
Proof.
  intros H. unfold redisService.get, try_catch, redisService.client_get.
  rewrite command_ok by exact H. reflexivity.
Qed.

Lemma get_fails key w :
  redis_fate w (redis_clock w) = Rejected -> redisService.get key w = (Ok None, tick w).
Proof.
  intros H. unfold redisService.get, try_catch, redisService.client_get.
  rewrite command_fails by exact H. reflexivity.
Qed.

Lemma set_ok key value seconds w :
  redis_fate w (redis_clock w) = Answered -> seconds <> 0 ->
  redisService.set key value (Some seconds) w
  = (Ok true, with_cache (<[key := {| payload := value; ttl := Some seconds |}]> (cache w)) (tick w)).
Proof.
  intros H Hs. unfold redisService.set, try_catch.
  destruct (Z.eqb_spec seconds 0) as [->|_]; [congruence|].
  rewrite bind_run. unfold redisService.client_setEx. rewrite command_ok by exact H. reflexivity.
Qed.


Lemma del_ok key w :
  redis_fate w (redis_clock w) = Answered ->
  redisService.del key w = (Ok true, with_cache (delete key (cache w)) (tick w)).
Proof.
  intros H. unfold redisService.del, try_catch. rewrite bind_run.
  unfold redisService.client_del. rewrite command_ok by exact H. reflexivity.
Qed.

Lemma del_fails key w :
  redis_fate w (redis_clock w) = Rejected -> redisService.del key w = (Ok false, tick w).
Proof.
  intros H. unfold redisService.del, try_catch. rewrite bind_run.
  unfold redisService.client_del. rewrite command_fails by exact H. reflexivity.
Qed.

Lemma exists_ok key w :
  redis_fate w (redis_clock w) = Answered ->
  redisService.exists_ key w
  = (Ok (match cache w !! key with Some _ => true | None => false end), tick w).
Proof.
  intros H. unfold redisService.exists_, try_catch. rewrite bind_run.
  unfold redisService.client_exists. rewrite command_ok by exact H. simpl.
  destruct (cache w !! key); reflexivity.
Qed.


Lemma lookup_foldr_delete_keys (l : list string) (m : gmap string Entry) (k : string) :
  foldr delete m l !! k = if decide (k ∈ l) then None else m !! k.
Proof.
  induction l as [|a l IH]; simpl.
  - destruct (decide (k ∈ [])) as [Hin|_]; [inversion Hin | reflexivity].
  - destruct (decide (a = k)) as [->|Hne].
    + rewrite lookup_delete_eq. destruct (decide (k ∈ k :: l)) as [_|Hn]; [reflexivity|].
      exfalso. apply Hn. left.
    + rewrite lookup_delete_ne by exact Hne. rewrite IH.
      destruct (decide (k ∈ l)) as [Hin|Hin], (decide (k ∈ a :: l)) as [Hin'|Hin'];
        try reflexivity.
      * exfalso. apply Hin'. right. exact Hin.
      * exfalso. apply elem_of_cons in Hin' as [->|Hin']; [congruence | auto].
Qed.

Lemma lookup_without_pattern pattern (c : gmap string Entry) k :
  without_pattern pattern c !! k = if redisService.matches pattern k then None else c !! k.
Proof.
  unfold without_pattern. destruct (redisService.matches pattern k) eqn:Hm.
  - apply map_lookup_filter_None. destruct (c !! k) eqn:Hk; [right | left; reflexivity].
    intros x _. simpl. congruence.
  - destruct (c !! k) as [e|] eqn:Hk.
    + apply map_lookup_filter_Some. split; [exact Hk | exact Hm].
    + apply map_lookup_filter_None. left. exact Hk.
Qed.

(** Deleting the keys that KEYS reports is deleting by pattern. *)
Lemma keys_then_del pattern (c : gmap string Entry) :
  foldr delete c (filter (fun k => redisService.matches pattern k = true) (map_to_list c).*1)
  = without_pattern pattern c.
Proof.
  apply map_eq. intros k. rewrite lookup_foldr_delete_keys, lookup_without_pattern.
  destruct (redisService.matches pattern k) eqn:Hm.
  - destruct (c !! k) as [e|] eqn:Hk; [|destruct (decide _); congruence].
    rewrite decide_True; [reflexivity|].
    apply list_elem_of_filter. split; [exact Hm|].
    apply list_elem_of_fmap. exists (k, e). split; [reflexivity|].
    apply elem_of_map_to_list. exact Hk.
  - rewrite decide_False; [reflexivity|].
    intros Hin. apply list_elem_of_filter in Hin as [Hm' _]. congruence.
Qed.

Lemma flushPattern_ok pattern w :
  cache_up w ->
  exists n, redisService.flushPattern pattern w
            = (Ok true, with_cache (without_pattern pattern (cache w)) (ticks n w)).
Proof.
  intros Hup. unfold redisService.flushPattern, try_catch. rewrite bind_run.
  unfold redisService.client_keys. rewrite command_ok by (apply cache_up_now; exact Hup).
  cbn [fst snd]. rewrite bind_run.
  set (keys := filter _ _).
  destruct (0 <? Z.of_nat (length keys)) eqn:Hlen.
  - unfold redisService.client_del.
    rewrite command_ok by (apply cache_up_now; auto with world).
    cbn [fst snd]. exists 2%nat. subst keys. simpl cache. rewrite keys_then_del. reflexivity.
  - exists 1%nat. assert (keys = []) as Hnil.
    { destruct keys; [reflexivity|]. simpl in Hlen. discriminate. }
    simpl. rewrite <- (keys_then_del pattern (cache w)). fold keys. rewrite Hnil. reflexivity.
Qed.


(** ** What a gateway call can do to the world, whatever the faults *)

Lemma cache_step_refl w : cache_step w w.
Proof. repeat split; lia. Qed.

Lemma cache_step_trans w1 w2 w3 : cache_step w1 w2 -> cache_step w2 w3 -> cache_step w1 w3.
Proof.
  intros (A1 & B1 & C1 & D1) (A2 & B2 & C2 & D2).
  repeat split; try congruence; lia.
Qed.

Lemma cache_step_tick w : cache_step w (tick w).
Proof. repeat split; simpl; lia. Qed.

Lemma cache_step_with_cache c w : cache_step w (with_cache c (tick w)).
Proof. repeat split; simpl; lia. Qed.

Lemma reachable_now w : reachable w -> redis_fate w (redis_clock w) <> Unreachable.
Proof. intros H. apply H. lia. Qed.

Lemma reachable_step w w' : cache_step w w' -> reachable w -> reachable w'.
Proof. intros (_ & _ & Hf & Hc) H n Hn. rewrite Hf. apply H. lia. Qed.

Lemma cache_up_reachable w : cache_up w -> reachable w.
Proof. intros H n Hn. rewrite (H n Hn). discriminate. Qed.

Lemma cache_down_reachable w : cache_down w -> reachable w.
Proof. intros H n Hn. rewrite (H n Hn). discriminate. Qed.

Lemma reachable_logged c w : reachable w -> reachable (logged c w).
Proof. intros H n Hn. apply H. exact Hn. Qed.

Lemma reachable_with_courses cs w : reachable w -> reachable (with_courses cs w).
Proof. intros H n Hn. apply H. exact Hn. Qed.

#[local] Hint Resolve reachable_logged reachable_with_courses cache_up_reachable
  cache_down_reachable : world.

(** A command never settles exactly when the server is unreachable. *)
Lemma command_pending {A} (run : gmap string Entry -> A * gmap string Entry) w :
  redis_fate w (redis_clock w) = Unreachable ->
  redisService.command run w = (Pending, w).
Proof. intros H. unfold redisService.command. rewrite H. reflexivity. Qed.

Lemma command_step {A} (run : gmap string Entry -> A * gmap string Entry) w :
  cache_step w (world_of (redisService.command run w)).
Proof.
  unfold redisService.command. destruct (redis_fate w (redis_clock w)).
  - destruct (run (cache w)). apply cache_step_with_cache.
  - apply cache_step_tick.
  - apply cache_step_refl.
Qed.

(** A reachable server settles every command: with a value or with an
    exception. *)
Lemma command_settles {A} (run : gmap string Entry -> A * gmap string Entry) w :
  reachable w ->
  exists r w', redisService.command run w = (r, w') /\ r <> Pending
               /\ cache_step w w' /\ reachable w'.
Proof.
  intros Hr. pose proof (command_step run w) as Hstep.
  pose proof (reachable_now w Hr) as Hnow.
  unfold redisService.command in *. destruct (redis_fate w (redis_clock w)).
  - destruct (run (cache w)) as [a c]. do 2 eexists. split; [reflexivity|].
    split; [discriminate|]. split; [exact Hstep | exact (reachable_step _ _ Hstep Hr)].
  - do 2 eexists. split; [reflexivity|].
    split; [discriminate|]. split; [exact Hstep | exact (reachable_step _ _ Hstep Hr)].
  - congruence.
Qed.

Lemma get_pending key w :
  redis_fate w (redis_clock w) = Unreachable -> redisService.get key w = (Pending, w).
Proof.
  intros H. unfold redisService.get, try_catch, redisService.client_get.
  rewrite command_pending by exact H. reflexivity.
Qed.

Lemma get_total key w :
  reachable w ->
  exists r, redisService.get key w = (Ok r, tick w)
            /\ (r = None \/ r = payload <$> cache w !! key).
Proof.
  intros Hr. pose proof (reachable_now w Hr) as Hnow.
  destruct (redis_fate w (redis_clock w)) eqn:H.
  - eexists. rewrite get_ok by exact H. auto.
  - exists None. rewrite get_fails by exact H. auto.
  - congruence.
Qed.

Lemma set_total key value expire w :
  reachable w ->
  exists b w', redisService.set key value expire w = (Ok b, w') /\ cache_step w w'.
Proof.
  intros Hr. unfold redisService.set, try_catch. rewrite bind_run.
  set (cmd := match expire with Some _ => _ | None => _ end).
  assert (exists run : gmap string Entry -> unit * gmap string Entry,
             cmd = redisService.command run) as [run ->].
  { subst cmd. destruct expire as [s|]; [destruct (s =? 0)|]; eexists; reflexivity. }
  destruct (command_settles run w Hr) as (r & w' & -> & Hp & Hstep & _).
  destruct r as [u|e|]; simpl in *; [eauto | eauto | congruence].
Qed.

Lemma del_total key w :
  reachable w ->
  exists b w', redisService.del key w = (Ok b, w') /\ cache_step w w'.
Proof.
  intros Hr. unfold redisService.del, try_catch, redisService.client_del. rewrite bind_run.
  destruct (command_settles (fun c => (tt, foldr delete c [key])) w Hr)
    as (r & w' & -> & Hp & Hstep & _).
  destruct r as [u|e|]; simpl in *; [eauto | eauto | congruence].
Qed.

Lemma exists_total key w :
  reachable w ->
  exists b w', redisService.exists_ key w = (Ok b, w') /\ cache_step w w'.
Proof.
  intros Hr. unfold redisService.exists_, try_catch, redisService.client_exists.
  rewrite bind_run.
  match goal with |- context [redisService.command ?r w] =>
    destruct (command_settles r w Hr) as (o & w' & -> & Hp & Hstep & _)
  end.
  destruct o as [u|e|]; simpl in *; [eauto | eauto | congruence].
Qed.

Lemma flushPattern_total pattern w :
  reachable w ->
  exists b w', redisService.flushPattern pattern w = (Ok b, w') /\ cache_step w w'.
Proof.
  intros Hr. unfold redisService.flushPattern, try_catch, redisService.client_keys.
  rewrite bind_run.
  match goal with |- context [redisService.command ?r w] =>
    destruct (command_settles r w Hr) as (o & w1 & -> & Hp & Hstep & Hr1)
  end.
  destruct o as [keys|e|]; [|simpl; eauto | congruence].
  rewrite bind_run. destruct (0 <? Z.of_nat (length keys)).
  - unfold redisService.client_del.
    match goal with |- context [redisService.command ?r w1] =>
      destruct (command_settles r w1 Hr1) as (o & w2 & -> & Hp1 & Hstep1 & _)
    end.
    destruct o as [u|e|]; simpl in *; [| | congruence]; eauto using cache_step_trans.
  - simpl. eauto.
Qed.

Lemma invalidateSearchCaches_total w :
  reachable w ->
  exists w', CourseService.invalidateSearchCaches w = (Ok tt, w') /\ cache_step w w'.
Proof.
  intros Hr. unfold CourseService.invalidateSearchCaches.
  destruct (flushPattern_total "search:*" w Hr) as (b1 & w1 & E1 & S1).
  destruct (flushPattern_total "courses:*" w1 (reachable_step _ _ S1 Hr)) as (b2 & w2 & E2 & S2).
  assert (reachable w2) as Hr2 by eauto using reachable_step.
  destruct (del_total "course:stats" w2 Hr2) as (b3 & w3 & E3 & S3).
  exists w3. split; [|eauto using cache_step_trans].
  rewrite bind_run, E1, bind_run, E2, bind_run, E3. reflexivity.
Qed.

(** Whatever the faults, and whether or not it settles, a gateway call
    leaves the collection, the log and the schedule alone. *)
Lemma get_step key w : cache_step w (world_of (redisService.get key w)).
Proof.
  unfold redisService.get, try_catch, redisService.client_get.
  match goal with |- context [redisService.command ?r w] =>
    pose proof (command_step r w) as Hstep; destruct (redisService.command r w) as [[u|e|] w']
  end; exact Hstep.
Qed.

Lemma set_step key value expire w :
  cache_step w (world_of (redisService.set key value expire w)).
Proof.
  unfold redisService.set, try_catch. rewrite bind_run.
  set (cmd := match expire with Some _ => _ | None => _ end).
  assert (exists run : gmap string Entry -> unit * gmap string Entry,
             cmd = redisService.command run) as [run ->].
  { subst cmd. destruct expire as [s|]; [destruct (s =? 0)|]; eexists; reflexivity. }
  pose proof (command_step run w) as Hstep.
  destruct (redisService.command run w) as [[u|e|] w']; exact Hstep.
Qed.

Lemma del_step key w : cache_step w (world_of (redisService.del key w)).
Proof.
  unfold redisService.del, try_catch, redisService.client_del. rewrite bind_run.
  match goal with |- context [redisService.command ?r w] =>
    pose proof (command_step r w) as Hstep; destruct (redisService.command r w) as [[u|e|] w']
  end; exact Hstep.
Qed.

Lemma flushPattern_step pattern w :
  cache_step w (world_of (redisService.flushPattern pattern w)).
Proof.
  unfold redisService.flushPattern, try_catch, redisService.client_keys. rewrite bind_run.
  match goal with |- context [redisService.command ?r w] =>
    pose proof (command_step r w) as Hstep;
    destruct (redisService.command r w) as [[keys|e|] w1]
  end; try exact Hstep.
  rewrite bind_run. destruct (0 <? Z.of_nat (length keys)); [|exact Hstep].
  unfold redisService.client_del.
  match goal with |- context [redisService.command ?r w1] =>
    pose proof (command_step r w1) as Hstep1;
    destruct (redisService.command r w1) as [[u|e|] w2]
  end; exact (cache_step_trans _ _ _ Hstep Hstep1).
Qed.

(** A step after a step. *)
Lemma bind_step {A B} (m : M A) (k : A -> M B) w :
  cache_step w (world_of (m w)) ->
  (forall a w', cache_step w' (world_of (k a w'))) ->
  cache_step w (world_of ((m ≫= k) w)).
Proof.
  intros Hm Hk. rewrite bind_run. destruct (m w) as [[a|e|] w1]; try exact Hm.
  exact (cache_step_trans _ _ _ Hm (Hk a w1)).
Qed.

Lemma invalidateSearchCaches_step w :
  cache_step w (world_of (CourseService.invalidateSearchCaches w)).
Proof.
  unfold CourseService.invalidateSearchCaches.
  apply bind_step; [apply flushPattern_step|]. intros _ w1.
  apply bind_step; [apply flushPattern_step|]. intros _ w2.
  apply bind_step; [apply del_step|]. intros _ w3. apply cache_step_refl.
Qed.

(** ** No gateway call throws *)

Lemma ret_never_throws {A} (a : A) : never_throws (mret a : M A).
Proof. intros w e. discriminate. Qed.

Lemma bind_never_throws {A B} (m : M A) (k : A -> M B) :
  never_throws m -> (forall a, never_throws (k a)) -> never_throws (m ≫= k).
Proof.
  intros Hm Hk w e. rewrite bind_run. specialize (Hm w).
  destruct (m w) as [[a|e'|] w']; [apply Hk | destruct (Hm e' eq_refl) | discriminate].
Qed.

Lemma try_catch_never_throws {A} (m : M A) (h : exn -> M A) :
  (forall e, never_throws (h e)) -> never_throws (try_catch m h).
Proof.
  intros Hh w e. unfold try_catch.
  destruct (m w) as [[a|e'|] w']; [discriminate | apply Hh | discriminate].
Qed.

Lemma get_never_throws key : never_throws (redisService.get key).
Proof. apply try_catch_never_throws. intros _. apply ret_never_throws. Qed.

Lemma set_never_throws key value expire : never_throws (redisService.set key value expire).
Proof. apply try_catch_never_throws. intros _. apply ret_never_throws. Qed.

Lemma del_never_throws key : never_throws (redisService.del key).
Proof. apply try_catch_never_throws. intros _. apply ret_never_throws. Qed.

Lemma exists_never_throws key : never_throws (redisService.exists_ key).
Proof. apply try_catch_never_throws. intros _. apply ret_never_throws. Qed.

Lemma flushPattern_never_throws pattern : never_throws (redisService.flushPattern pattern).
Proof. apply try_catch_never_throws. intros _. apply ret_never_throws. Qed.

Lemma invalidateSearchCaches_never_throws :
  never_throws CourseService.invalidateSearchCaches.
Proof.
  unfold CourseService.invalidateSearchCaches.
  apply bind_never_throws; [apply flushPattern_never_throws|]. intros _.
  apply bind_never_throws; [apply flushPattern_never_throws|]. intros _.
  apply bind_never_throws; [apply del_never_throws|]. intros _. apply ret_never_throws.
Qed.

#[local] Hint Resolve ret_never_throws get_never_throws set_never_throws del_never_throws
  exists_never_throws flushPattern_never_throws invalidateSearchCaches_never_throws : world.

(** ** [getCourseById] *)

Lemma truthy_string_miss key w r :
  cached_payload key w = None -> r = None \/ r = payload <$> cache w !! key ->
  truthy_string r = None.
Proof. intros Hmiss [->| ->]; [reflexivity | exact Hmiss]. Qed.


(** The call, by cases on what the lookup returns. *)
Lemma getCourseById_run courseId w :
  reachable w ->
  exists r, (r = None \/ r = payload <$> cache w !! ("course:" +:+ courseId))
    /\ (redis_fate w (redis_clock w) = Answered -> r = payload <$> cache w !! ("course:" +:+ courseId))
    /\ CourseService.getCourseById courseId w
       = match truthy_string r with
         | Some text => (JSON_parse text, tick w)
         | None =>
             match List.find (has_id courseId) (courses w) with
             | Some c =>
                 (Ok (course_json c),
                  world_of (redisService.set ("course:" +:+ courseId)
                              (JSON_stringify (course_json c)) (Some CourseService.CACHE_TTL_COURSE_DETAIL)
                              (logged (CallFindOne courseId) (tick w))))
             | None => (Ok JNull, logged (CallFindOne courseId) (tick w))
             end
         end.
Proof.
  intros Hreach. unfold CourseService.getCourseById.
  assert (reachable (logged (CallFindOne courseId) (tick w))) as Hreach'.
  { apply reachable_logged. exact (reachable_step _ _ (cache_step_tick w) Hreach). }
  pose proof (reachable_now w Hreach) as Hnow.
  destruct (redis_fate w (redis_clock w)) eqn:Hf; [| |congruence].
  - exists (payload <$> cache w !! ("course:" +:+ courseId)). split; [auto|]. split; [auto|].
    rewrite bind_run, get_ok by exact Hf.
    destruct (truthy_string _) as [text|]; [reflexivity|].
    rewrite bind_run. unfold Course.findOne.
    destruct (List.find (has_id courseId) (courses (tick w))) as [c|] eqn:Hc;
      simpl in Hc; rewrite Hc; [|reflexivity].
    rewrite bind_run.
    destruct (set_total ("course:" +:+ courseId) (JSON_stringify (course_json c))
                (Some CourseService.CACHE_TTL_COURSE_DETAIL)
                (logged (CallFindOne courseId) (tick w)) Hreach') as (b & w' & E & _).
    rewrite E. reflexivity.
  - exists None. split; [auto|]. split; [discriminate|].
    rewrite bind_run, get_fails by exact Hf. cbn [truthy_string].
    rewrite bind_run. unfold Course.findOne.
    destruct (List.find (has_id courseId) (courses (tick w))) as [c|] eqn:Hc;
      simpl in Hc; rewrite Hc; [|reflexivity].
    rewrite bind_run.
    destruct (set_total ("course:" +:+ courseId) (JSON_stringify (course_json c))
                (Some CourseService.CACHE_TTL_COURSE_DETAIL)
                (logged (CallFindOne courseId) (tick w)) Hreach') as (b & w' & E & _).
    rewrite E. reflexivity.
Qed.

(** A lookup that does not hit is answered by the store alone, whether
    the cache answers or rejects its commands. *)
Lemma getCourseById_miss courseId w :
  reachable w ->
  cached_payload ("course:" +:+ courseId) w = None ->
  result_of (CourseService.getCourseById courseId w) = Ok (stored_course courseId w).
Proof.
  intros Hreach Hmiss. destruct (getCourseById_run courseId w Hreach) as (r & Hr & _ & ->).
  rewrite (truthy_string_miss _ _ _ Hmiss Hr). unfold stored_course.
  destruct (List.find _ _); reflexivity.
Qed.


Lemma getCourseById_hit courseId w text :
  redis_fate w (redis_clock w) = Answered ->
  cached_payload ("course:" +:+ courseId) w = Some text ->
  CourseService.getCourseById courseId w = (JSON_parse text, tick w).
Proof.
  intros Hf Hhit. unfold CourseService.getCourseById.
  rewrite bind_run, get_ok by exact Hf.
  unfold cached_payload in Hhit. rewrite Hhit. reflexivity.
Qed.

(** A miss on a stored record, with the cache up: the record is returned
    and cached for 1800 seconds. *)
Lemma getCourseById_populates courseId w c :
  cache_up w ->
  cached_payload ("course:" +:+ courseId) w = None ->
  List.find (has_id courseId) (courses w) = Some c ->
  CourseService.getCourseById courseId w
  = (Ok (course_json c),
     with_cache (<["course:" +:+ courseId :=
                    {| payload := JSON_stringify (course_json c); ttl := Some 1800 |}]> (cache w))
       (tick (logged (CallFindOne courseId) (tick w)))).
Proof.
  intros Hup Hmiss Hc.
  destruct (getCourseById_run courseId w (cache_up_reachable w Hup)) as (r & Hr & _ & ->).
  rewrite (truthy_string_miss _ _ _ Hmiss Hr), Hc.
  rewrite set_ok; [reflexivity | apply cache_up_now; auto with world | discriminate].
Qed.

(** A miss on an absent record: null, one store lookup, the cache as it was. *)
Lemma getCourseById_absent courseId w :
  reachable w ->
  cached_payload ("course:" +:+ courseId) w = None ->
  List.find (has_id courseId) (courses w) = None ->
  CourseService.getCourseById courseId w = (Ok JNull, logged (CallFindOne courseId) (tick w)).
Proof.
  intros Hreach Hmiss Hc.
  destruct (getCourseById_run courseId w Hreach) as (r & Hr & _ & ->).
  rewrite (truthy_string_miss _ _ _ Hmiss Hr), Hc. reflexivity.
Qed.

(** C10 (as amended).  For a business key with no record in the store and
    no payload cached under course:{id}, getCourseById returns null,
    leaves the cache exactly as it was and asks the store; the next lookup
    of the same key does the same again, so an absent record is never
    answered from the cache.  This holds whether the cache answers or
    rejects its commands; the server is to be reachable, for a lookup to
    return at all. *)
Theorem C10_absent_lookup_is_never_cached courseId w :
  reachable w ->
  List.find (has_id courseId) (courses w) = None ->
  cached_payload ("course:" +:+ courseId) w = None ->
  let w1 := world_of (CourseService.getCourseById courseId w) in
  result_of (CourseService.getCourseById courseId w) = Ok JNull
  /\ cache w1 = cache w
  /\ mongo_log w1 = CallFindOne courseId :: mongo_log w
  /\ result_of (CourseService.getCourseById courseId w1) = Ok JNull
  /\ cache (world_of (CourseService.getCourseById courseId w1)) = cache w
  /\ mongo_log (world_of (CourseService.getCourseById courseId w1))
     = CallFindOne courseId :: CallFindOne courseId :: mongo_log w.
Proof.
  intros Hreach Habsent Hmiss w1. subst w1.
  rewrite (getCourseById_absent courseId w Hreach Hmiss Habsent).
  cbn [result_of world_of fst snd].
  rewrite getCourseById_absent;
    [repeat split; reflexivity
    | apply reachable_logged; exact (reachable_step _ _ (cache_step_tick w) Hreach)
    | assumption | assumption].
Qed.

Lemma C10_witness :
  let w := world_of_courses [cs101] healthy in
  let w1 := world_of (CourseService.getCourseById "ghost" w) in
  result_of (CourseService.getCourseById "ghost" w) = Ok JNull
  /\ cache w1 = cache w
  /\ mongo_log w1 = CallFindOne "ghost" :: mongo_log w
  /\ result_of (CourseService.getCourseById "ghost" w1) = Ok JNull
  /\ cache (world_of (CourseService.getCourseById "ghost" w1)) = cache w
  /\ mongo_log (world_of (CourseService.getCourseById "ghost" w1))
     = CallFindOne "ghost" :: CallFindOne "ghost" :: mongo_log w.
Proof.
  apply (C10_absent_lookup_is_never_cached "ghost" (world_of_courses [cs101] healthy));
    [intros n _; discriminate | reflexivity | reflexivity].
Defined.

(** C10 fails as stated.  A record cached by a read and then deleted
    while the cache rejects its commands stays cached (the failed DEL is
    swallowed): getCourseById of that key is answered from the entry
    although the store has no such record, and the store is not asked.
    Likewise, once the statistics are cached under course:stats,
    getCourseById("stats") returns them although there is no course
    "stats". *)
Lemma C10_counterexample :
  (let w := world_of (CourseService.deleteCourse "cs101"
                        (world_of (CourseService.getCourseById "cs101"
                                     (world_of_courses [cs101] brief_outage)))) in
   List.find (has_id "cs101") (courses w) = None
   /\ result_of (CourseService.getCourseById "cs101" w) = Ok (course_json cs101)
   /\ result_of (CourseService.getCourseById "cs101" w) <> Ok JNull
   /\ mongo_log (world_of (CourseService.getCourseById "cs101" w)) = mongo_log w)
  /\
  (List.find (has_id "stats") (courses stats_world) = None
   /\ result_of (CourseService.getCourseById "stats" stats_world)
      = Ok (JObject [("totalCourses", JNumber 1%float);
                     ("categoriesCount", JObject [("Computer Science", JNumber 1%float)]);
                     ("skillLevelCount", JObject [("beginner", JNumber 1%float)]);
                     ("averageRating", JNumber 4.2%float)])
   /\ mongo_log (world_of (CourseService.getCourseById "stats" stats_world))
      = mongo_log stats_world).
Proof.
  split; cbv zeta.
  - assert (result_of (CourseService.getCourseById "cs101"
                         (world_of (CourseService.deleteCourse "cs101"
                            (world_of (CourseService.getCourseById "cs101"
                                         (world_of_courses [cs101] brief_outage))))))
            = Ok (course_json cs101)) as H by (vm_compute; reflexivity).
    split; [vm_compute; reflexivity|]. split; [exact H|]. split.
    + rewrite H. discriminate.
    + vm_compute. reflexivity.
  - split; [reflexivity|]. split; vm_compute; reflexivity.
Qed.

(** ** Writes: the store mutation, then the invalidation *)

Lemma cache_up_step w w' : cache_step w w' -> cache_up w -> cache_up w'.
Proof.
  intros (_ & _ & Hf & Hc) Hup n Hn. rewrite Hf. apply Hup. lia.
Qed.

Lemma cache_step_ticks n w : cache_step w (ticks n w).
Proof.
  revert w. induction n as [|n IH]; intros w; simpl.
  - apply cache_step_refl.
  - eapply cache_step_trans; [apply cache_step_tick | apply IH].
Qed.

Lemma del_up key w :
  cache_up w ->
  exists w', redisService.del key w = (Ok true, w')
             /\ cache w' = delete key (cache w) /\ cache_step w w'.
Proof.
  intros Hup. rewrite del_ok by (apply cache_up_now; exact Hup).
  eexists. split; [reflexivity|]. split; [reflexivity | apply cache_step_with_cache].
Qed.

Lemma flushPattern_up pattern w :
  cache_up w ->
  exists w', redisService.flushPattern pattern w = (Ok true, w')
             /\ cache w' = without_pattern pattern (cache w) /\ cache_step w w'.
Proof.
  intros Hup. destruct (flushPattern_ok pattern w Hup) as [n ->].
  eexists. split; [reflexivity|]. split; [reflexivity|].
  destruct (cache_step_ticks n w) as (A & B & C & D). repeat split; assumption.
Qed.

Lemma invalidateSearchCaches_up w :
  cache_up w ->
  exists w', CourseService.invalidateSearchCaches w = (Ok tt, w')
             /\ cache w' = swept (cache w) /\ cache_step w w'.
Proof.
  intros Hup. unfold CourseService.invalidateSearchCaches.
  destruct (flushPattern_up "search:*" w Hup) as (w1 & E1 & C1 & S1).
  destruct (flushPattern_up "courses:*" w1 (cache_up_step _ _ S1 Hup)) as (w2 & E2 & C2 & S2).
  assert (cache_up w2) as Hup2 by eauto using cache_up_step.
  destruct (del_up "course:stats" w2 Hup2) as (w3 & E3 & C3 & S3).
  exists w3. split; [|split].
  - rewrite bind_run, E1, bind_run, E2, bind_run, E3. reflexivity.
  - unfold swept. rewrite C3, C2, C1. reflexivity.
  - eauto using cache_step_trans.
Qed.

Lemma lookup_swept_deleted courseId (c : gmap string Entry) k :
  swept (delete ("course:" +:+ courseId) c) !! k
  = if invalidated courseId k then None else c !! k.
Proof.
  unfold swept, invalidated.
  destruct (String.eqb_spec k "course:stats") as [->|Hs].
  - rewrite lookup_delete_eq, orb_true_r. reflexivity.
  - rewrite lookup_delete_ne by congruence. rewrite !lookup_without_pattern, orb_false_r.
    destruct (redisService.matches "courses:*" k); [rewrite orb_true_r; reflexivity|].
    destruct (redisService.matches "search:*" k); [rewrite orb_true_r; reflexivity|].
    rewrite !orb_false_r.
    destruct (String.eqb_spec k ("course:" +:+ courseId)) as [->|Hk].
    + apply lookup_delete_eq.
    + apply lookup_delete_ne. congruence.
Qed.

(** [updateCourse] on an absent key: the validators, then the query, and
    nothing else. *)
Lemma updateCourse_absent courseId updateData w :
  List.find (has_id courseId) (courses w) = None ->
  CourseService.updateCourse courseId updateData w
  = (match invalid_paths false updateData with
     | [] => Ok None
     | paths => Throw (ValidationError paths)
     end, logged (CallFindOneAndUpdate courseId) w).
Proof.
  intros Habsent. unfold CourseService.updateCourse. rewrite bind_run.
  unfold Course.findOneAndUpdate. cbn [courses logged].
  destruct (invalid_paths false updateData); [|reflexivity].
  rewrite Habsent. reflexivity.
Qed.

Lemma deleteCourse_absent courseId w :
  List.find (has_id courseId) (courses w) = None ->
  CourseService.deleteCourse courseId w = (Ok false, logged (CallFindOneAndDelete courseId) w).
Proof.
  intros Habsent. unfold CourseService.deleteCourse. rewrite bind_run.
  unfold Course.findOneAndDelete. cbn [courses logged]. rewrite Habsent. reflexivity.
Qed.

(** A successful [updateCourse] with the cache up. *)
Lemma updateCourse_found courseId updateData w c :
  cache_up w ->
  List.find (has_id courseId) (courses w) = Some c ->
  invalid_paths false updateData = [] ->
  negb (String.eqb (course_id (apply_update updateData c)) courseId)
    && existsb (has_id (course_id (apply_update updateData c))) (courses w) = false ->
  exists w', CourseService.updateCourse courseId updateData w
             = (Ok (Some (apply_update updateData c)), w')
    /\ courses w' = replace_first courseId (apply_update updateData c) (courses w)
    /\ cache w' = swept (delete ("course:" +:+ courseId) (cache w))
    /\ mongo_log w' = CallFindOneAndUpdate courseId :: mongo_log w
    /\ cache_up w'.
Proof.
  intros Hup Hc Hvalid Hfree. unfold CourseService.updateCourse. rewrite bind_run.
  unfold Course.findOneAndUpdate. cbn [courses logged]. rewrite Hvalid, Hc, Hfree.
  set (w0 := with_courses _ _).
  assert (cache_up w0) as Hup0 by (subst w0; auto with world).
  destruct (del_up ("course:" +:+ courseId) w0 Hup0) as (w1 & E1 & C1 & S1).
  destruct (invalidateSearchCaches_up w1 (cache_up_step _ _ S1 Hup0)) as (w2 & E2 & C2 & S2).
  exists w2. rewrite bind_run, E1, bind_run, E2.
  destruct (cache_step_trans _ _ _ S1 S2) as (A & B & _ & _).
  split; [reflexivity|]. split; [rewrite A; reflexivity|].
  split; [rewrite C2, C1; reflexivity|]. split; [rewrite B; reflexivity|].
  eauto using cache_up_step, cache_step_trans.
Qed.

(** A successful [deleteCourse] with the cache up. *)
Lemma deleteCourse_found courseId w c :
  cache_up w ->
  List.find (has_id courseId) (courses w) = Some c ->
  exists w', CourseService.deleteCourse courseId w = (Ok true, w')
    /\ courses w' = remove_first courseId (courses w)
    /\ cache w' = swept (delete ("course:" +:+ courseId) (cache w))
    /\ mongo_log w' = CallFindOneAndDelete courseId :: mongo_log w
    /\ cache_up w'.
Proof.
  intros Hup Hc. unfold CourseService.deleteCourse. rewrite bind_run.
  unfold Course.findOneAndDelete. cbn [courses logged]. rewrite Hc.
  set (w0 := with_courses _ _).
  assert (cache_up w0) as Hup0 by (subst w0; auto with world).
  destruct (del_up ("course:" +:+ courseId) w0 Hup0) as (w1 & E1 & C1 & S1).
  destruct (invalidateSearchCaches_up w1 (cache_up_step _ _ S1 Hup0)) as (w2 & E2 & C2 & S2).
  exists w2. rewrite bind_run, E1, bind_run, E2.
  destruct (cache_step_trans _ _ _ S1 S2) as (A & B & _ & _).
  split; [reflexivity|]. split; [rewrite A; reflexivity|].
  split; [rewrite C2, C1; reflexivity|]. split; [rewrite B; reflexivity|].
  eauto using cache_up_step, cache_step_trans.
Qed.


Lemma find_has_id courseId coll c :
  List.find (has_id courseId) coll = Some c -> course_id c = courseId.
Proof.
  intros H. apply find_some in H as [_ H]. unfold has_id in H.
  apply String.eqb_eq in H. exact H.
Qed.

(** C5 (as amended).  For a business key absent from the store,
    updateCourse returns null when the update passes the schema validators
    and raises their ValidationError when it does not; deleteCourse
    returns false; in every case no cache command is even attempted, so
    the cache (and the store) are exactly as before. *)
Theorem C5_absent_key_no_invalidation courseId updateData w :
  List.find (has_id courseId) (courses w) = None ->
  let u := CourseService.updateCourse courseId updateData w in
  let d := CourseService.deleteCourse courseId w in
  (invalid_paths false updateData = [] -> result_of u = Ok None)
  /\ (invalid_paths false updateData <> [] ->
      result_of u = Throw (ValidationError (invalid_paths false updateData)))
  /\ cache (world_of u) = cache w
  /\ redis_clock (world_of u) = redis_clock w
  /\ courses (world_of u) = courses w
  /\ result_of d = Ok false
  /\ cache (world_of d) = cache w
  /\ redis_clock (world_of d) = redis_clock w
  /\ courses (world_of d) = courses w.
Proof.
  intros Habsent u d. subst u d.
  rewrite (updateCourse_absent _ _ _ Habsent), (deleteCourse_absent _ _ Habsent).
  cbn [result_of world_of fst snd].
  repeat split; try reflexivity.
  - intros ->. reflexivity.
  - intros Hne. destruct (invalid_paths false updateData); [congruence | reflexivity].
Qed.

Lemma C5_witness :
  let w := world_of_courses [cs101] healthy in
  let u := CourseService.updateCourse "ghost" (rating_update 3%float) w in
  let d := CourseService.deleteCourse "ghost" w in
  (invalid_paths false (rating_update 3%float) = [] -> result_of u = Ok None)
  /\ (invalid_paths false (rating_update 3%float) <> [] ->
      result_of u = Throw (ValidationError (invalid_paths false (rating_update 3%float))))
  /\ cache (world_of u) = cache w
  /\ redis_clock (world_of u) = redis_clock w
  /\ courses (world_of u) = courses w
  /\ result_of d = Ok false
  /\ cache (world_of d) = cache w
  /\ redis_clock (world_of d) = redis_clock w
  /\ courses (world_of d) = courses w.
Proof.
  apply (C5_absent_key_no_invalidation "ghost" (rating_update 3%float)
           (world_of_courses [cs101] healthy)).
  reflexivity.
Defined.

(** C5 fails as stated: with a rating of 7 the update validators reject
    the call before the store is asked, so updateCourse on an absent key
    raises a ValidationError instead of returning null. *)
Lemma C5_counterexample :
  List.find (has_id "ghost") (courses (world_of_courses [cs101] healthy)) = None
  /\ result_of (CourseService.updateCourse "ghost" (rating_update 7%float)
                  (world_of_courses [cs101] healthy))
     = Throw (ValidationError ["rating"])
  /\ result_of (CourseService.updateCourse "ghost" (rating_update 7%float)
                  (world_of_courses [cs101] healthy))
     <> Ok None.
Proof.
  split; [reflexivity|]. split; [reflexivity | discriminate].
Qed.




(** ** [searchCourses] *)



(** A miss that returns, with the cache up: the store was queried, the
    result carries [cached: false] and is cached for 600 seconds. *)
Lemma searchCourses_miss_up E options w v w' :
  cache_up w ->
  cached_payload (CourseService.search_cache_key options) w = None ->
  CourseService.searchCourses E options w = (Ok v, w') ->
  member "cached" v = JBool false
  /\ cache w' = <[CourseService.search_cache_key options :=
                   {| payload := JSON_stringify v; ttl := Some 600 |}]> (cache w)
  /\ (exists query, mongo_log w' = CallCountDocuments query :: CallFind query :: mongo_log w)
  /\ courses w' = courses w.
Proof.
  intros Hup Hmiss. unfold CourseService.searchCourses.
  rewrite bind_run, get_ok by (apply cache_up_now; exact Hup).
  unfold cached_payload in Hmiss. rewrite Hmiss. rewrite !bind_run.
  unfold Course.find. cbn [courses tick].
  destruct (run_find E _ _ _ _ (courses w)) as [cs|e|]; [|discriminate|discriminate].
  rewrite !bind_run. unfold Course.countDocuments. cbn [courses tick logged].
  destruct (run_countDocuments E _ (courses w)) as [n|e|]; [|discriminate|discriminate].
  rewrite !bind_run.
  rewrite set_ok; [|apply cache_up_now; auto with world | discriminate].
  intros H. injection H as <- <-. cbn [cache with_cache tick logged mongo_log courses].
  repeat split; eauto.
Qed.

(** ** [getCourseStats] *)


(** A miss that returns, with the cache up: four store calls, the result
    without any [cached] member, cached for 900 seconds. *)
Lemma getCourseStats_miss_up E w v w' :
  cache_up w ->
  cached_payload "course:stats" w = None ->
  CourseService.getCourseStats E w = (Ok v, w') ->
  member "cached" v = JUndefined
  /\ cache w' = <["course:stats" := {| payload := JSON_stringify v; ttl := Some 900 |}]> (cache w)
  /\ (exists p1 p2 p3, mongo_log w'
        = CallAggregate p3 :: CallAggregate p2 :: CallAggregate p1
          :: CallCountDocuments (JObject []) :: mongo_log w)
  /\ courses w' = courses w.
Proof.
  intros Hup Hmiss. unfold CourseService.getCourseStats.
  rewrite bind_run, get_ok by (apply cache_up_now; exact Hup).
  unfold cached_payload in Hmiss. rewrite Hmiss. rewrite !bind_run.
  unfold Course.countDocuments. cbn [courses tick].
  destruct (run_countDocuments E _ (courses w)) as [n|e|]; [|discriminate|discriminate].
  rewrite !bind_run. unfold Course.aggregate. cbn [courses tick logged].
  destruct (run_aggregate E _ (courses w)) as [a1|e|]; [|discriminate|discriminate].
  rewrite !bind_run. cbn [courses tick logged].
  destruct (run_aggregate E _ (courses w)) as [a2|e|]; [|discriminate|discriminate].
  rewrite !bind_run. cbn [courses tick logged].
  destruct (run_aggregate E _ (courses w)) as [a3|e|]; [|discriminate|discriminate].
  rewrite !bind_run.
  rewrite set_ok; [|apply cache_up_now; auto 12 with world | discriminate].
  intros H. injection H as <- <-. cbn [cache with_cache tick logged mongo_log courses].
  split; [reflexivity|]. split; [reflexivity|]. split; [|reflexivity].
  do 3 eexists. reflexivity.
Qed.

(** ** The listing route *)


(** A miss answered with status 200, with the cache up: the store was
    queried and the page, which has no [cached] member, is cached for 300
    seconds. *)
Lemma listing_miss_up E user page limit category skill_level w resp w' :
  Auth.isAdmin user = true ->
  cache_up w ->
  cached_payload (listing_key page limit category skill_level) w = None ->
  UploadRoute.GET E user page limit category skill_level w = (Ok resp, w') ->
  status resp = 200 ->
  member "cached" (body resp) = JUndefined
  /\ cache w' = <[listing_key page limit category skill_level :=
                   {| payload := JSON_stringify (body resp); ttl := Some 300 |}]> (cache w)
  /\ (exists query, mongo_log w' = CallCountDocuments query :: CallFind query :: mongo_log w).
Proof.
  intros Hadmin Hup Hmiss. unfold UploadRoute.GET. rewrite Hadmin. cbn [negb].
  unfold try_catch. rewrite bind_run. fold (listing_key page limit category skill_level).
  rewrite get_ok by (apply cache_up_now; exact Hup).
  unfold cached_payload in Hmiss. rewrite Hmiss. rewrite !bind_run.
  unfold Course.find. cbn [courses tick].
  destruct (run_find E _ _ _ _ (courses w)) as [cs|e|];
    [|intros H; injection H as <- <-; discriminate|discriminate].
  rewrite !bind_run. unfold Course.countDocuments. cbn [courses tick logged].
  destruct (run_countDocuments E _ (courses w)) as [n|e|];
    [|intros H; injection H as <- <-; discriminate|discriminate].
  rewrite !bind_run.
  rewrite set_ok; [|apply cache_up_now; auto 12 with world | discriminate].
  intros H _. injection H as <- <-. cbn [cache with_cache tick logged mongo_log body].
  split; [reflexivity|]. split; [reflexivity|]. eexists. reflexivity.
Qed.

(** ** A sweep whose DEL is rejected *)


(** ** A server that cannot be reached *)

Lemma set_pending key value expire w :
  redis_fate w (redis_clock w) = Unreachable ->
  redisService.set key value expire w = (Pending, w).
Proof.
  intros H. unfold redisService.set, try_catch. rewrite bind_run.
  destruct expire as [s|]; [destruct (s =? 0)|];
    unfold redisService.client_set, redisService.client_setEx;
    rewrite command_pending by exact H; reflexivity.
Qed.

Lemma del_pending key w :
  redis_fate w (redis_clock w) = Unreachable -> redisService.del key w = (Pending, w).
Proof.
  intros H. unfold redisService.del, try_catch, redisService.client_del. rewrite bind_run.
  rewrite command_pending by exact H. reflexivity.
Qed.

Lemma exists_pending key w :
  redis_fate w (redis_clock w) = Unreachable -> redisService.exists_ key w = (Pending, w).
Proof.
  intros H. unfold redisService.exists_, try_catch, redisService.client_exists.
  rewrite bind_run, command_pending by exact H. reflexivity.
Qed.

Lemma flushPattern_pending pattern w :
  redis_fate w (redis_clock w) = Unreachable ->
  redisService.flushPattern pattern w = (Pending, w).
Proof.
  intros H. unfold redisService.flushPattern, try_catch, redisService.client_keys.
  rewrite bind_run, command_pending by exact H. reflexivity.
Qed.

Lemma getCourseById_pending courseId w :
  redis_fate w (redis_clock w) = Unreachable ->
  CourseService.getCourseById courseId w = (Pending, w).
Proof.
  intros H. unfold CourseService.getCourseById. rewrite bind_run, get_pending by exact H.
  reflexivity.
Qed.

Lemma searchCourses_pending E options w :
  redis_fate w (redis_clock w) = Unreachable ->
  CourseService.searchCourses E options w = (Pending, w).
Proof.
  intros H. unfold CourseService.searchCourses. rewrite bind_run, get_pending by exact H.
  reflexivity.
Qed.

Lemma getCourseStats_pending E w :
  redis_fate w (redis_clock w) = Unreachable ->
  CourseService.getCourseStats E w = (Pending, w).
Proof.
  intros H. unfold CourseService.getCourseStats. rewrite bind_run, get_pending by exact H.
  reflexivity.
Qed.

(** C6.  The claim holds of a command the client rejects and fails of a
    server that cannot be reached.  [connect] is given a
    [reconnectStrategy] that always returns a delay, so with nothing
    listening at REDIS_URL the client retries without end: no gateway call
    settles, its [catch] is never reached and it returns neither null nor
    false.  No read of the service returns then, though the store holds
    the course and answers the same read when the cache is healthy. *)
Theorem C6_unreachable_cache_blocks_the_reads :
  let down := world_of_courses [cs101] unreachable in
  let up := world_of_courses [cs101] healthy in
  redisService.get "course:cs101" down = (Pending, down)
  /\ redisService.set "course:cs101" "{}" (Some 1800) down = (Pending, down)
  /\ redisService.del "course:cs101" down = (Pending, down)
  /\ redisService.exists_ "course:cs101" down = (Pending, down)
  /\ redisService.flushPattern "search:*" down = (Pending, down)
  /\ CourseService.getCourseById "cs101" down = (Pending, down)
  /\ CourseService.searchCourses ScanEngine.engine [] down = (Pending, down)
  /\ CourseService.getCourseStats ScanEngine.engine down = (Pending, down)
  /\ courses down = courses up
  /\ result_of (CourseService.getCourseById "cs101" up) = Ok (course_json cs101).
Proof.
  cbv zeta.
  split; [apply get_pending; reflexivity|].
  split; [apply set_pending; reflexivity|].
  split; [apply del_pending; reflexivity|].
  split; [apply exists_pending; reflexivity|].
  split; [apply flushPattern_pending; reflexivity|].
  split; [apply getCourseById_pending; reflexivity|].
  split; [apply searchCourses_pending; reflexivity|].
  split; [apply getCourseStats_pending; reflexivity|].
  split; [reflexivity|].
  rewrite getCourseById_miss; [reflexivity | intros n _; discriminate | reflexivity].
Qed.

(** ** The read path *)









(** C9.  With the cache answering its commands, the entry a read miss
    writes carries 1800 seconds for a course's detail, 600 for a search
    page, 300 for a listing page and 900 for the statistics; these are the
    constants of the service. *)
Theorem C9_ttl_tiers
    (E : Engine) (w : World) (courseId : string) (options : list (string * json))
    (user : option Auth.JWTPayload) (page limit category skill_level : option string) :
  cache_up w ->
  Auth.isAdmin user = true ->
  (forall c,
      cached_payload ("course:" +:+ courseId) w = None ->
      List.find (has_id courseId) (courses w) = Some c ->
      ttl <$> cache (world_of (CourseService.getCourseById courseId w)) !! ("course:" +:+ courseId)
      = Some (Some 1800))
  /\ (forall v w',
      cached_payload (CourseService.search_cache_key options) w = None ->
      CourseService.searchCourses E options w = (Ok v, w') ->
      ttl <$> cache w' !! CourseService.search_cache_key options = Some (Some 600))
  /\ (forall resp w',
      cached_payload (listing_key page limit category skill_level) w = None ->
      UploadRoute.GET E user page limit category skill_level w = (Ok resp, w') ->
      status resp = 200 ->
      ttl <$> cache w' !! listing_key page limit category skill_level = Some (Some 300))
  /\ (forall v w',
      cached_payload "course:stats" w = None ->
      CourseService.getCourseStats E w = (Ok v, w') ->
      ttl <$> cache w' !! "course:stats" = Some (Some 900))
  /\ CourseService.CACHE_TTL_COURSE_DETAIL = 1800
  /\ CourseService.CACHE_TTL_SEARCH_RESULTS = 600
  /\ CourseService.CACHE_TTL_COURSE_LIST = 300.
Proof.
  intros Hup Hadmin. split; [|split; [|split; [|split]]].
  - intros c Hmiss Hc. rewrite (getCourseById_populates courseId w c Hup Hmiss Hc).
    cbn [world_of snd cache with_cache]. rewrite lookup_insert_eq. reflexivity.
  - intros v w' Hmiss Hrun.
    destruct (searchCourses_miss_up E options w v w' Hup Hmiss Hrun) as (_ & -> & _).
    rewrite lookup_insert_eq. reflexivity.
  - intros resp w' Hmiss Hrun Hstatus.
    destruct (listing_miss_up E user page limit category skill_level w resp w'
                Hadmin Hup Hmiss Hrun Hstatus) as (_ & -> & _).
    rewrite lookup_insert_eq. reflexivity.
  - intros v w' Hmiss Hrun.
    destruct (getCourseStats_miss_up E w v w' Hup Hmiss Hrun) as (_ & -> & _).
    rewrite lookup_insert_eq. reflexivity.
  - repeat split; reflexivity.
Qed.

Lemma C9_witness :
  let w := world_of_courses [cs101] healthy in
  ttl <$> cache (world_of (CourseService.getCourseById "cs101" w)) !! ("course:" +:+ "cs101")
  = Some (Some 1800)
  /\ ttl <$> cache (world_of (CourseService.searchCourses ScanEngine.engine [] w))
             !! CourseService.search_cache_key [] = Some (Some 600)
  /\ ttl <$> cache (world_of (UploadRoute.GET ScanEngine.engine admin None None None None w))
             !! listing_key None None None None = Some (Some 300)
  /\ ttl <$> cache (world_of (CourseService.getCourseStats ScanEngine.engine w))
             !! "course:stats" = Some (Some 900).
Proof.
  cbv zeta.
  destruct (C9_ttl_tiers ScanEngine.engine (world_of_courses [cs101] healthy) "cs101"
              [] admin None None None None (fun n _ => eq_refl) eq_refl)
    as (H1 & H2 & H3 & H4 & _).
  split; [apply (H1 cs101); reflexivity|].
  split; [eapply H2; [reflexivity | vm_compute; reflexivity]|].
  split; [eapply H3; [reflexivity | vm_compute; reflexivity | reflexivity]|].
  eapply H4; [reflexivity | vm_compute; reflexivity].
Defined.

(** ** Cache keys of searches *)

(** C1 at a failing input.  The two descriptors have the same six
    members, yet searchCourses serializes them in insertion order and
    gets two different keys: after a search with the first, the search
    with the second is a miss (cached=false) that queries the store again,
    while repeating the first is a hit. *)
Theorem C1_member_order_changes_the_key :
  let E := ScanEngine.engine in
  let w1 := world_of (CourseService.searchCourses E beginner_first
                        (world_of_courses [cs101] healthy)) in
  map (fun k => obj_get k beginner_first) descriptor_members
  = map (fun k => obj_get k page_first) descriptor_members
  /\ CourseService.search_cache_key beginner_first <> CourseService.search_cache_key page_first
  /\ (exists v, result_of (CourseService.searchCourses E page_first w1) = Ok v
                /\ member "cached" v = JBool false)
  /\ length (mongo_log (world_of (CourseService.searchCourses E page_first w1)))
     = (2 + length (mongo_log w1))%nat
  /\ (exists v, result_of (CourseService.searchCourses E beginner_first w1) = Ok v
                /\ member "cached" v = JBool true).
Proof.
  cbv zeta. split; [reflexivity|]. split; [vm_compute; discriminate|].
  split; [eexists; split; [vm_compute; reflexivity | reflexivity]|].
  split; [vm_compute; reflexivity|].
  eexists; split; [vm_compute; reflexivity | reflexivity].
Qed.

(** ** The invalidation set of a write *)

(** X1.  The service's update and delete remove exactly the invalidation set:
    course:{id}, the keys matching search:* and courses:*, and
    course:stats; every other key keeps its entry. *)
Theorem service_invalidation_is_exact courseId updateData w c k :
  cache_up w ->
  List.find (has_id courseId) (courses w) = Some c ->
  (invalid_paths false updateData = [] ->
   negb (String.eqb (course_id (apply_update updateData c)) courseId)
     && existsb (has_id (course_id (apply_update updateData c))) (courses w) = false ->
   result_of (CourseService.updateCourse courseId updateData w)
   = Ok (Some (apply_update updateData c))
   /\ cache (world_of (CourseService.updateCourse courseId updateData w)) !! k
      = if invalidated courseId k then None else cache w !! k)
  /\ result_of (CourseService.deleteCourse courseId w) = Ok true
  /\ cache (world_of (CourseService.deleteCourse courseId w)) !! k
     = if invalidated courseId k then None else cache w !! k.
Proof.
  intros Hup Hc. split; [|].
  - intros Hvalid Hfree.
    destruct (updateCourse_found courseId updateData w c Hup Hc Hvalid Hfree)
      as (w' & -> & _ & Hcache & _).
    cbn [result_of world_of fst snd]. rewrite Hcache. split; [reflexivity|].
    apply lookup_swept_deleted.
  - destruct (deleteCourse_found courseId w c Hup Hc) as (w' & -> & _ & Hcache & _).
    cbn [result_of world_of fst snd]. rewrite Hcache. split; [reflexivity|].
    apply lookup_swept_deleted.
Qed.

Lemma service_invalidation_witness :
  cache (world_of (CourseService.deleteCourse "cs101" stats_world)) !! "course:stats"
  = if invalidated "cs101" "course:stats" then None else cache stats_world !! "course:stats".
Proof.
  apply (service_invalidation_is_exact "cs101" no_change stats_world cs101 "course:stats").
  - intros n _. reflexivity.
  - reflexivity.
Defined.

(** C3 at a failing input.  With the statistics cached, a PUT of the
    route handler on an existing course succeeds (status 200) but leaves
    course:stats in the cache, although the key is in the invalidation set
    and the service's updateCourse deletes it in the same world; the
    statistics read next are the stale ones (average rating 4.2 for a
    course now rated 3).  The DELETE handler leaves the key as well. *)
Theorem C3_route_keeps_stale_stats :
  let put := CourseIdRoute.PUT no_message new_year admin "cs101"
               (Resolves (JObject [("rating", JNumber 3%float)])) stats_world in
  let del := CourseIdRoute.DELETE no_message new_year admin "cs101" stats_world in
  invalidated "cs101" "course:stats" = true
  /\ (status <$> result_of_option (result_of put)) = Some 200
  /\ map rating (courses (world_of put)) = [3%float]
  /\ cache (world_of put) !! "course:stats" = cache stats_world !! "course:stats"
  /\ is_Some (cache (world_of put) !! "course:stats")
  /\ member "averageRating" (ok_or_null (result_of (CourseService.getCourseStats ScanEngine.engine (world_of put))))
     = JNumber 4.2%float
  /\ cache (world_of (CourseService.updateCourse "cs101" (rating_update 3%float) stats_world))
       !! "course:stats" = None
  /\ (status <$> result_of_option (result_of del)) = Some 200
  /\ is_Some (cache (world_of del) !! "course:stats")
  /\ cache (world_of (CourseService.deleteCourse "cs101" stats_world)) !! "course:stats" = None.
Proof.
  cbv zeta. split; [reflexivity|]. split; [vm_compute; reflexivity|].
  split; [vm_compute; reflexivity|]. split; [vm_compute; reflexivity|].
  split; [vm_compute; eexists; reflexivity|]. split; [vm_compute; reflexivity|].
  split; [vm_compute; reflexivity|]. split; [vm_compute; reflexivity|].
  split; [vm_compute; eexists; reflexivity | vm_compute; reflexivity].
Qed.

(** ** Rating validation *)

Lemma SFcompare_refl f : f <> S754_nan -> SFcompare f f = Some Eq.
Proof.
  destruct f as [s|s| |s m e]; intros H; try congruence; simpl.
  - reflexivity.
  - destruct s; reflexivity.
  - destruct s; rewrite Z.compare_refl, Pos.compare_cont_refl; reflexivity.
Qed.

(** A number that compares below or above another is not NaN. *)
Lemma ltb_not_nan x y : PrimFloat.ltb x y = true -> is_nan x = false /\ is_nan y = false.
Proof.
  rewrite FloatAxioms.ltb_spec. unfold is_nan. rewrite !FloatAxioms.eqb_spec. unfold SFltb, SFeqb.
  intros H. split.
  - destruct (Prim2SF x) eqn:Hx;
      first [ rewrite SFcompare_refl by discriminate; reflexivity | simpl in H; discriminate ].
  - destruct (Prim2SF y) eqn:Hy;
      first [ rewrite SFcompare_refl by discriminate; reflexivity
            | destruct (Prim2SF x); simpl in H; discriminate ].
Qed.

(** The issues of a member stand under that member's path. *)
Lemma check_string_path f least m1 most v i :
  In i (Validation.check_string f least m1 most v) -> Validation.path i = [f].
Proof.
  unfold Validation.check_string, Validation.wrong_type, Validation.issue.
  destruct v; try (intros [<-|[]]; reflexivity).
  intros H. apply in_app_or in H as [H|H].
  - destruct (_ <? _)%nat; [destruct H as [<-|[]]; reflexivity | destruct H].
  - destruct most as [[m msg]|]; [|destruct H].
    destruct (_ <? _)%nat; [destruct H as [<-|[]]; reflexivity | destruct H].
Qed.

Lemma check_skill_level_path f v i :
  In i (Validation.check_skill_level f v) -> Validation.path i = [f].
Proof.
  unfold Validation.check_skill_level, Validation.wrong_type, Validation.issue.
  destruct v; try (intros [<-|[]]; reflexivity).
  destruct (skill_level_in_enum s); [intros [] | intros [<-|[]]; reflexivity].
Qed.

Lemma member_check_In partial check v i :
  In i (Validation.member_check partial check v) -> In i (check v).
Proof.
  unfold Validation.member_check. destruct v; try exact (fun H => H).
  destruct partial; [intros [] | exact (fun H => H)].
Qed.

Lemma member_found k ms v : obj_get k ms = Some v -> member k (JObject ms) = v.
Proof. intros H. unfold member. rewrite H. reflexivity. Qed.

(** With a rating at a bound, no issue of a body stands under [rating]. *)
Lemma rating_at_bound_raises_no_issue partial ms r i :
  obj_get "rating" ms = Some (JNumber r) ->
  Validation.check_rating "rating" (JNumber r) = [] ->
  In i (Validation.course_issues partial (JObject ms)) ->
  Validation.path i <> ["rating"].
Proof.
  intros Hr Hok Hin. unfold Validation.course_issues in Hin.
  repeat (apply in_app_or in Hin as [Hin|Hin]);
    apply member_check_In in Hin;
    try (apply check_string_path in Hin; rewrite Hin; discriminate).
  - rewrite (member_found _ _ _ Hr), Hok in Hin. destruct Hin.
  - apply check_skill_level_path in Hin. rewrite Hin. discriminate.
Qed.

Lemma rating_issue_in_body partial ms r i :
  obj_get "rating" ms = Some (JNumber r) ->
  In i (Validation.check_rating "rating" (JNumber r)) ->
  In i (Validation.course_issues partial (JObject ms)).
Proof.
  intros Hr Hin. unfold Validation.course_issues.
  do 7 (apply in_or_app; right). apply in_or_app. left.
  rewrite (member_found _ _ _ Hr). exact Hin.
Qed.

Lemma validateRequest_issue partial body i :
  In i (Validation.course_issues partial body) ->
  exists errors,
    Validation.validateRequest (Validation.course_schema partial) body = Validation.Failure errors
    /\ In (String.concat "." (Validation.path i) +:+ ": " +:+ Validation.message i) errors.
Proof.
  intros Hin. unfold Validation.validateRequest, Validation.course_schema, Validation.parse.
  destruct (Validation.course_issues partial body) as [|i0 l] eqn:E; [destruct Hin|].
  eexists. split; [reflexivity|].
  apply (in_map (fun err => String.concat "." (Validation.path err) +:+ ": "
                           +:+ Validation.message err)) in Hin. exact Hin.
Qed.

Lemma In_required v f m : In m (CsvParser.required v f) -> m = f +:+ " is required".
Proof.
  unfold CsvParser.required. destruct (truthy _); [intros [] | intros [<-|[]]; reflexivity].
Qed.

(** C8.  A request body whose rating is a number strictly below 0 is
    rejected with the issue "rating: Number must be greater than or equal
    to 0", and one strictly above 5 with "rating: Rating must be between 0
    and 5" (by the create schema and by the update schema); a CSV row
    whose rating parses strictly below 0 or strictly above 5 is rejected
    with "rating must be a number between 0 and 5".  A rating of exactly 0
    or exactly 5 raises no issue under "rating" in a body and no rating
    error in a row.  In particular -0.1 and 5.1 are rejected and 0 and 5
    accepted, in a body and in a row that are otherwise valid. *)
Theorem C8_rating_range
    (partial : bool) (ms : list (string * json)) (r : number) (data : CsvParser.CSVCourseData) :
  (obj_get "rating" ms = Some (JNumber r) -> PrimFloat.ltb r 0 = true ->
   exists errors,
     Validation.validateRequest (Validation.course_schema partial) (JObject ms)
     = Validation.Failure errors
     /\ In too_small_message errors)
  /\ (obj_get "rating" ms = Some (JNumber r) -> PrimFloat.ltb 5 r = true ->
      exists errors,
        Validation.validateRequest (Validation.course_schema partial) (JObject ms)
        = Validation.Failure errors
        /\ In too_big_message errors)
  /\ (obj_get "rating" ms = Some (JNumber r) -> r = 0%float \/ r = 5%float ->
      forall i, In i (Validation.course_issues partial (JObject ms)) ->
                Validation.path i <> ["rating"])
  /\ (PrimFloat.ltb (parseFloat (CsvParser.rating data)) 0 = true
      \/ PrimFloat.ltb 5 (parseFloat (CsvParser.rating data)) = true ->
      In csv_rating_message (CsvParser.validateCourseData data))
  /\ (CsvParser.rating data = "0" \/ CsvParser.rating data = "5" ->
      ~ In csv_rating_message (CsvParser.validateCourseData data))
  /\ Validation.validateRequest Validation.CourseCreateSchema (course_body (-0.1)%float)
     = Validation.Failure [too_small_message]
  /\ Validation.validateRequest Validation.CourseCreateSchema (course_body 5.1%float)
     = Validation.Failure [too_big_message]
  /\ Validation.validateRequest Validation.CourseCreateSchema (course_body 0%float)
     = Validation.Success (to_partial (apply_update (rating_update 0%float) cs101))
  /\ Validation.validateRequest Validation.CourseCreateSchema (course_body 5%float)
     = Validation.Success (to_partial (apply_update (rating_update 5%float) cs101))
  /\ CsvParser.validateCourseData (csv_row "-0.1") = [csv_rating_message]
  /\ CsvParser.validateCourseData (csv_row "5.1") = [csv_rating_message]
  /\ CsvParser.validateCourseData (csv_row "0") = []
  /\ CsvParser.validateCourseData (csv_row "5") = [].
Proof.
  split; [|split; [|split; [|split; [|split]]]].
  - intros Hr Hlt. destruct (ltb_not_nan _ _ Hlt) as [Hnan _].
    destruct (validateRequest_issue partial (JObject ms)
                (Validation.issue "rating" "Number must be greater than or equal to 0"))
      as (errors & E & Hin).
    + apply (rating_issue_in_body partial ms r _ Hr).
      unfold Validation.check_rating. rewrite Hnan, Hlt. left. reflexivity.
    + exists errors. split; [exact E | exact Hin].
  - intros Hr Hlt. destruct (ltb_not_nan _ _ Hlt) as [_ Hnan].
    destruct (validateRequest_issue partial (JObject ms)
                (Validation.issue "rating" "Rating must be between 0 and 5"))
      as (errors & E & Hin).
    + apply (rating_issue_in_body partial ms r _ Hr).
      unfold Validation.check_rating. rewrite Hnan, Hlt. apply in_or_app. right. left. reflexivity.
    + exists errors. split; [exact E | exact Hin].
  - intros Hr Hbound i Hin.
    apply (rating_at_bound_raises_no_issue partial ms r i Hr); [|exact Hin].
    destruct Hbound as [-> | ->]; reflexivity.
  - intros Hout. unfold CsvParser.validateCourseData.
    assert (truthy (JString (CsvParser.rating data)) = true) as Htruthy.
    { destruct (CsvParser.rating data) as [|c s]; [|reflexivity].
      destruct Hout as [H|H]; vm_compute in H; discriminate. }
    rewrite Htruthy. do 7 (apply in_or_app; right). apply in_or_app. left.
    destruct Hout as [H|H]; rewrite H, ?orb_true_r; left; reflexivity.
  - intros Hbound Hin. unfold CsvParser.validateCourseData in Hin.
    repeat (apply in_app_or in Hin as [Hin|Hin]);
      try (apply In_required in Hin; vm_compute in Hin; discriminate).
    + destruct Hbound as [H|H]; rewrite H in Hin; vm_compute in Hin; destruct Hin.
    + destruct (_ && _); [|destruct Hin].
      destruct Hin as [Hin|[]]. vm_compute in Hin. discriminate.
  - repeat split; vm_compute; reflexivity.
Qed.

Lemma C8_witness :
  (exists errors,
      Validation.validateRequest (Validation.course_schema false) (course_body (-0.1)%float)
      = Validation.Failure errors
      /\ In too_small_message errors)
  /\ In csv_rating_message (CsvParser.validateCourseData (csv_row "5.1")).
Proof.
  destruct (C8_rating_range false
              [("course_id", JString "cs101"); ("title", JString "Algorithms");
               ("description", JString "Sorting and searching");
               ("category", JString "Computer Science"); ("instructor", JString "Ada");
               ("duration", JString "10 weeks"); ("price", JString "free");
               ("rating", JNumber (-0.1)%float); ("skill_level", JString "beginner")]
              (-0.1)%float (csv_row "5.1")) as (H1 & _ & _ & H4 & _).
  split; [apply H1; reflexivity | apply H4; right; reflexivity].
Defined.

(** ** Bulk insert *)

Lemma validated_to_partial d :
  invalid_paths true (to_partial d) = [] -> validated (to_partial d) = Some d.
Proof.
  intros H. unfold validated. rewrite H. destruct d; reflexivity.
Qed.

Lemma omap_validated docs :
  Forall (fun d => invalid_paths true (to_partial d) = []) docs ->
  omap validated (map to_partial docs) = docs.
Proof.
  induction 1 as [|d docs Hd _ IH]; [reflexivity|].
  cbn [map omap list_omap]. rewrite (validated_to_partial d Hd).
  cbn. f_equal. exact IH.
Qed.

Lemma key_taken_app coll d x :
  key_taken (coll ++ [d])%list x = key_taken coll x || String.eqb (course_id d) (course_id x).
Proof.
  unfold key_taken. rewrite existsb_app. cbn [existsb]. unfold has_id at 2.
  rewrite orb_false_r. reflexivity.
Qed.

(** What an unordered insert does when the new documents carry distinct
    keys: the new ones are appended in order, each other one is reported. *)
Lemma insert_unordered_spec docs : forall index coll,
  NoDup (map course_id (List.filter (fun d => negb (key_taken coll d)) docs)) ->
  exists errs,
    insert_unordered docs index coll
    = ((coll ++ List.filter (fun d => negb (key_taken coll d)) docs)%list, errs)
    /\ length errs = length (List.filter (key_taken coll) docs)
    /\ Forall (fun e => we_code e = 11000) errs.
Proof.
  induction docs as [|d docs IH]; intros index coll Hnd.
  - exists []. cbn. rewrite app_nil_r. repeat split. constructor.
  - cbn [insert_unordered List.filter] in *. fold (key_taken coll d) in *.
    destruct (key_taken coll d) eqn:Hd; cbn [negb] in *.
    + destruct (IH (index + 1) coll Hnd) as (errs & -> & Hlen & Hall).
      eexists. split; [reflexivity|]. split; [cbn; rewrite Hlen; reflexivity|].
      constructor; [reflexivity | exact Hall].
    + cbn [map] in Hnd. apply NoDup_cons in Hnd as [Hfresh Hnd].
      assert (forall x, In x docs ->
                 key_taken coll x = false -> String.eqb (course_id d) (course_id x) = false)
        as Hother.
      { intros x Hx Hk. destruct (String.eqb_spec (course_id d) (course_id x)) as [Heq|]; [|reflexivity].
        exfalso. apply Hfresh. rewrite Heq. apply list_elem_of_In, in_map, filter_In.
        split; [exact Hx | rewrite Hk; reflexivity]. }
      assert (List.filter (fun x => negb (key_taken (coll ++ [d])%list x)) docs
              = List.filter (fun x => negb (key_taken coll x)) docs) as Hnew.
      { apply filter_ext_in. intros x Hx. rewrite key_taken_app.
        destruct (key_taken coll x) eqn:Hk; [reflexivity|]. rewrite (Hother x Hx Hk). reflexivity. }
      assert (List.filter (key_taken (coll ++ [d])%list) docs = List.filter (key_taken coll) docs)
        as Hold.
      { apply filter_ext_in. intros x Hx. rewrite key_taken_app.
        destruct (key_taken coll x) eqn:Hk; [reflexivity|]. rewrite (Hother x Hx Hk). reflexivity. }
      destruct (IH (index + 1) (coll ++ [d])%list) as (errs & -> & Hlen & Hall).
      { rewrite Hnew. exact Hnd. }
      exists errs. rewrite Hnew, Hold in *. rewrite <- app_assoc. auto.
Qed.

Lemma find_none_of_not_taken coll d :
  key_taken coll d = false -> List.find (has_id (course_id d)) coll = None.
Proof.
  unfold key_taken. induction coll as [|c coll IH]; [reflexivity|].
  cbn. destruct (has_id (course_id d) c); [discriminate | exact IH].
Qed.

Lemma find_app_r {A} (p : A -> bool) l1 l2 :
  List.find p l1 = None -> List.find p (l1 ++ l2)%list = List.find p l2.
Proof.
  induction l1 as [|a l1 IH]; [reflexivity|]. cbn. destruct (p a); [discriminate | exact IH].
Qed.

Lemma find_of_distinct_keys l d :
  NoDup (map course_id l) -> In d l -> List.find (has_id (course_id d)) l = Some d.
Proof.
  induction l as [|c l IH]; intros Hnd Hin; [destruct Hin|].
  cbn [map] in Hnd. apply NoDup_cons in Hnd as [Hc Hnd]. cbn. unfold has_id at 1.
  destruct Hin as [->|Hin].
  - rewrite String.eqb_refl. reflexivity.
  - destruct (String.eqb_spec (course_id c) (course_id d)) as [Heq|_].
    + exfalso. apply Hc. rewrite Heq. apply list_elem_of_In, in_map. exact Hin.
    + apply IH; assumption.
Qed.

Lemma ret_run {A} (a : A) (w : World) : (mret a : M A) w = (Ok a, w).
Proof. reflexivity. Qed.

(** C4 (as amended).  For every batch of N valid course records of which
    M carry the business key of an already-stored record and the other
    N-M carry new, pairwise distinct keys, bulkInsertCourses returns
    insertedCount = N-M and duplicateCount = M with M write errors of code
    11000 in errors, whether the cache answers or rejects its commands
    (the server being reachable, for the call to return at all); the N-M
    new records are appended to the collection, each is the record the
    store finds for its key, and getCourseById returns it unless a payload
    cached under course:{id} answers first. *)
Theorem C4_bulk_insert_partial_success (docs : list ICourseData) (w : World) :
  reachable w ->
  Forall valid_record docs ->
  NoDup (map course_id (new_records w docs)) ->
  let N := Z.of_nat (length docs) in
  let M := Z.of_nat (length (duplicates w docs)) in
  let r := CourseService.bulkInsertCourses (map to_partial docs) w in
  Z.of_nat (length (new_records w docs)) = N - M
  /\ (exists errs,
        result_of r = Ok {| CourseService.insertedCount := N - M;
                            CourseService.duplicateCount := M;
                            CourseService.errors := errs |}
        /\ Z.of_nat (length errs) = M
        /\ Forall (fun e => we_code e = 11000) errs)
  /\ courses (world_of r) = (courses w ++ new_records w docs)%list
  /\ (forall d, In d (new_records w docs) ->
        List.find (has_id (course_id d)) (courses (world_of r)) = Some d
        /\ (cached_payload ("course:" +:+ course_id d) (world_of r) = None ->
            result_of (CourseService.getCourseById (course_id d) (world_of r))
            = Ok (course_json d))).
Proof.
  intros Hreach Hvalid Hnd N M r.
  assert (Z.of_nat (length (new_records w docs)) = N - M) as Hcount.
  { subst N M. unfold new_records, duplicates.
    pose proof (filter_length (key_taken (courses w)) docs) as H. lia. }
  split; [exact Hcount|].
  destruct (insert_unordered_spec docs 0 (courses w) Hnd) as (errs & Hins & Hlen & Hall).
  fold (new_records w docs) in Hins. fold (duplicates w docs) in Hlen.
  assert (exists w',
             r = (Ok {| CourseService.insertedCount := N - M;
                        CourseService.duplicateCount := M;
                        CourseService.errors := errs |}, w')
             /\ courses w' = (courses w ++ new_records w docs)%list
             /\ reachable w') as (w' & Hr & Hcs & Hreach').
  { subst r. unfold CourseService.bulkInsertCourses. rewrite bind_run.
    unfold try_catch at 1. rewrite bind_run. unfold Course.insertMany.
    rewrite (omap_validated docs Hvalid). cbn [courses logged]. rewrite Hins.
    destruct errs as [|e errs].
    - set (w0 := with_courses _ _).
      assert (reachable w0) as Hreach0 by (subst w0; auto with world).
      destruct (invalidateSearchCaches_total w0 Hreach0) as (w' & E & Hstep).
      cbv beta iota. rewrite ret_run. cbv beta iota. rewrite bind_run, E. exists w'.
      split; [|split; [|exact (reachable_step _ _ Hstep Hreach0)]].
      + assert (M = 0) as HM by (subst M; rewrite <- Hlen; reflexivity).
        rewrite HM, Z.sub_0_r. reflexivity.
      + destruct Hstep as (A & _). rewrite A. reflexivity.
    - set (w0 := with_courses _ _).
      assert (reachable w0) as Hreach0 by (subst w0; auto with world).
      pose proof (Forall_inv Hall) as He. cbn beta in He. rewrite He.
      destruct (invalidateSearchCaches_total w0 Hreach0) as (w' & E & Hstep).
      cbv beta iota. rewrite ret_run. cbv beta iota. rewrite bind_run, E. exists w'.
      split; [|split; [|exact (reachable_step _ _ Hstep Hreach0)]].
      + subst N M. rewrite <- Hlen, length_map. reflexivity.
      + destruct Hstep as (A & _). rewrite A. reflexivity. }
  rewrite Hr. cbn [result_of world_of fst snd].
  split; [exists errs; split; [reflexivity|]; split; [subst M; lia | exact Hall]|].
  split; [exact Hcs|].
  intros d Hd.
  assert (List.find (has_id (course_id d)) (courses w') = Some d) as Hfind.
  { rewrite Hcs. rewrite find_app_r.
    - apply find_of_distinct_keys; assumption.
    - apply find_none_of_not_taken. unfold new_records in Hd.
      apply filter_In in Hd as [_ Hd]. destruct (key_taken (courses w) d); [discriminate | reflexivity]. }
  split; [exact Hfind|].
  intros Hmiss. rewrite getCourseById_miss by assumption.
  unfold stored_course. rewrite Hfind. reflexivity.
Qed.

Lemma C4_witness :
  let w := world_of_courses [cs101] healthy in
  let docs := [cs101; apply_update (key_update "cs102") cs101] in
  let r := CourseService.bulkInsertCourses (map to_partial docs) w in
  Z.of_nat (length (new_records w docs)) = 2 - 1
  /\ (exists errs,
        result_of r = Ok {| CourseService.insertedCount := 2 - 1;
                            CourseService.duplicateCount := 1;
                            CourseService.errors := errs |}
        /\ Z.of_nat (length errs) = 1
        /\ Forall (fun e => we_code e = 11000) errs)
  /\ courses (world_of r) = (courses w ++ new_records w docs)%list
  /\ (forall d, In d (new_records w docs) ->
        List.find (has_id (course_id d)) (courses (world_of r)) = Some d
        /\ (cached_payload ("course:" +:+ course_id d) (world_of r) = None ->
            result_of (CourseService.getCourseById (course_id d) (world_of r))
            = Ok (course_json d))).
Proof.
  apply (C4_bulk_insert_partial_success
           [cs101; apply_update (key_update "cs102") cs101] (world_of_courses [cs101] healthy)).
  - intros n _. discriminate.
  - repeat constructor.
  - vm_compute. repeat constructor. intros H. inversion H.
Defined.

(** C4 fails as stated, in two ways.  Two records of one batch may share
    a key that no stored record has: none duplicates a stored record
    (M = 0, N = 2), yet only the first is inserted and the second is
    reported (insertedCount 1, duplicateCount 1, not 2 and 0).  And a
    record that duplicates a stored key but fails validation is dropped
    before the write: it is not reported as a duplicate (M = 1, N = 1, yet
    duplicateCount 0). *)
Lemma C4_counterexample :
  (let w := world_of_courses [] healthy in
   Forall valid_record [cs101; cs101]
   /\ duplicates w [cs101; cs101] = []
   /\ result_of (CourseService.bulkInsertCourses (map to_partial [cs101; cs101]) w)
      = Ok {| CourseService.insertedCount := 1; CourseService.duplicateCount := 1;
              CourseService.errors := [{| we_index := 1; we_code := 11000 |}] |})
  /\
  (let w := world_of_courses [cs101] healthy in
   duplicates w [cs101_overrated] = [cs101_overrated]
   /\ result_of (CourseService.bulkInsertCourses (map to_partial [cs101_overrated]) w)
      = Ok {| CourseService.insertedCount := 0; CourseService.duplicateCount := 0;
              CourseService.errors := [] |}).
Proof.
  split; cbv zeta.
  - split; [repeat constructor|]. split; [reflexivity | vm_compute; reflexivity].
  - split; [reflexivity | vm_compute; reflexivity].
Qed.

(** ** The unique index and reads after writes *)

Lemma not_taken_not_in coll d :
  key_taken coll d = false -> course_id d ∉ map course_id coll.
Proof.
  unfold key_taken. induction coll as [|c coll IH]; cbn; intros H Hin.
  - inversion Hin.
  - apply orb_false_elim in H as [Hc H]. apply elem_of_cons in Hin as [Heq|Hin].
    + unfold has_id in Hc. rewrite Heq, String.eqb_refl in Hc. discriminate.
    + exact (IH H Hin).
Qed.

Lemma In_remove_first courseId coll x : In x (remove_first courseId coll) -> In x coll.
Proof.
  induction coll as [|d coll IH]; cbn; [intros []|].
  destruct (has_id courseId d); cbn; [auto|]. intros [<-|H]; auto.
Qed.

Lemma find_remove_first courseId coll :
  NoDup (map course_id coll) -> List.find (has_id courseId) (remove_first courseId coll) = None.
Proof.
  induction coll as [|d coll IH]; intros Hnd; [reflexivity|].
  cbn [map] in Hnd. apply NoDup_cons in Hnd as [Hd Hnd]. cbn.
  destruct (has_id courseId d) eqn:Hid.
  - destruct (List.find (has_id courseId) coll) as [x|] eqn:Hx; [|reflexivity].
    exfalso. apply Hd. apply find_some in Hx as [Hin Hx].
    unfold has_id in *. apply String.eqb_eq in Hid, Hx. rewrite Hid, <- Hx.
    apply list_elem_of_In, in_map. exact Hin.
  - cbn. rewrite Hid. apply IH. exact Hnd.
Qed.

(** The stores the service's writes leave, whether or not the
    invalidation settles. *)
Lemma world_of_then_ret {A B} (m : M A) (b : B) w :
  world_of ((m ≫= fun _ => mret b) w) = world_of (m w).
Proof. rewrite bind_run. destruct (m w) as [[a|e|] w']; reflexivity. Qed.

Lemma sweep_step {A} courseId (a : A) w :
  cache_step w (world_of ((_ ← redisService.del ("course:" +:+ courseId);
                           _ ← CourseService.invalidateSearchCaches;
                           mret a) w)).
Proof.
  apply bind_step; [apply del_step|]. intros _ w1.
  apply bind_step; [apply invalidateSearchCaches_step|]. intros _ w2. apply cache_step_refl.
Qed.

Lemma courses_after_store_then_invalidate {A B} (store : M A) (k : A -> B) w :
  courses (world_of ((a ← store; _ ← CourseService.invalidateSearchCaches; mret (k a)) w))
  = courses (world_of (store w)).
Proof.
  rewrite bind_run. destruct (store w) as [[a|e|] w0]; [|reflexivity|reflexivity].
  rewrite world_of_then_ret. apply invalidateSearchCaches_step.
Qed.

Lemma courses_after_update courseId updateData w :
  courses (world_of (CourseService.updateCourse courseId updateData w))
  = courses (world_of (Course.findOneAndUpdate courseId updateData w)).
Proof.
  unfold CourseService.updateCourse. rewrite bind_run.
  destruct (Course.findOneAndUpdate courseId updateData w) as [[[c|]|e|] w0]; try reflexivity.
  apply sweep_step.
Qed.

Lemma courses_after_delete courseId w :
  courses (world_of (CourseService.deleteCourse courseId w))
  = courses (world_of (Course.findOneAndDelete courseId w)).
Proof.
  unfold CourseService.deleteCourse. rewrite bind_run.
  destruct (Course.findOneAndDelete courseId w) as [[[c|]|e|] w0]; try reflexivity.
  apply sweep_step.
Qed.

Lemma courses_after_bulk_insert docs w :
  courses (world_of (CourseService.bulkInsertCourses docs w))
  = fst (insert_unordered (omap validated docs) 0 (courses w)).
Proof.
  unfold CourseService.bulkInsertCourses.
  rewrite (courses_after_store_then_invalidate _ (fun a => a)).
  unfold try_catch. rewrite bind_run. unfold Course.insertMany. cbn [courses logged].
  destruct (insert_unordered (omap validated docs) 0 (courses w)) as [coll errs].
  destruct errs as [|e errs]; [reflexivity|].
  cbv beta iota. destruct (we_code e) as [|p|p]; try reflexivity.
  repeat (destruct p as [p|p|]; try reflexivity).
Qed.

(** X3.  After a successful delete, with the cache answering its commands and
    the keys unique, no entry is left under course:{id} and getCourseById
    returns null. *)
Theorem read_after_delete_is_not_found courseId w c :
  cache_up w ->
  unique_keys w ->
  List.find (has_id courseId) (courses w) = Some c ->
  let w1 := world_of (CourseService.deleteCourse courseId w) in
  result_of (CourseService.deleteCourse courseId w) = Ok true
  /\ cache w1 !! ("course:" +:+ courseId) = None
  /\ result_of (CourseService.getCourseById courseId w1) = Ok JNull.
Proof.
  intros Hup Hnd Hc w1.
  destruct (deleteCourse_found courseId w c Hup Hc) as (w' & E & Hcs & Hcache & _ & Hup').
  subst w1. rewrite E. cbn [result_of world_of fst snd].
  assert (cache w' !! ("course:" +:+ courseId) = None) as Hgone.
  { rewrite Hcache, lookup_swept_deleted. unfold invalidated. rewrite String.eqb_refl. reflexivity. }
  split; [reflexivity|]. split; [exact Hgone|].
  rewrite getCourseById_absent; [reflexivity | | |].
  - exact (cache_up_reachable _ Hup').
  - unfold cached_payload. rewrite Hgone. reflexivity.
  - rewrite Hcs. apply find_remove_first. exact Hnd.
Qed.

Lemma read_after_delete_witness :
  let w1 := world_of (CourseService.deleteCourse "cs101" detail_world) in
  result_of (CourseService.deleteCourse "cs101" detail_world) = Ok true
  /\ cache w1 !! ("course:" +:+ "cs101") = None
  /\ result_of (CourseService.getCourseById "cs101" w1) = Ok JNull.
Proof.
  apply (read_after_delete_is_not_found "cs101" detail_world cs101).
  - intros n _. reflexivity.
  - unfold unique_keys. cbn. apply NoDup_singleton.
  - reflexivity.
Defined.

(** A worked scenario on the reference engine: create
    cs101 (rating 4.2, beginner); the search for beginners lists it and is
    cached; update the rating to 3; the same search again is a miss and
    lists the course with rating 3. *)
Theorem search_after_update_is_fresh :
  let E := ScanEngine.engine in
  let updated := apply_update (rating_update 3%float) cs101 in
  let w1 := world_of (CourseService.createCourse (to_partial cs101) (world_of_courses [] healthy)) in
  let first := CourseService.searchCourses E beginner_page w1 in
  let w2 := world_of first in
  let w3 := world_of (CourseService.updateCourse "cs101" (rating_update 3%float) w2) in
  let second := CourseService.searchCourses E beginner_page w3 in
  member "courses" (ok_or_null (result_of first)) = JArray [course_json cs101]
  /\ is_Some (cache w2 !! CourseService.search_cache_key beginner_page)
  /\ cache w3 !! CourseService.search_cache_key beginner_page = None
  /\ member "courses" (ok_or_null (result_of second)) = JArray [course_json updated]
  /\ member "cached" (ok_or_null (result_of second)) = JBool false
  /\ rating updated = 3%float.
Proof.
  cbv zeta. split; [vm_compute; reflexivity|]. split; [vm_compute; eexists; reflexivity|].
  split; [vm_compute; reflexivity|]. split; [vm_compute; reflexivity|].
  split; vm_compute; reflexivity.
Qed.

(** ** The order of numbers *)

Lemma SFcompare_antisym x y : SFcompare y x = option_map CompOpp (SFcompare x y).
Proof.
  destruct x as [sx|sx| |sx mx ex], y as [sy|sy| |sy my ey]; simpl;
    try reflexivity; try (destruct sx; reflexivity); try (destruct sy; reflexivity);
    try (destruct sx, sy; reflexivity).
  destruct sx, sy; simpl; try reflexivity.
  - rewrite (Z.compare_antisym ex ey). destruct (ex ?= ey)%Z; simpl; try reflexivity.
    do 2 f_equal. exact (Pos.compare_antisym mx my).
  - rewrite (Z.compare_antisym ex ey). destruct (ex ?= ey)%Z; simpl; try reflexivity.
    f_equal. exact (Pos.compare_antisym mx my).
Qed.

Lemma is_nan_false_compare x : is_nan x = false -> Prim2SF x <> S754_nan.
Proof.
  unfold is_nan. rewrite FloatAxioms.eqb_spec. unfold SFeqb. intros H E. rewrite E in H.
  simpl in H. discriminate.
Qed.

Lemma SFcompare_defined x y :
  x <> S754_nan -> y <> S754_nan -> exists c, SFcompare x y = Some c.
Proof.
  intros Hx Hy. destruct x, y; try congruence; simpl; eauto.
Qed.

(** Among numbers that are not NaN, [x < y] failing means [y <= x]. *)
Lemma leb_of_not_ltb x y :
  is_nan x = false -> is_nan y = false -> PrimFloat.ltb x y = false -> PrimFloat.leb y x = true.
Proof.
  intros Hx Hy. apply is_nan_false_compare in Hx, Hy.
  rewrite FloatAxioms.ltb_spec, FloatAxioms.leb_spec. unfold SFltb, SFleb.
  rewrite (SFcompare_antisym (Prim2SF x) (Prim2SF y)).
  destruct (SFcompare_defined _ _ Hx Hy) as [c ->]. destruct c; simpl; congruence.
Qed.

Lemma rating_in_range_of_bounds r :
  is_nan r = false -> PrimFloat.ltb r 0 = false -> PrimFloat.ltb 5 r = false ->
  rating_in_range r = true.
Proof.
  intros Hn H0 H5. unfold rating_in_range.
  rewrite (leb_of_not_ltb r 0 Hn eq_refl H0), (leb_of_not_ltb 5 r eq_refl Hn H5). reflexivity.
Qed.

(** ** The CSV import *)

Lemma required_nil v f : CsvParser.required v f = [] -> required_string v = true.
Proof.
  unfold CsvParser.required, required_string. simpl. destruct (negb _); [reflexivity | discriminate].
Qed.

(** What passing [validateCourseData] says of a row. *)
Lemma validateCourseData_nil data :
  CsvParser.validateCourseData data = [] ->
  required_string (CsvParser.course_id data) = true
  /\ required_string (CsvParser.title data) = true
  /\ required_string (CsvParser.description data) = true
  /\ required_string (CsvParser.category data) = true
  /\ required_string (CsvParser.instructor data) = true
  /\ required_string (CsvParser.duration data) = true
  /\ required_string (CsvParser.price data) = true
  /\ (CsvParser.rating data = EmptyString
      \/ rating_in_range (parseFloat (CsvParser.rating data)) = true)
  /\ (CsvParser.skill_level data = EmptyString
      \/ skill_level_in_enum (CsvParser.skill_level data) = true).
Proof.
  unfold CsvParser.validateCourseData. intros H.
  repeat (apply app_eq_nil in H as [?%required_nil H]).
  apply app_eq_nil in H as [Hr Hs]. repeat (split; [assumption|]). split.
  - simpl in Hr. destruct (String.eqb_spec (CsvParser.rating data) EmptyString) as [|_];
      [left; assumption | right]. simpl in Hr.
    destruct (is_nan _) eqn:Hnan; [discriminate|]. simpl in Hr.
    destruct (PrimFloat.ltb _ 0) eqn:Hlow; [discriminate|]. simpl in Hr.
    destruct (PrimFloat.ltb 5 _) eqn:Hhigh; [discriminate|].
    apply rating_in_range_of_bounds; assumption.
  - simpl in Hs. destruct (String.eqb_spec (CsvParser.skill_level data) EmptyString) as [|_];
      [left; assumption | right]. simpl in Hs.
    destruct (skill_level_in_enum _); [reflexivity | discriminate].
Qed.

Lemma courseDoc_rating data :
  CsvParser.validateCourseData data = [] ->
  rating_in_range (if truthy (JNumber (parseFloat (CsvParser.rating data)))
                   then parseFloat (CsvParser.rating data) else 0%float) = true.
Proof.
  intros H. apply validateCourseData_nil in H as (_ & _ & _ & _ & _ & _ & _ & Hr & _).
  destruct (truthy _) eqn:Ht; [|reflexivity].
  destruct Hr as [Hr|Hr]; [|exact Hr]. rewrite Hr in Ht. vm_compute in Ht. discriminate.
Qed.

Lemma courseDoc_skill_level data :
  CsvParser.validateCourseData data = [] ->
  skill_level_in_enum (default "beginner" (truthy_string (Some (CsvParser.skill_level data))))
  = true.
Proof.
  intros H. apply validateCourseData_nil in H as (_ & _ & _ & _ & _ & _ & _ & _ & Hs).
  simpl. destruct (String.eqb_spec (CsvParser.skill_level data) EmptyString) as [E|NE];
    [reflexivity|]. simpl. destruct Hs as [Hs|Hs]; [contradiction | exact Hs].
Qed.

Lemma courseDoc_passes data :
  CsvParser.validateCourseData data = [] ->
  invalid_paths true (CourseUpload.courseDoc data) = [].
Proof.
  intros H. pose proof (courseDoc_rating data H) as Hrating.
  pose proof (courseDoc_skill_level data H) as Hskill.
  apply validateCourseData_nil in H as (Hi & Ht & Hd & Hc & Hn & Hu & Hp & _ & _).
  unfold invalid_paths, CourseUpload.courseDoc, check_path. cbn [p_course_id p_title
    p_description p_category p_instructor p_duration p_price p_rating p_skill_level].
  cbv zeta. rewrite Hi, Ht, Hd, Hc, Hn, Hu, Hp, Hrating, Hskill. reflexivity.
Qed.

(** X4.  A row that passes [validateCourseData] becomes a document that
    passes every validator of the course schema, so that the bulk insert
    does not drop it: its required members are the row's, a missing rating
    becomes 0 and a missing skill level ["beginner"]. *)
Theorem csv_valid_rows_pass_the_schema (data : CsvParser.CSVCourseData) :
  CsvParser.validateCourseData data = [] ->
  exists c,
    validated (CourseUpload.courseDoc data) = Some c
    /\ course_id c = CsvParser.course_id data
    /\ title c = CsvParser.title data
    /\ rating_in_range (rating c) = true
    /\ skill_level_in_enum (skill_level c) = true
    /\ (CsvParser.rating data = EmptyString -> rating c = 0%float)
    /\ (CsvParser.skill_level data = EmptyString -> skill_level c = "beginner").
Proof.
  intros H. pose proof (courseDoc_rating data H) as Hrating.
  pose proof (courseDoc_skill_level data H) as Hskill.
  pose proof (courseDoc_passes data H) as Hpaths.
  eexists. split.
  - unfold validated. rewrite Hpaths. reflexivity.
  - cbn [course_id title rating skill_level]. repeat split; try assumption.
    + intros E. rewrite E. vm_compute. reflexivity.
    + intros E. rewrite E. reflexivity.
Qed.

Lemma csv_valid_rows_pass_the_schema_witness :
  exists c,
    validated (CourseUpload.courseDoc (csv_row EmptyString)) = Some c
    /\ course_id c = CsvParser.course_id (csv_row EmptyString)
    /\ title c = CsvParser.title (csv_row EmptyString)
    /\ rating_in_range (rating c) = true
    /\ skill_level_in_enum (skill_level c) = true
    /\ (CsvParser.rating (csv_row EmptyString) = EmptyString -> rating c = 0%float)
    /\ (CsvParser.skill_level (csv_row EmptyString) = EmptyString -> skill_level c = "beginner").
Proof.
  apply (csv_valid_rows_pass_the_schema (csv_row EmptyString)). reflexivity.
Defined.

Lemma insert_unordered_counts docs : forall index coll,
  (length (fst (insert_unordered docs index coll))
   + length (snd (insert_unordered docs index coll)) = length coll + length docs)%nat
  /\ (length (snd (insert_unordered docs index coll)) <= length docs)%nat
  /\ Forall (fun e => we_code e = 11000) (snd (insert_unordered docs index coll)).
Proof.
  induction docs as [|d docs IH]; intros index coll; cbn [insert_unordered].
  - cbn. repeat split; [lia | constructor].
  - destruct (existsb _ coll).
    + specialize (IH (index + 1) coll). destruct (insert_unordered docs (index + 1) coll).
      cbn in *. repeat split; [lia | lia | constructor; [reflexivity | apply IH]].
    + specialize (IH (index + 1) (coll ++ [d])%list). rewrite length_app in IH. cbn in *.
      repeat split; [lia | lia | apply IH].
Qed.

Lemma process_counts rows : forall i,
  (length (fst (CourseUpload.process rows i)) + length (snd (CourseUpload.process rows i))
   = length rows)%nat.
Proof.
  induction rows as [|r rows IH]; intros i; cbn [CourseUpload.process]; [reflexivity|].
  specialize (IH (i + 1)). destruct (CourseUpload.process rows (i + 1)) as [v e].
  destruct (0 <? _); cbn in *; lia.
Qed.

Lemma process_valid rows : forall i,
  Forall (fun d => is_Some (validated d)) (fst (CourseUpload.process rows i)).
Proof.
  induction rows as [|r rows IH]; intros i; cbn [CourseUpload.process]; [constructor|].
  specialize (IH (i + 1)). destruct (CourseUpload.process rows (i + 1)) as [v e].
  destruct (CsvParser.validateCourseData r) as [|m ms] eqn:Hr; cbn in *; [|exact IH].
  constructor; [|exact IH].
  unfold validated. rewrite (courseDoc_passes r Hr). eexists; reflexivity.
Qed.

Lemma length_omap_all {A B} (f : A -> option B) l :
  Forall (fun a => is_Some (f a)) l -> length (omap f l) = length l.
Proof.
  induction 1 as [|a l [b Hb] _ IH]; cbn; [reflexivity|]. rewrite Hb. cbn. rewrite IH. reflexivity.
Qed.

(** The store and cache part of an upload: the insert of the valid
    documents and the two sweeps. *)
Lemma upload_insert_run (validCourses : list PartialCourse) (w : World) :
  reachable w ->
  Forall (fun d => is_Some (validated d)) validCourses ->
  exists inserted duplicate w',
    (counts ←
       try_catch
         (result ← Course.insertMany validCourses;
          mret (Z.of_nat (length result), 0))
         (fun error =>
            match error with
            | MongoBulkWriteError 11000 writeErrors =>
                mret (Z.of_nat (length validCourses) - Z.of_nat (length writeErrors),
                      Z.of_nat (length writeErrors))
            | MongoServerError 11000 => mret (Z.of_nat (length validCourses), 0)
            | _ => throw error
            end);
     _ ← redisService.flushPattern "courses:*";
     _ ← redisService.flushPattern "search:*";
     mret counts) w
    = (Ok (inserted, duplicate), w')
    /\ Z.of_nat (length validCourses) = inserted + duplicate
    /\ 0 <= inserted /\ 0 <= duplicate
    /\ Z.of_nat (length (courses w')) = Z.of_nat (length (courses w)) + inserted.
Proof.
  intros Hreach Hvalid. rewrite bind_run. unfold try_catch. rewrite bind_run.
  unfold Course.insertMany.
  pose proof (length_omap_all validated validCourses Hvalid) as Hlen.
  cbn [courses logged].
  pose proof (insert_unordered_counts (omap validated validCourses) 0 (courses w)) as (Hn & Hle & Hcode).
  destruct (insert_unordered (omap validated validCourses) 0 (courses w)) as [coll errs].
  cbn [fst snd] in Hn, Hle, Hcode.
  destruct errs as [|e errs].
  - set (w0 := with_courses _ _).
    assert (reachable w0) as Hreach0 by (subst w0; auto with world).
    destruct (flushPattern_total "courses:*" w0 Hreach0) as (b1 & w1 & E1 & S1).
    destruct (flushPattern_total "search:*" w1 (reachable_step _ _ S1 Hreach0))
      as (b2 & w2 & E2 & S2).
    cbv beta iota. rewrite ret_run. cbv beta iota. rewrite bind_run, E1, bind_run, E2, ret_run.
    do 3 eexists. split; [reflexivity|].
    destruct S1 as (A1 & _), S2 as (A2 & _). rewrite A2, A1. subst w0.
    cbn [courses with_courses length] in *. repeat split; lia.
  - set (w0 := with_courses _ _).
    pose proof (Forall_inv Hcode) as He. cbn beta in He. rewrite He.
    assert (reachable w0) as Hreach0 by (subst w0; auto with world).
    destruct (flushPattern_total "courses:*" w0 Hreach0) as (b1 & w1 & E1 & S1).
    destruct (flushPattern_total "search:*" w1 (reachable_step _ _ S1 Hreach0))
      as (b2 & w2 & E2 & S2).
    cbv beta iota. rewrite ret_run. cbv beta iota. rewrite bind_run, E1, bind_run, E2, ret_run.
    do 3 eexists. split; [reflexivity|].
    destruct S1 as (A1 & _), S2 as (A2 & _). rewrite A2, A1. subst w0.
    cbn [courses with_courses length] in *. repeat split; lia.
Qed.

(** X5.  The report of an upload adds up.  For an administrator and a CSV
    file with at least one complete record and no cell, but for ratings,
    that reads as zero, with the cache server reachable (its commands
    answered or rejected): the answer is 200; every counted row is either
    valid or rejected; every valid row is either inserted or a duplicate;
    the collection grows by exactly the number of inserted rows; the error
    list is present exactly when a row was rejected; and when no row is
    valid neither the store nor the cache is touched. *)
Theorem upload_report_adds_up
    (message_of : exn -> string) (user : option Auth.JWTPayload) (file : CourseUpload.File)
    (rows : list CsvParser.CSVCourseData) (w : World) :
  reachable w ->
  Auth.isAdmin user = true ->
  CourseUpload.type file = "text/csv" ->
  CourseUpload.records file = Resolves rows ->
  Forall zero_free rows ->
  List.filter CsvBuffer.complete rows <> [] ->
  let r := CourseUpload.POST message_of user (Resolves (Some file)) w in
  exists valid inserted duplicate rejected errors,
    result_of r
    = Ok {| status := 200;
            body := upload_report (Z.of_nat (length (List.filter CsvBuffer.complete rows)))
                      valid inserted duplicate rejected errors |}
    /\ Z.of_nat (length (List.filter CsvBuffer.complete rows)) = valid + rejected
    /\ valid = inserted + duplicate
    /\ 0 <= inserted /\ 0 <= duplicate /\ 0 <= rejected
    /\ Z.of_nat (length (courses (world_of r))) = Z.of_nat (length (courses w)) + inserted
    /\ (errors = JUndefined <-> rejected = 0)
    /\ (valid = 0 -> world_of r = w).
Proof.
  intros Hreach Hadmin Htype Hrec _ Hrows r.
  set (csvData := List.filter CsvBuffer.complete rows) in *.
  pose proof (process_counts csvData 0) as Hcount.
  pose proof (process_valid csvData 0) as Hvalid.
  assert (Herrors : forall errors : list CourseUpload.RowError,
             (if 0 <? Z.of_nat (length errors)
              then JArray (map CourseUpload.row_error_json errors) else JUndefined) = JUndefined
             <-> Z.of_nat (length errors) = 0).
  { intros [|e errors]; cbn [length]; [tauto|]. split; [discriminate | lia]. }
  assert (exists valid inserted duplicate rejected errors w',
            r = (Ok {| status := 200;
                       body := upload_report (Z.of_nat (length csvData))
                                 valid inserted duplicate rejected errors |}, w')
            /\ Z.of_nat (length csvData) = valid + rejected
            /\ valid = inserted + duplicate
            /\ 0 <= inserted /\ 0 <= duplicate /\ 0 <= rejected
            /\ Z.of_nat (length (courses w')) = Z.of_nat (length (courses w)) + inserted
            /\ (errors = JUndefined <-> rejected = 0)
            /\ (valid = 0 -> w' = w))
    as (valid & inserted & duplicate & rejected & errors & w' & -> & H).
  2: { exists valid, inserted, duplicate, rejected, errors. split; [reflexivity | exact H]. }
  subst r. unfold CourseUpload.POST, try_catch at 1.
  rewrite Hadmin, Htype, Hrec, String.eqb_refl. cbn [negb CsvBuffer.parseCSVBuffer].
  fold csvData.
  replace (Z.of_nat (length csvData) =? 0) with false
    by (destruct csvData; [contradiction | reflexivity]).
  destruct (CourseUpload.process csvData 0) as [validCourses errors]. cbn [fst snd] in *.
  rewrite bind_run. destruct validCourses as [|d validCourses].
  - change (0 <? Z.of_nat (length (@nil PartialCourse))) with false. cbv iota.
    rewrite ret_run. unfold respond. rewrite ret_run.
    exists 0, 0, 0, (Z.of_nat (length errors)).
    eexists. eexists. split; [reflexivity|]. cbn in Hcount.
    repeat split; try lia; apply Herrors.
  - replace (0 <? Z.of_nat (length (d :: validCourses))) with true by reflexivity. cbv iota.
    destruct (upload_insert_run (d :: validCourses) w Hreach Hvalid)
      as (inserted & duplicate & w' & E & Hsum & Hi & Hd & Hgrow).
    rewrite E. unfold respond. rewrite ret_run.
    exists (Z.of_nat (length (d :: validCourses))), inserted, duplicate,
      (Z.of_nat (length errors)).
    eexists. eexists. split; [reflexivity|].
    repeat split; try lia; try apply Herrors. cbn [length]. lia.
Qed.

Lemma upload_report_adds_up_witness :
  let r := CourseUpload.POST no_message admin (Resolves (Some (csv_file mixed_rows)))
             (world_of_courses [cs101] healthy) in
  exists valid inserted duplicate rejected errors,
    result_of r
    = Ok {| status := 200;
            body := upload_report (Z.of_nat (length (List.filter CsvBuffer.complete mixed_rows)))
                      valid inserted duplicate rejected errors |}
    /\ Z.of_nat (length (List.filter CsvBuffer.complete mixed_rows)) = valid + rejected
    /\ valid = inserted + duplicate
    /\ 0 <= inserted /\ 0 <= duplicate /\ 0 <= rejected
    /\ Z.of_nat (length (courses (world_of r)))
       = Z.of_nat (length (courses (world_of_courses [cs101] healthy))) + inserted
    /\ (errors = JUndefined <-> rejected = 0)
    /\ (valid = 0 -> world_of r = world_of_courses [cs101] healthy).
Proof.
  apply (upload_report_adds_up no_message admin (csv_file mixed_rows) mixed_rows
           (world_of_courses [cs101] healthy)).
  - intros n _. discriminate.
  - reflexivity.
  - reflexivity.
  - reflexivity.
  - repeat constructor.
  - vm_compute. discriminate.
Defined.

Lemma filter_idem {A} (f : A -> bool) (l : list A) : List.filter f (List.filter f l) = List.filter f l.
Proof.
  induction l as [|a l IH]; [reflexivity|]. cbn [List.filter].
  destruct (f a) eqn:Ha; [|exact IH]. cbn [List.filter]. rewrite Ha, IH. reflexivity.
Qed.

(** X6.  A record that lacks its course_id, title, description or category
    is dropped by the parser without a trace: the upload answers, and
    leaves the world, exactly as for the file without such records, and no
    row the parser delivers is ever reported for one of these four
    members. *)
Theorem incomplete_records_are_dropped_unreported
    (message_of : exn -> string) (user : option Auth.JWTPayload)
    (rows : list CsvParser.CSVCourseData) (w : World) :
  CourseUpload.POST message_of user (Resolves (Some (csv_file rows))) w
  = CourseUpload.POST message_of user
      (Resolves (Some (csv_file (List.filter CsvBuffer.complete rows)))) w
  /\ forall csvData data field,
       CsvBuffer.parseCSVBuffer (Resolves rows) = Resolves csvData ->
       In data csvData -> In field key_columns ->
       ~ In (field +:+ " is required") (CsvParser.validateCourseData data).
Proof.
  split.
  - unfold CourseUpload.POST, csv_file. cbn [CourseUpload.type CourseUpload.records
      CsvBuffer.parseCSVBuffer]. rewrite filter_idem. reflexivity.
  - intros csvData data field [= <-] Hin Hfield Hrep.
    apply filter_In in Hin as [_ Hc]. unfold CsvBuffer.complete in Hc.
    apply andb_prop in Hc as [Hc H4]. apply andb_prop in Hc as [Hc H3].
    apply andb_prop in Hc as [H1 H2].
    unfold CsvParser.validateCourseData, CsvParser.required in Hrep.
    rewrite H1, H2, H3, H4 in Hrep. cbn [app] in Hrep.
    assert (forall m, In m ["instructor is required"; "duration is required";
                            "price is required"; "rating must be a number between 0 and 5";
                            "skill_level must be beginner, intermediate, or advanced"] ->
                      field +:+ " is required" <> m) as Hother.
    { intros m Hm E. destruct Hfield as [<-|[<-|[<-|[<-|[]]]]];
        repeat (destruct Hm as [<-|Hm]; [discriminate E|]); destruct Hm. }
    repeat match type of Hrep with
           | In _ (_ ++ _)%list => apply in_app_or in Hrep as [Hrep|Hrep]
           | In _ (if ?b then _ else _) => destruct b
           | In _ [] => destruct (in_nil Hrep)
           | In _ [?m] =>
               destruct Hrep as [Hrep|[]]; apply (Hother m); [|symmetry; exact Hrep]
           end; cbn; tauto.
Qed.

(** ** Credentials and the administrator's routes *)

Lemma strip_prefix_app p : forall s r, strip_prefix p s = Some r -> s = p +:+ r.
Proof.
  induction p as [|a p IH]; intros s r H; cbn in H.
  - injection H as ->. reflexivity.
  - destruct s as [|b s]; [discriminate|]. destruct (Ascii.eqb_spec a b) as [->|]; [|discriminate].
    cbn. rewrite (IH s r H). reflexivity.
Qed.

Lemma substring_all s : String.substring 0 (String.length s) s = s.
Proof. induction s as [|c s IH]; [reflexivity|]. cbn. rewrite IH. reflexivity. Qed.

Lemma str_drop_app p r : str_drop (Z.of_nat (String.length p)) (p +:+ r) = r.
Proof.
  unfold str_drop. rewrite Nat2Z.id. induction p as [|c p IH]; cbn.
  - rewrite Nat.sub_0_r. apply substring_all.
  - exact IH.
Qed.

Lemma truthy_string_Some s t : truthy_string s = Some t -> s = Some t /\ t <> EmptyString.
Proof.
  destruct s as [u|]; cbn; [|discriminate].
  destruct (String.eqb_spec u EmptyString) as [|Hne]; [discriminate|].
  intros [= <-]. split; [reflexivity | exact Hne].
Qed.

(** A payload is only ever what the verifier decodes from a non-empty
    token the request presents. *)
Lemma isAuthenticated_sound verifyToken request p :
  AuthRequest.isAuthenticated verifyToken request = Some p ->
  exists t, presents request t /\ verifyToken t = Some p.
Proof.
  unfold AuthRequest.isAuthenticated, AuthRequest.getTokenFromRequest.
  destruct (truthy_string (AuthRequest.cookie request)) as [c|] eqn:Hc.
  - apply truthy_string_Some in Hc as [Hc Hne]. cbn.
    destruct (String.eqb_spec c EmptyString) as [|_]; [contradiction|].
    intros H. exists c. split; [split; [exact Hne | left; exact Hc] | exact H].
  - destruct (truthy_string (AuthRequest.authorization request)) as [h|] eqn:Hh; [|discriminate].
    apply truthy_string_Some in Hh as [Hh _]. unfold AuthRequest.startsWith.
    destruct (strip_prefix "Bearer " h) as [t|] eqn:Hp; [|discriminate].
    apply strip_prefix_app in Hp. subst h.
    change 7 with (Z.of_nat (String.length "Bearer ")). rewrite str_drop_app.
    destruct (truthy_string (Some t)) as [t'|] eqn:Ht; [|discriminate].
    apply truthy_string_Some in Ht as [[= <-] Hne].
    intros H. exists t. split; [split; [exact Hne | right; exact Hh] | exact H].
Qed.

(** X7.  The administrator's routes require a verified administrator
    token.  Whatever the verifier, either the request presents (as its
    cookie or as a bearer credential) a non-empty token that the verifier
    decodes to a payload of role admin, or the update, the delete, the
    listing and the upload all answer 401 and leave the store, the cache
    and their logs exactly as they were, and the dashboard answers 401 or
    403. *)
Theorem admin_routes_require_a_verified_admin_token
    (verifyToken : string -> option Auth.JWTPayload) (request : AuthRequest.Credentials)
    (message_of : exn -> string) (now courseId : string) (json : Promise json) (E : Engine)
    (page limit category skill_level : option string)
    (formData : Promise (option CourseUpload.File)) (w : World) :
  let user := AuthRequest.isAuthenticated verifyToken request in
  (exists token p,
      presents request token /\ verifyToken token = Some p /\ Auth.role p = "admin")
  \/ (Forall (fun answer => exists resp, answer = (Ok resp, w) /\ status resp = 401)
        [CourseIdRoute.PUT message_of now user courseId json w;
         CourseIdRoute.DELETE message_of now user courseId w;
         UploadRoute.GET E user page limit category skill_level w;
         CourseUpload.POST message_of user formData w]
      /\ exists resp, DashboardRoute.GET now user w = (Ok resp, w)
                      /\ (status resp = 401 \/ status resp = 403)).
Proof.
  intros user. destruct (Auth.isAdmin user) eqn:Hadmin.
  - left. unfold Auth.isAdmin in Hadmin. destruct user as [p|] eqn:Hu; [|discriminate].
    apply isAuthenticated_sound in Hu as (t & Ht & Hv).
    exists t, p. split; [exact Ht|]. split; [exact Hv|].
    apply String.eqb_eq. exact Hadmin.
  - right. split.
    + unfold CourseIdRoute.PUT, CourseIdRoute.DELETE, UploadRoute.GET, CourseUpload.POST,
        try_catch. rewrite Hadmin. cbn [negb]. unfold respond. rewrite !ret_run.
      repeat constructor; eexists; split; reflexivity.
    + unfold DashboardRoute.GET, try_catch. destruct user as [p|].
      * rewrite Hadmin. cbn [negb]. unfold respond. rewrite ret_run.
        eexists; split; [reflexivity | right; reflexivity].
      * unfold respond. rewrite ret_run. eexists; split; [reflexivity | left; reflexivity].
Qed.

(** ** The health check *)

(** X8.  The health check cannot report Redis as disconnected.  The
    gateway absorbs a rejected command, so the handler's own catch is
    never taken: whether Redis answers the lookup or rejects it, the redis
    member reads ["connected"], the answer is 200 exactly when the store
    connects and 503 otherwise, and the cache is left as it was.  When the
    server cannot be reached the lookup never settles, and the handler
    never answers. *)
Theorem health_check_never_reports_redis_disconnected
    (now : string) (npm_package_version GEMINI_API_KEY : option string) (uptime : number)
    (dbConnect : bool) (w : World) :
  let r := HealthRoute.GET now npm_package_version GEMINI_API_KEY uptime dbConnect w in
  (redis_fate w (redis_clock w) <> Unreachable ->
   exists resp,
     r = (Ok resp, tick w)
     /\ member "redis" (member "services" (body resp)) = JString "connected"
     /\ member "mongodb" (member "services" (body resp))
        = JString (if dbConnect then "connected" else "disconnected")
     /\ member "status" (body resp) = JString (if dbConnect then "healthy" else "degraded")
     /\ status resp = (if dbConnect then 200 else 503)
     /\ cache (tick w) = cache w)
  /\ (redis_fate w (redis_clock w) = Unreachable -> r = (Pending, w))
  /\ (forall resp w',
        r = (Ok resp, w') ->
        member "redis" (member "services" (body resp)) <> JString "disconnected").
Proof.
  cbv zeta. unfold HealthRoute.GET.
  destruct (redis_fate w (redis_clock w)) eqn:Hf.
  - split; [|split; [discriminate|]].
    + intros _. destruct dbConnect; cbv zeta beta iota; rewrite bind_run; unfold try_catch;
        rewrite bind_run, get_ok by exact Hf; cbv beta iota; rewrite ret_run; unfold respond;
        rewrite ret_run; eexists; (split; [reflexivity|]); repeat split; reflexivity.
    + intros resp w'. destruct dbConnect; cbv zeta beta iota; rewrite bind_run;
        unfold try_catch; rewrite bind_run, get_ok by exact Hf; cbv beta iota;
        rewrite ret_run; unfold respond; rewrite ret_run; intros [= <- <-]; discriminate.
  - split; [|split; [discriminate|]].
    + intros _. destruct dbConnect; cbv zeta beta iota; rewrite bind_run; unfold try_catch;
        rewrite bind_run, get_fails by exact Hf; cbv beta iota; rewrite ret_run;
        unfold respond; rewrite ret_run; eexists; (split; [reflexivity|]);
        repeat split; reflexivity.
    + intros resp w'. destruct dbConnect; cbv zeta beta iota; rewrite bind_run;
        unfold try_catch; rewrite bind_run, get_fails by exact Hf; cbv beta iota;
        rewrite ret_run; unfold respond; rewrite ret_run; intros [= <- <-]; discriminate.
  - split; [congruence|]. split.
    + intros _. destruct dbConnect; cbv zeta beta iota; rewrite bind_run; unfold try_catch;
        rewrite bind_run, get_pending by exact Hf; reflexivity.
    + intros resp w'. destruct dbConnect; cbv zeta beta iota; rewrite bind_run;
        unfold try_catch; rewrite bind_run, get_pending by exact Hf; discriminate.
Qed.

(** ** The request schema and the model schema *)

Lemma string_member_passes partial f least too_short most ms :
  (0 < least)%nat ->
  Validation.member_check partial (Validation.check_string f least too_short most)
    (member f (JObject ms)) = [] ->
  check_path f (negb partial) required_string (prop_string f ms) = [].
Proof.
  intros Hleast. unfold member, prop_string, Validation.member_check, check_path.
  destruct (obj_get f ms) as [v|]; cbn [default from_option id].
  - destruct v; try (destruct partial; cbn; (discriminate || reflexivity)).
    cbn [Validation.check_string]. intros H. apply app_eq_nil in H as [H _].
    destruct (Validation.js_length s <? least)%nat eqn:Hl; [discriminate|].
    apply Nat.ltb_ge in Hl. destruct s; [cbn in Hl; lia | reflexivity].
  - destruct partial; cbn; (discriminate || reflexivity).
Qed.

Lemma rating_member_passes partial ms :
  Validation.member_check partial (Validation.check_rating "rating")
    (member "rating" (JObject ms)) = [] ->
  check_path "rating" (negb partial) rating_in_range (prop_number "rating" ms) = [].
Proof.
  unfold member, prop_number, Validation.member_check, check_path.
  destruct (obj_get "rating" ms) as [v|]; cbn [default from_option id].
  - destruct v; try (destruct partial; cbn; (discriminate || reflexivity)).
    cbn [Validation.check_rating]. destruct (is_nan x) eqn:Hn; [cbn; discriminate|].
    intros H. apply app_eq_nil in H as [Hlow Hhigh].
    destruct (PrimFloat.ltb x 0) eqn:H0; [discriminate|].
    destruct (PrimFloat.ltb 5 x) eqn:H5; [discriminate|].
    rewrite (rating_in_range_of_bounds x Hn H0 H5). reflexivity.
  - destruct partial; cbn; (discriminate || reflexivity).
Qed.

Lemma skill_level_member_passes partial ms :
  Validation.member_check partial (Validation.check_skill_level "skill_level")
    (member "skill_level" (JObject ms)) = [] ->
  check_path "skill_level" (negb partial) skill_level_in_enum (prop_string "skill_level" ms) = [].
Proof.
  unfold member, prop_string, Validation.member_check, check_path.
  destruct (obj_get "skill_level" ms) as [v|]; cbn [default from_option id].
  - destruct v; try (destruct partial; cbn; (discriminate || reflexivity)).
    cbn [Validation.check_skill_level]. destruct (skill_level_in_enum s); [reflexivity | discriminate].
  - destruct partial; cbn; (discriminate || reflexivity).
Qed.

(** A body without issues gives data without failing paths. *)
Lemma course_data_passes partial body :
  Validation.course_issues partial body = [] ->
  invalid_paths (negb partial) (Validation.course_data body) = [].
Proof.
  destruct body as [| | | | | |ms]; try discriminate. unfold Validation.course_issues.
  intros H.
  repeat (apply app_eq_nil in H as [?%string_member_passes H]; [|lia]).
  apply app_eq_nil in H as [Hr%rating_member_passes Hs%skill_level_member_passes].
  unfold invalid_paths, Validation.course_data. cbn [spread_members p_course_id p_title
    p_description p_category p_instructor p_duration p_price p_rating p_skill_level].
  repeat match goal with H : check_path _ _ _ _ = [] |- _ => rewrite H; clear H end.
  reflexivity.
Qed.

Lemma validateRequest_Success partial body data :
  Validation.validateRequest (Validation.course_schema partial) body = Validation.Success data ->
  Validation.course_issues partial body = [] /\ data = Validation.course_data body.
Proof.
  unfold Validation.validateRequest, Validation.course_schema. cbn [Validation.parse].
  destruct (Validation.course_issues partial body); [|discriminate].
  intros [= <-]. split; reflexivity.
Qed.

Lemma validated_of_no_invalid_path p : invalid_paths true p = [] -> is_Some (validated p).
Proof.
  intros H. unfold validated. rewrite H. unfold invalid_paths, check_path in H.
  destruct p as [[i|] [t|] [d|] [c|] [n|] [u|] [m|] [r|] [s|]];
    cbn [p_course_id p_title p_description p_category p_instructor p_duration p_price
         p_rating p_skill_level] in H;
    try (eexists; reflexivity);
    repeat match type of H with
           | ((if ?b then _ else _) ++ _)%list = [] => destruct b; cbn [app] in H
           | (_ :: _) = [] => discriminate H
           | ([_] ++ _)%list = [] => discriminate H
           end.
Qed.

(** X9.  The request schemas are at least as strict as the model's.  Data
    that [validateRequest] accepts under the create schema passes every
    validator of the course schema (it can be stored as it is); data
    accepted under the update schema passes the update validators, so an
    update the route forwards is never rejected for its values. *)
Theorem request_schema_implies_model_schema (body : json) (data : PartialCourse) :
  (Validation.validateRequest Validation.CourseCreateSchema body = Validation.Success data ->
   invalid_paths true data = [] /\ is_Some (validated data))
  /\ (Validation.validateRequest Validation.CourseUpdateSchema body = Validation.Success data ->
      invalid_paths false data = []
      /\ forall courseId w paths,
           result_of (Course.findOneAndUpdate courseId data w) <> Throw (ValidationError paths)).
Proof.
  split; intros H; apply validateRequest_Success in H as [Hi ->];
    apply course_data_passes in Hi; cbn [negb] in Hi.
  - split; [exact Hi | apply validated_of_no_invalid_path; exact Hi].
  - split; [exact Hi|]. intros courseId w paths. unfold Course.findOneAndUpdate. rewrite Hi.
    destruct (List.find _ _); [destruct (_ && _)|]; discriminate.
Qed.

(** ** The update route, outcome by outcome *)

(** The three invalidation commands of the PUT and DELETE handlers, before
    a continuation [k]. *)
Lemma route_sweep_run {A} courseId (k : M A) w :
  reachable w ->
  exists w',
    (_ ← redisService.del ("course:" +:+ courseId);
     _ ← redisService.flushPattern "search:*";
     _ ← redisService.flushPattern "courses:*";
     k) w = k w'
    /\ cache_step w w'
    /\ (cache_up w ->
        forall key, cache w' !! key
                    = if route_invalidated courseId key then None else cache w !! key).
Proof.
  intros Hreach.
  destruct (del_total ("course:" +:+ courseId) w Hreach) as (b1 & w1 & E1 & S1).
  assert (reachable w1) as Hreach1 by exact (reachable_step _ _ S1 Hreach).
  destruct (flushPattern_total "search:*" w1 Hreach1) as (b2 & w2 & E2 & S2).
  assert (reachable w2) as Hreach2 by exact (reachable_step _ _ S2 Hreach1).
  destruct (flushPattern_total "courses:*" w2 Hreach2) as (b3 & w3 & E3 & S3).
  exists w3. rewrite bind_run, E1, bind_run, E2, bind_run, E3.
  split; [reflexivity|]. split; [eauto using cache_step_trans|].
  intros Hup key.
  destruct (del_up ("course:" +:+ courseId) w Hup) as (w1' & E1' & C1 & _).
  rewrite E1 in E1'. injection E1' as _ <-.
  destruct (flushPattern_up "search:*" w1 (cache_up_step _ _ S1 Hup)) as (w2' & E2' & C2 & _).
  rewrite E2 in E2'. injection E2' as _ <-.
  destruct (flushPattern_up "courses:*" w2 (cache_up_step _ _ S2 (cache_up_step _ _ S1 Hup)))
    as (w3' & E3' & C3 & _).
  rewrite E3 in E3'. injection E3' as _ <-.
  rewrite C3, C2, C1, !lookup_without_pattern. unfold route_invalidated.
  destruct (redisService.matches "courses:*" key); [rewrite !orb_true_r; reflexivity|].
  destruct (redisService.matches "search:*" key); [rewrite orb_true_r; reflexivity|].
  rewrite !orb_false_r. destruct (String.eqb_spec key ("course:" +:+ courseId)) as [->|Hne].
  - apply lookup_delete_eq.
  - apply lookup_delete_ne. congruence.
Qed.

(** X10.  The outcomes of the update route for an administrator, with the
    cache server reachable.  The handler answers, with 200, 400, 404 or
    500.  It answers 400 exactly when the body is read and fails the
    update schema, and then touches nothing.  It answers 404 only when no
    document has the key, and 500 only when the body cannot be read or
    moves the document to a key another document holds; in every case but
    200 the collection and the cache are as they were and no cache command
    is issued.  On 200 the stored document is the old one with the body's
    members set, it is the [data] of the answer, and, when the cache
    answers its commands, exactly the keys course:{id}, search:* and
    courses:* lose their entries. *)
Theorem update_route_outcomes
    (message_of : exn -> string) (now : string) (user : option Auth.JWTPayload)
    (courseId : string) (json : Promise json) (w : World) :
  Auth.isAdmin user = true ->
  reachable w ->
  exists resp w',
    CourseIdRoute.PUT message_of now user courseId json w = (Ok resp, w')
    /\ In (status resp) [200; 400; 404; 500]
    /\ (status resp = 400
        <-> exists input errors,
              json = Resolves input
              /\ Validation.validateRequest Validation.CourseUpdateSchema input
                 = Validation.Failure errors)
    /\ (status resp = 400 -> w' = w)
    /\ (status resp = 404 -> List.find (has_id courseId) (courses w) = None)
    /\ (status resp = 500 ->
        (exists message, json = Rejects message)
        \/ exists input c id',
             json = Resolves input
             /\ List.find (has_id courseId) (courses w) = Some c
             /\ p_course_id (Validation.course_data input) = Some id'
             /\ id' <> courseId
             /\ existsb (has_id id') (courses w) = true)
    /\ (status resp <> 200 ->
        courses w' = courses w /\ cache w' = cache w /\ redis_clock w' = redis_clock w)
    /\ (status resp = 200 ->
        exists input c,
          json = Resolves input
          /\ List.find (has_id courseId) (courses w) = Some c
          /\ courses w'
             = replace_first courseId (apply_update (Validation.course_data input) c) (courses w)
          /\ member "data" (body resp)
             = course_json (apply_update (Validation.course_data input) c)
          /\ (cache_up w ->
              forall key, cache w' !! key
                          = if route_invalidated courseId key then None else cache w !! key)).
Proof.
  intros Hadmin Hreach. unfold CourseIdRoute.PUT, try_catch. rewrite Hadmin. cbn [negb].
  destruct json as [input|message].
  2: { unfold respond. rewrite ret_run. do 2 eexists. split; [reflexivity|].
       cbn [status body]. split; [cbn; tauto|].
       split; [split; [discriminate | intros (? & ? & [=] & _)]|].
       split; [discriminate|]. split; [discriminate|].
       split; [intros _; left; eauto|].
       split; [intros _; repeat split | discriminate]. }
  destruct (Validation.validateRequest Validation.CourseUpdateSchema input) as [data|errors] eqn:Hv.
  - assert (forall input' errors',
               Resolves input = Resolves input' ->
               Validation.validateRequest Validation.CourseUpdateSchema input'
               = Validation.Failure errors' -> False) as Hnot.
    { intros input' errors' [= <-] H. rewrite Hv in H. discriminate. }
    apply validateRequest_Success in Hv as [Hi ->]. apply course_data_passes in Hi.
    cbn [negb] in Hi. set (data := Validation.course_data input) in *.
    rewrite bind_run. unfold Course.findOneAndUpdate. rewrite Hi. cbn [courses logged].
    destruct (List.find (has_id courseId) (courses w)) as [c|] eqn:Hfind.
    + destruct (negb (String.eqb (course_id (apply_update data c)) courseId)
                && existsb (has_id (course_id (apply_update data c))) (courses w)) eqn:Hdup.
      * unfold respond. rewrite ret_run. do 2 eexists. split; [reflexivity|].
        cbn [status body]. split; [cbn; tauto|].
        split; [split; [discriminate | intros (? & ? & E1 & E2); destruct (Hnot _ _ E1 E2)]|].
        split; [discriminate|]. split; [discriminate|].
        split; [|split; [intros _; repeat split | discriminate]].
        intros _. right. apply andb_prop in Hdup as [Hne Hex].
        unfold apply_update in Hne, Hex. cbn [course_id] in Hne, Hex.
        destruct (p_course_id data) as [id'|] eqn:Hid; cbn [default from_option id] in Hne, Hex.
        -- exists input, c, id'. repeat split; try assumption.
           intros ->. rewrite String.eqb_refl in Hne. discriminate.
        -- rewrite (find_has_id _ _ _ Hfind), String.eqb_refl in Hne. discriminate.
      * set (w0 := with_courses _ _).
        assert (reachable w0) as Hreach0 by (subst w0; auto with world).
        destruct (route_sweep_run courseId
                    (respond 200 (Validation.createSuccessResponse now
                                    (course_json (apply_update data c))
                                    (JString "Course updated successfully"))) w0 Hreach0)
          as (w' & E & Hstep & Hcache).
        rewrite E. unfold respond. rewrite ret_run. do 2 eexists. split; [reflexivity|].
        cbn [status body]. split; [cbn; tauto|].
        split; [split; [discriminate | intros (? & ? & E1 & E2); destruct (Hnot _ _ E1 E2)]|].
        split; [discriminate|]. split; [discriminate|]. split; [discriminate|].
        split; [congruence|]. intros _. exists input, c. split; [reflexivity|].
        split; [reflexivity|].
        destruct Hstep as (Hc & _). split; [rewrite Hc; reflexivity|].
        split; [reflexivity|]. intros Hup key. rewrite Hcache; [reflexivity|].
        subst w0. auto with world.
    + unfold respond. rewrite ret_run. do 2 eexists. split; [reflexivity|].
      cbn [status body]. split; [cbn; tauto|].
      split; [split; [discriminate | intros (? & ? & E1 & E2); destruct (Hnot _ _ E1 E2)]|].
      split; [discriminate|]. split; [reflexivity|]. split; [discriminate|].
      split; [intros _; repeat split | discriminate].
  - unfold respond. rewrite ret_run. do 2 eexists. split; [reflexivity|].
    cbn [status body]. split; [cbn; tauto|].
    split; [split; [eauto | reflexivity]|].
    split; [reflexivity|]. split; [discriminate|]. split; [discriminate|].
    split; [intros _; repeat split | discriminate].
Qed.

Lemma update_route_outcomes_witness :
  exists resp w',
    CourseIdRoute.PUT no_message new_year admin "cs101" (Resolves rating_3_body) detail_world
    = (Ok resp, w')
    /\ In (status resp) [200; 400; 404; 500]
    /\ (status resp = 400
        <-> exists input errors,
              Resolves rating_3_body = Resolves input
              /\ Validation.validateRequest Validation.CourseUpdateSchema input
                 = Validation.Failure errors)
    /\ (status resp = 400 -> w' = detail_world)
    /\ (status resp = 404 -> List.find (has_id "cs101") (courses detail_world) = None)
    /\ (status resp = 500 ->
        (exists message, Resolves rating_3_body = Rejects message)
        \/ exists input c id',
             Resolves rating_3_body = Resolves input
             /\ List.find (has_id "cs101") (courses detail_world) = Some c
             /\ p_course_id (Validation.course_data input) = Some id'
             /\ id' <> "cs101"
             /\ existsb (has_id id') (courses detail_world) = true)
    /\ (status resp <> 200 ->
        courses w' = courses detail_world /\ cache w' = cache detail_world
        /\ redis_clock w' = redis_clock detail_world)
    /\ (status resp = 200 ->
        exists input c,
          Resolves rating_3_body = Resolves input
          /\ List.find (has_id "cs101") (courses detail_world) = Some c
          /\ courses w'
             = replace_first "cs101" (apply_update (Validation.course_data input) c)
                 (courses detail_world)
          /\ member "data" (body resp)
             = course_json (apply_update (Validation.course_data input) c)
          /\ (cache_up detail_world ->
              forall key,
                cache w' !! key
                = if route_invalidated "cs101" key then None else cache detail_world !! key)).
Proof.
  apply (update_route_outcomes no_message new_year admin "cs101" (Resolves rating_3_body)
           detail_world).
  - reflexivity.
  - intros n _. discriminate.
Defined.

(** ** The patterns of the sweeps *)

Lemma glob_star_all t : redisService.glob ["*"%char] t = true.
Proof.
  induction t as [|a t IH]; [reflexivity|]. cbn in *. exact IH.
Qed.

Lemma glob_literal_prefix p : forallb literal p = true ->
  forall s, redisService.glob (p ++ ["*"%char])%list s = true <-> exists t, s = (p ++ t)%list.
Proof.
  induction p as [|c p IH]; intros Hp s.
  - cbn [app]. rewrite glob_star_all. split; [intros _; exists s; reflexivity | reflexivity].
  - cbn [forallb] in Hp. apply andb_prop in Hp as [Hc Hp]. unfold literal in Hc.
    apply andb_prop in Hc as [Hc _]. apply andb_prop in Hc as [Hc _].
    apply andb_prop in Hc as [Hstar Hq]. apply negb_true_iff in Hstar, Hq.
    cbn [app redisService.glob]. rewrite Hstar. destruct s as [|d s].
    + split; [discriminate | intros [t [=]]].
    + rewrite Hq. cbn [orb]. split.
      * intros H. apply andb_prop in H as [Hcd H]. apply Ascii.eqb_eq in Hcd as ->.
        apply (IH Hp) in H as [t ->]. exists t. reflexivity.
      * intros [t [= -> ->]]. rewrite Ascii.eqb_refl. apply (IH Hp). exists t. reflexivity.
Qed.

Lemma list_ascii_of_string_app s t :
  list_ascii_of_string (s +:+ t) = (list_ascii_of_string s ++ list_ascii_of_string t)%list.
Proof.
  induction s as [|c s IH]; [reflexivity|].
  change (String c s +:+ t) with (String c (s +:+ t)). cbn [list_ascii_of_string].
  rewrite IH. reflexivity.
Qed.

(** A pattern made of a literal prefix and a star matches the keys that
    start with the prefix. *)
Lemma matches_prefix p key :
  literal_string p = true ->
  redisService.matches (p +:+ "*") key = true <-> exists rest, key = p +:+ rest.
Proof.
  intros Hp. unfold redisService.matches. rewrite list_ascii_of_string_app. cbn [list_ascii_of_string].
  rewrite (glob_literal_prefix _ Hp). split.
  - intros [t Ht]. exists (string_of_list_ascii t).
    rewrite <- (string_of_list_ascii_of_string key), Ht.
    rewrite <- (string_of_list_ascii_of_string (p +:+ _)), list_ascii_of_string_app,
      list_ascii_of_string_of_list_ascii. reflexivity.
  - intros [rest ->]. exists (list_ascii_of_string rest). apply list_ascii_of_string_app.
Qed.

(** However it ends, a sweep has removed the keys of the pattern or
    nothing. *)
Lemma flushPattern_run pattern w :
  cache (world_of (redisService.flushPattern pattern w)) = cache w
  \/ cache (world_of (redisService.flushPattern pattern w))
     = without_pattern pattern (cache w).
Proof.
  assert (exists o w', redisService.flushPattern pattern w = (o, w')
                       /\ (cache w' = cache w \/ cache w' = without_pattern pattern (cache w)))
    as (o & w' & -> & H); [|exact H].
  unfold redisService.flushPattern, try_catch. rewrite bind_run.
  unfold redisService.client_keys, redisService.command at 1.
  destruct (redis_fate w (redis_clock w)) eqn:H0;
    [|do 2 eexists; split; [reflexivity | left; reflexivity]
     |do 2 eexists; split; [reflexivity | left; reflexivity]].
  cbv beta iota zeta. rewrite bind_run. set (keys := filter _ _).
  destruct (0 <? Z.of_nat (length keys)) eqn:Hlen.
  - unfold redisService.client_del, redisService.command.
    cbn [redis_fate redis_clock with_cache tick cache].
    destruct (redis_fate w (S (redis_clock w)));
      [|do 2 eexists; split; [reflexivity | left; reflexivity]
       |do 2 eexists; split; [reflexivity | left; reflexivity]].
    do 2 eexists. split; [reflexivity|]. right. cbn [cache with_cache]. subst keys.
    apply keys_then_del.
  - rewrite ret_run. cbv beta iota zeta. rewrite ret_run.
    do 2 eexists. split; [reflexivity | left; reflexivity].
Qed.

Lemma has_prefix_spec p key : has_prefix p key = true <-> exists rest, key = p +:+ rest.
Proof.
  unfold has_prefix. split.
  - destruct (strip_prefix p key) as [r|] eqn:H; [|discriminate].
    intros _. exists r. apply strip_prefix_app. exact H.
  - intros [rest ->]. assert (strip_prefix p (p +:+ rest) = Some rest) as ->; [|reflexivity].
    induction p as [|c p IH]; [reflexivity|].
    change (String c p +:+ rest) with (String c (p +:+ rest)). cbn [strip_prefix].
    rewrite Ascii.eqb_refl. exact IH.
Qed.

Lemma matches_has_prefix p key :
  literal_string p = true -> redisService.matches (p +:+ "*") key = has_prefix p key.
Proof.
  intros Hp. destruct (has_prefix p key) eqn:H.
  - apply matches_prefix; [exact Hp|]. apply has_prefix_spec. exact H.
  - destruct (redisService.matches (p +:+ "*") key) eqn:Hm; [|reflexivity].
    apply (matches_prefix p key Hp), has_prefix_spec in Hm. congruence.
Qed.

(** ** Reads after the writes of the service *)

Lemma lookup_swept (c : gmap string Entry) k :
  swept c !! k = if swept_key k then None else c !! k.
Proof.
  unfold swept, swept_key.
  rewrite <- (matches_has_prefix "search:" k eq_refl), <- (matches_has_prefix "courses:" k eq_refl).
  change ("search:" +:+ "*") with "search:*". change ("courses:" +:+ "*") with "courses:*".
  destruct (String.eqb_spec k "course:stats") as [->|Hs].
  - rewrite lookup_delete_eq, orb_true_r. reflexivity.
  - rewrite lookup_delete_ne by congruence. rewrite !lookup_without_pattern, orb_false_r.
    destruct (redisService.matches "courses:*" k); [rewrite orb_true_r; reflexivity|].
    destruct (redisService.matches "search:*" k); reflexivity.
Qed.

Lemma createCourse_run courseData w :
  cache_up w ->
  (exists e, CourseService.createCourse courseData w = (Throw e, logged CallSave w)
             /\ (e = ValidationError (invalid_paths true courseData)
                 \/ e = MongoServerError 11000))
  \/ (exists c w',
         CourseService.createCourse courseData w = (Ok c, w')
         /\ validated courseData = Some c
         /\ existsb (has_id (course_id c)) (courses w) = false
         /\ courses w' = (courses w ++ [c])%list
         /\ cache w' = swept (cache w)
         /\ cache_up w').
Proof.
  intros Hup. unfold CourseService.createCourse. rewrite bind_run. unfold Course.save.
  cbn [courses logged]. destruct (validated courseData) as [c|]; [|left; eauto].
  destruct (existsb (has_id (course_id c)) (courses w)) eqn:Hfree; [left; eauto|].
  right. set (w0 := with_courses _ _).
  assert (cache_up w0) as Hup0 by (subst w0; auto with world).
  destruct (invalidateSearchCaches_up w0 Hup0) as (w1 & E1 & C1 & S1).
  rewrite bind_run, E1. exists c, w1. split; [reflexivity|].
  split; [reflexivity|]. split; [exact Hfree|].
  split; [destruct S1 as (A & _); rewrite A; reflexivity|].
  split; [rewrite C1; reflexivity|]. eapply cache_up_step; eassumption.
Qed.

Lemma bulkInsertCourses_run docs w :
  cache_up w ->
  exists counts w',
    CourseService.bulkInsertCourses docs w = (Ok counts, w')
    /\ cache w' = swept (cache w) /\ cache_up w'.
Proof.
  intros Hup. unfold CourseService.bulkInsertCourses. rewrite bind_run.
  unfold try_catch. rewrite bind_run. unfold Course.insertMany. cbn [courses logged].
  pose proof (insert_unordered_counts (omap validated docs) 0 (courses w)) as (_ & _ & Hcode).
  destruct (insert_unordered (omap validated docs) 0 (courses w)) as [coll errs].
  cbn [snd] in Hcode. set (w0 := with_courses _ _).
  assert (cache_up w0) as Hup0 by (subst w0; auto with world).
  destruct (invalidateSearchCaches_up w0 Hup0) as (w1 & E1 & C1 & S1).
  assert (cache_up w1) as Hup1 by (eapply cache_up_step; eassumption).
  destruct errs as [|e errs].
  - cbv beta iota. rewrite ret_run. cbv beta iota. rewrite bind_run, E1.
    do 2 eexists. split; [reflexivity|]. split; [exact C1 | exact Hup1].
  - pose proof (Forall_inv Hcode) as He. cbn beta in He. rewrite He.
    cbv beta iota. rewrite ret_run. cbv beta iota. rewrite bind_run, E1.
    do 2 eexists. split; [reflexivity|]. split; [exact C1 | exact Hup1].
Qed.

Lemma sweep_result {A} courseId (a x : A) w w' :
  (_ ← redisService.del ("course:" +:+ courseId);
   _ ← CourseService.invalidateSearchCaches;
   mret a) w = (Ok x, w') -> x = a.
Proof.
  rewrite bind_run. destruct (redisService.del _ w) as [[b|e|] w1]; try discriminate.
  rewrite bind_run. destruct (CourseService.invalidateSearchCaches w1) as [[u|e|] w2];
    try discriminate.
  rewrite ret_run. intros [= <- _]. reflexivity.
Qed.

Lemma sweep_never_throws {A} courseId (a : A) :
  never_throws (_ ← redisService.del ("course:" +:+ courseId);
                _ ← CourseService.invalidateSearchCaches;
                mret a).
Proof.
  apply bind_never_throws; [apply del_never_throws|]. intros _.
  apply bind_never_throws; [apply invalidateSearchCaches_never_throws|]. intros _.
  apply ret_never_throws.
Qed.

Lemma invalidate_never_throws {A} (a : A) :
  never_throws (_ ← CourseService.invalidateSearchCaches; mret a).
Proof.
  apply bind_never_throws; [apply invalidateSearchCaches_never_throws|]. intros _.
  apply ret_never_throws.
Qed.

Lemma updateCourse_ok courseId updateData w c' w' :
  CourseService.updateCourse courseId updateData w = (Ok (Some c'), w') ->
  exists c,
    List.find (has_id courseId) (courses w) = Some c
    /\ invalid_paths false updateData = []
    /\ negb (String.eqb (course_id (apply_update updateData c)) courseId)
         && existsb (has_id (course_id (apply_update updateData c))) (courses w) = false
    /\ c' = apply_update updateData c.
Proof.
  unfold CourseService.updateCourse. rewrite bind_run. unfold Course.findOneAndUpdate.
  cbn [courses logged]. destruct (invalid_paths false updateData); [|discriminate].
  destruct (List.find (has_id courseId) (courses w)) as [c|]; [|rewrite ret_run; discriminate].
  destruct (negb _ && _) eqn:Hfree; [discriminate|].
  set (w0 := with_courses _ _). intros H. apply sweep_result in H. injection H as ->.
  exists c. repeat split. exact Hfree.
Qed.

Lemma deleteCourse_ok courseId w w' :
  CourseService.deleteCourse courseId w = (Ok true, w') ->
  exists c, List.find (has_id courseId) (courses w) = Some c.
Proof.
  unfold CourseService.deleteCourse. rewrite bind_run. unfold Course.findOneAndDelete.
  cbn [courses logged].
  destruct (List.find (has_id courseId) (courses w)) as [c|]; [eauto|].
  rewrite ret_run. discriminate.
Qed.

(** The cache after a successful write, with the cache answering. *)
Lemma wrote_cache w w' :
  cache_up w -> wrote w w' ->
  cache_up w' /\ forall k, cache w' !! k = None \/ (swept_key k = false /\ cache w' !! k = cache w !! k).
Proof.
  intros Hup [data c H|id data c' H|id H|docs counts H].
  - destruct (createCourse_run data w Hup) as [(e & E & _)|(c0 & w0 & E & _ & _ & _ & C & Hup')];
      rewrite E in H; [discriminate|]. injection H as _ <-.
    split; [exact Hup'|]. intros k. rewrite C, lookup_swept.
    destruct (swept_key k); [left | right]; auto.
  - destruct (updateCourse_ok _ _ _ _ _ H) as (c & Hc & Hv & Hfree & _).
    destruct (updateCourse_found id data w c Hup Hc Hv Hfree) as (w0 & E & _ & C & _ & Hup').
    rewrite E in H. injection H as _ <-. split; [exact Hup'|].
    intros k. rewrite C, lookup_swept. destruct (swept_key k); [left; reflexivity|].
    destruct (String.eqb_spec k ("course:" +:+ id)) as [->|Hne].
    + left. apply lookup_delete_eq.
    + right. split; [reflexivity | apply lookup_delete_ne; congruence].
  - destruct (deleteCourse_ok _ _ _ H) as (c & Hc).
    destruct (deleteCourse_found id w c Hup Hc) as (w0 & E & _ & C & _ & Hup').
    rewrite E in H. injection H as <-. split; [exact Hup'|].
    intros k. rewrite C, lookup_swept. destruct (swept_key k); [left; reflexivity|].
    destruct (String.eqb_spec k ("course:" +:+ id)) as [->|Hne].
    + left. apply lookup_delete_eq.
    + right. split; [reflexivity | apply lookup_delete_ne; congruence].
  - destruct (bulkInsertCourses_run docs w Hup) as (r0 & w0 & E & C & Hup').
    rewrite E in H. injection H as _ <-. split; [exact Hup'|].
    intros k. rewrite C, lookup_swept. destruct (swept_key k); [left | right]; auto.
Qed.

Lemma cached_payload_None key w : cache w !! key = None -> cached_payload key w = None.
Proof. unfold cached_payload. intros ->. reflexivity. Qed.

(** X13.  After any successful write of the service, with the cache
    answering its commands, every search, the statistics and every
    listing are read from the store: no search key, listing key or
    course:stats holds an entry, so that [searchCourses] of any descriptor
    answers with [cached: false] after a find and a count, and
    [getCourseStats] after a count and three aggregations; each key that
    is not invalidated keeps its entry or loses it, and never gets a new
    one. *)
Theorem reads_after_a_write_go_to_the_store
    (E : Engine) (w w' : World) (options : list (string * json))
    (page limit category skill_level : option string) :
  cache_up w ->
  wrote w w' ->
  cache w' !! CourseService.search_cache_key options = None
  /\ cache w' !! "course:stats" = None
  /\ cache w' !! listing_key page limit category skill_level = None
  /\ (forall k e, cache w' !! k = Some e -> cache w !! k = Some e)
  /\ (forall v w'',
        CourseService.searchCourses E options w' = (Ok v, w'') ->
        member "cached" v = JBool false
        /\ exists query, mongo_log w'' = CallCountDocuments query :: CallFind query :: mongo_log w')
  /\ (forall v w'',
        CourseService.getCourseStats E w' = (Ok v, w'') ->
        exists p1 p2 p3,
          mongo_log w'' = CallAggregate p3 :: CallAggregate p2 :: CallAggregate p1
                          :: CallCountDocuments (JObject []) :: mongo_log w').
Proof.
  intros Hup Hw. destruct (wrote_cache w w' Hup Hw) as [Hup' Hcache].
  assert (forall k, swept_key k = true -> cache w' !! k = None) as Hgone.
  { intros k Hk. destruct (Hcache k) as [H|[H _]]; [exact H | congruence]. }
  assert (cache w' !! CourseService.search_cache_key options = None) as Hs
    by (apply Hgone; reflexivity).
  assert (cache w' !! "course:stats" = None) as Ht by (apply Hgone; reflexivity).
  repeat split; try assumption.
  - apply Hgone. reflexivity.
  - intros k e Hk. destruct (Hcache k) as [H|[_ H]]; congruence.
  - eapply searchCourses_miss_up; [exact Hup' | apply cached_payload_None; exact Hs | eassumption].
  - destruct (searchCourses_miss_up E options w' v w'' Hup' (cached_payload_None _ _ Hs) H)
      as (_ & _ & Hlog & _). exact Hlog.
  - intros v w'' H.
    destruct (getCourseStats_miss_up E w' v w'' Hup' (cached_payload_None _ _ Ht) H)
      as (_ & _ & Hlog & _). exact Hlog.
Qed.

(** X14.  A course that was created is read back.  After a successful
    [createCourse], with the cache answering its commands: the stored
    document is the validated input, no other document had its key, and
    [getCourseById] of the key finds it in the store.  The write leaves
    the key course:{id} alone (but for the id ["stats"]), so the read
    returns the new course exactly when no payload was cached under that
    key before. *)
Theorem created_course_is_read_back (courseData : PartialCourse) (c : ICourseData) (w w' : World) :
  cache_up w ->
  CourseService.createCourse courseData w = (Ok c, w') ->
  validated courseData = Some c
  /\ List.find (has_id (course_id c)) (courses w) = None
  /\ courses w' = (courses w ++ [c])%list
  /\ List.find (has_id (course_id c)) (courses w') = Some c
  /\ cache w' !! ("course:" +:+ course_id c)
     = (if String.eqb (course_id c) "stats" then None
        else cache w !! ("course:" +:+ course_id c))
  /\ (cached_payload ("course:" +:+ course_id c) w = None ->
      result_of (CourseService.getCourseById (course_id c) w') = Ok (course_json c)).
Proof.
  intros Hup H.
  destruct (createCourse_run courseData w Hup)
    as [(e & E & _)|(c0 & w0 & E & Hv & Hfree & Hcs & Hcache & Hup')];
    rewrite E in H; [discriminate|]. injection H as <- <-.
  assert (List.find (has_id (course_id c0)) (courses w) = None) as Hnone
    by (apply find_none_of_not_taken; exact Hfree).
  assert (List.find (has_id (course_id c0)) (courses w0) = Some c0) as Hfind.
  { rewrite Hcs, find_app_r by exact Hnone. cbn. unfold has_id. rewrite String.eqb_refl.
    reflexivity. }
  assert (cache w0 !! ("course:" +:+ course_id c0)
          = (if String.eqb (course_id c0) "stats" then None
             else cache w !! ("course:" +:+ course_id c0))) as Hkey.
  { rewrite Hcache, lookup_swept. reflexivity. }
  repeat split; try assumption.
  intros Hmiss. rewrite getCourseById_miss.
  - unfold stored_course. rewrite Hfind. reflexivity.
  - exact (cache_up_reachable _ Hup').
  - unfold cached_payload in *. rewrite Hkey.
    destruct (String.eqb _ "stats"); [reflexivity | exact Hmiss].
Qed.

Lemma created_course_is_read_back_witness :
  let w := world_of_courses [] healthy in
  let w' := world_of (CourseService.createCourse (to_partial cs101) w) in
  validated (to_partial cs101) = Some cs101
  /\ List.find (has_id (course_id cs101)) (courses w) = None
  /\ courses w' = (courses w ++ [cs101])%list
  /\ List.find (has_id (course_id cs101)) (courses w') = Some cs101
  /\ cache w' !! ("course:" +:+ course_id cs101)
     = (if String.eqb (course_id cs101) "stats" then None
        else cache w !! ("course:" +:+ course_id cs101))
  /\ (cached_payload ("course:" +:+ course_id cs101) w = None ->
      result_of (CourseService.getCourseById (course_id cs101) w') = Ok (course_json cs101)).
Proof.
  apply (created_course_is_read_back (to_partial cs101) cs101 (world_of_courses [] healthy)).
  - intros n _. reflexivity.
  - vm_compute. reflexivity.
Defined.

(** X15.  A write that raises has changed nothing.  Whatever the faults of
    the cache, when [createCourse] or [updateCourse] raises, the error is
    the validation error of the input or the duplicate key error, and the
    collection and the cache are as they were, no cache command having
    been issued. *)
Theorem failed_writes_change_nothing
    (courseData updateData : PartialCourse) (courseId : string) (w w' : World) (e : exn) :
  (CourseService.createCourse courseData w = (Throw e, w') ->
   (e = ValidationError (invalid_paths true courseData) \/ e = MongoServerError 11000)
   /\ courses w' = courses w /\ cache w' = cache w /\ redis_clock w' = redis_clock w)
  /\ (CourseService.updateCourse courseId updateData w = (Throw e, w') ->
      (e = ValidationError (invalid_paths false updateData) \/ e = MongoServerError 11000)
      /\ courses w' = courses w /\ cache w' = cache w /\ redis_clock w' = redis_clock w).
Proof.
  split.
  - unfold CourseService.createCourse. rewrite bind_run. unfold Course.save.
    cbn [courses logged]. destruct (validated courseData) as [c|].
    + destruct (existsb _ _).
      * intros [= <- <-]. repeat split. right. reflexivity.
      * set (w0 := with_courses _ _). intros H. exfalso.
        apply (invalidate_never_throws c w0 e). rewrite H. reflexivity.
    + intros [= <- <-]. repeat split. left. reflexivity.
  - unfold CourseService.updateCourse. rewrite bind_run. unfold Course.findOneAndUpdate.
    cbn [courses logged]. destruct (invalid_paths false updateData) as [|p ps] eqn:Hp.
    + destruct (List.find _ _) as [c|]; [|rewrite ret_run; discriminate].
      destruct (negb _ && _).
      * intros [= <- <-]. repeat split. right. reflexivity.
      * set (w0 := with_courses _ _). intros H. exfalso.
        apply (sweep_never_throws courseId (Some (apply_update updateData c)) w0 e).
        rewrite H. reflexivity.
    + intros [= <- <-]. repeat split. left. reflexivity.
Qed.

(** ** Keys no write invalidates *)

Lemma ret_keeps {A} (a : A) k : keeps k (mret a : M A).
Proof. intros w. reflexivity. Qed.

Lemma bind_keeps {A B} (m : M A) (f : A -> M B) k :
  keeps k m -> (forall a, keeps k (f a)) -> keeps k (m ≫= f).
Proof.
  intros Hm Hf w. rewrite bind_run. specialize (Hm w).
  destruct (m w) as [[a|e|] w1]; try exact Hm.
  cbn [world_of snd] in Hm. rewrite (Hf a w1). exact Hm.
Qed.

Lemma del_keeps key k : k <> key -> keeps k (redisService.del key).
Proof.
  intros Hk w. destruct (redis_fate w (redis_clock w)) eqn:H0.
  - rewrite del_ok by exact H0. apply lookup_delete_ne. congruence.
  - rewrite del_fails by exact H0. reflexivity.
  - rewrite del_pending by exact H0. reflexivity.
Qed.

Lemma flushPattern_keeps p k :
  literal_string p = true -> has_prefix p k = false ->
  keeps k (redisService.flushPattern (p +:+ "*")).
Proof.
  intros Hp Hk w. destruct (flushPattern_run (p +:+ "*") w) as [-> | ->]; [reflexivity|].
  rewrite lookup_without_pattern, (matches_has_prefix p k Hp), Hk. reflexivity.
Qed.

Lemma invalidateSearchCaches_keeps k :
  swept_key k = false -> keeps k CourseService.invalidateSearchCaches.
Proof.
  intros Hk. unfold swept_key in Hk. apply orb_false_elim in Hk as [Hk Hstats].
  apply orb_false_elim in Hk as [Hs Hc].
  unfold CourseService.invalidateSearchCaches.
  apply bind_keeps; [exact (flushPattern_keeps "search:" k eq_refl Hs)|]. intros _.
  apply bind_keeps; [exact (flushPattern_keeps "courses:" k eq_refl Hc)|]. intros _.
  apply bind_keeps; [|intros _; apply ret_keeps].
  apply del_keeps. intros ->. discriminate.
Qed.

Lemma course_family_swept k : course_family k = false -> swept_key k = false.
Proof.
  unfold course_family, swept_key. intros H. apply orb_false_elim in H as [H Hc].
  rewrite H. destruct (String.eqb_spec k "course:stats") as [->|]; [discriminate | reflexivity].
Qed.

Lemma course_family_key k courseId : course_family k = false -> k <> "course:" +:+ courseId.
Proof.
  unfold course_family. intros H ->. apply orb_false_elim in H as [_ H]. discriminate.
Qed.

(** X16.  A write of the service touches only the keys of its own families.
    Whatever the faults of the cache, after a successful [createCourse],
    [updateCourse], [deleteCourse] or [bulkInsertCourses] a key that does
    not start with search:, courses: or course: holds what it held.  The
    pages of the advanced search are such keys: no write invalidates
    them. *)
Theorem writes_keep_the_other_keys (w w' : World) (key : string) (body : list (string * json)) :
  wrote w w' ->
  (course_family key = false -> cache w' !! key = cache w !! key)
  /\ course_family (AdvancedSearchRoute.cache_key body) = false
  /\ cache w' !! AdvancedSearchRoute.cache_key body = cache w !! AdvancedSearchRoute.cache_key body.
Proof.
  intros Hw.
  assert (forall k, course_family k = false -> cache w' !! k = cache w !! k) as Hkeep.
  { intros k Hk. pose proof (course_family_swept k Hk) as Hs.
    assert (forall courseId {A} (a : A),
               keeps k (_ ← redisService.del ("course:" +:+ courseId);
                        _ ← CourseService.invalidateSearchCaches;
                        mret a)) as Hsweep.
    { intros courseId A a.
      apply bind_keeps; [apply del_keeps, course_family_key; exact Hk|]. intros _.
      apply bind_keeps; [apply invalidateSearchCaches_keeps; exact Hs|]. intros _.
      apply ret_keeps. }
    assert (forall {A} (a : A), keeps k (_ ← CourseService.invalidateSearchCaches; mret a))
      as Hinv.
    { intros A a. apply bind_keeps; [apply invalidateSearchCaches_keeps; exact Hs|].
      intros _. apply ret_keeps. }
    destruct Hw as [data c H|id data c' H|id H|docs counts H].
    - replace w' with (world_of (CourseService.createCourse data w)) by (rewrite H; reflexivity).
      unfold CourseService.createCourse. rewrite bind_run. unfold Course.save.
      cbn [courses logged]. destruct (validated data) as [c0|]; [|reflexivity].
      destruct (existsb _ _); [reflexivity|]. rewrite (Hinv _ c0). reflexivity.
    - replace w' with (world_of (CourseService.updateCourse id data w))
        by (rewrite H; reflexivity).
      unfold CourseService.updateCourse. rewrite bind_run.
      unfold Course.findOneAndUpdate. cbn [courses logged].
      destruct (invalid_paths false data); [|reflexivity].
      destruct (List.find _ _) as [c|]; [|reflexivity].
      destruct (negb _ && _); [reflexivity|]. rewrite (Hsweep id). reflexivity.
    - replace w' with (world_of (CourseService.deleteCourse id w)) by (rewrite H; reflexivity).
      unfold CourseService.deleteCourse. rewrite bind_run.
      unfold Course.findOneAndDelete. cbn [courses logged].
      destruct (List.find _ _) as [c|]; [|reflexivity]. rewrite (Hsweep id). reflexivity.
    - replace w' with (world_of (CourseService.bulkInsertCourses docs w))
        by (rewrite H; reflexivity).
      unfold CourseService.bulkInsertCourses. rewrite bind_run.
      unfold try_catch. rewrite bind_run. unfold Course.insertMany. cbn [courses logged].
      destruct (insert_unordered _ _ _) as [coll errs].
      destruct errs as [|e errs].
      + cbv beta iota. rewrite ret_run. cbv beta iota. rewrite (Hinv _ _). reflexivity.
      + cbv beta iota. destruct (we_code e) as [|code|code]; try reflexivity.
        repeat (destruct code as [code|code|]; try reflexivity).
        rewrite ret_run. cbv beta iota. rewrite (Hinv _ _). reflexivity. }
  split; [apply Hkeep|]. split; [reflexivity|]. apply Hkeep. reflexivity.
Qed.

Lemma reads_after_a_write_go_to_the_store_witness :
  let E := ScanEngine.engine in
  let w := world_of (CourseService.searchCourses E beginner_page
                       (world_of_courses [] healthy)) in
  let w' := world_of (CourseService.createCourse (to_partial cs101) w) in
  cache w' !! CourseService.search_cache_key beginner_page = None
  /\ cache w' !! "course:stats" = None
  /\ cache w' !! listing_key None None None None = None
  /\ (forall k e, cache w' !! k = Some e -> cache w !! k = Some e)
  /\ (forall v w'',
        CourseService.searchCourses E beginner_page w' = (Ok v, w'') ->
        member "cached" v = JBool false
        /\ exists query, mongo_log w'' = CallCountDocuments query :: CallFind query :: mongo_log w')
  /\ (forall v w'',
        CourseService.getCourseStats E w' = (Ok v, w'') ->
        exists p1 p2 p3,
          mongo_log w'' = CallAggregate p3 :: CallAggregate p2 :: CallAggregate p1
                          :: CallCountDocuments (JObject []) :: mongo_log w').
Proof.
  apply (reads_after_a_write_go_to_the_store ScanEngine.engine
           (world_of (CourseService.searchCourses ScanEngine.engine beginner_page
                        (world_of_courses [] healthy)))).
  - intros n _. reflexivity.
  - apply (wrote_create _ _ (to_partial cs101) cs101). vm_compute. reflexivity.
Defined.

Lemma writes_keep_the_other_keys_witness :
  let w := world_of_courses [cs101] healthy in
  let w' := world_of (CourseService.deleteCourse "cs101" w) in
  (course_family "health-check" = false -> cache w' !! "health-check" = cache w !! "health-check")
  /\ course_family (AdvancedSearchRoute.cache_key []) = false
  /\ cache w' !! AdvancedSearchRoute.cache_key [] = cache w !! AdvancedSearchRoute.cache_key [].
Proof.
  apply (writes_keep_the_other_keys (world_of_courses [cs101] healthy)).
  apply (wrote_delete _ _ "cs101"). vm_compute. reflexivity.
Defined.

(** ** Course recommendations *)

Lemma from_first_spec c s rest :
  GeminiService.from_first c s = Some rest ->
  exists pre, s = pre +:+ rest /\ occurs c pre = false /\ exists r, rest = String c r.
Proof.
  revert rest. induction s as [|a s IH]; intros rest; cbn [GeminiService.from_first];
    [discriminate|].
  destruct (Ascii.eqb_spec a c) as [->|Hne].
  - intros [= <-]. exists EmptyString. repeat split. eauto.
  - intros H. destruct (IH rest H) as (pre & -> & Hpre & Hr). exists (String a pre).
    split; [reflexivity|]. split; [|exact Hr]. unfold occurs in *. cbn.
    rewrite Hpre, orb_false_r. apply Ascii.eqb_neq. congruence.
Qed.

Lemma upto_last_spec c s m :
  GeminiService.upto_last c s = Some m ->
  exists post t, s = m +:+ post /\ occurs c post = false /\ m = t +:+ String c EmptyString.
Proof.
  revert m. induction s as [|a s IH]; intros m; cbn [GeminiService.upto_last]; [discriminate|].
  destruct (GeminiService.upto_last c s) as [t|] eqn:Hs.
  - intros [= <-]. destruct (IH t eq_refl) as (post & u & -> & Hpost & ->).
    exists post, (String a u). repeat split. exact Hpost.
  - destruct (Ascii.eqb_spec a c) as [->|_]; [|discriminate]. intros [= <-].
    exists s, EmptyString. repeat split.
    clear IH. induction s as [|b s IH]; [reflexivity|]. cbn [GeminiService.upto_last] in Hs.
    destruct (GeminiService.upto_last c s); [discriminate|].
    destruct (Ascii.eqb_spec b c) as [|Hne]; [discriminate|]. unfold occurs in *. cbn.
    rewrite (IH eq_refl), orb_false_r. apply Ascii.eqb_neq. congruence.
Qed.

(** The part of a response that is parsed runs from its first opening
    bracket to its last closing bracket. *)
Lemma jsonMatch_spec text matched :
  GeminiService.jsonMatch text = Some matched ->
  exists pre inner post,
    text = pre +:+ matched +:+ post
    /\ matched = "[" +:+ inner +:+ "]"
    /\ occurs "[" pre = false /\ occurs "]" post = false.
Proof.
  unfold GeminiService.jsonMatch.
  destruct (GeminiService.from_first "[" text) as [rest|] eqn:Hf; [|discriminate].
  intros Hl. apply from_first_spec in Hf as (pre & -> & Hpre & r & ->).
  apply upto_last_spec in Hl as (post & t & Hrest & Hpost & ->).
  destruct t as [|b t].
  - cbn in Hrest. injection Hrest as Hb _. discriminate Hb.
  - cbn in Hrest. injection Hrest as <- ->.
    exists pre, t, post. repeat split; assumption.
Qed.

Lemma from_first_complete c pre r :
  occurs c pre = false ->
  GeminiService.from_first c (pre +:+ String c r) = Some (String c r).
Proof.
  induction pre as [|a pre IH]; intros Hpre.
  - change (EmptyString +:+ String c r) with (String c r).
    cbn [GeminiService.from_first]. rewrite Ascii.eqb_refl. reflexivity.
  - change (String a pre +:+ String c r) with (String a (pre +:+ String c r)).
    unfold occurs in *. cbn in Hpre. apply orb_false_elim in Hpre as [Ha Hpre].
    cbn [GeminiService.from_first]. rewrite Ascii.eqb_sym, Ha. exact (IH Hpre).
Qed.

Lemma upto_last_none c post :
  occurs c post = false -> GeminiService.upto_last c post = None.
Proof.
  induction post as [|a post IH]; intros Hpost; [reflexivity|].
  unfold occurs in *. cbn in Hpost. apply orb_false_elim in Hpost as [Ha Hpost].
  cbn [GeminiService.upto_last]. rewrite (IH Hpost), Ascii.eqb_sym, Ha. reflexivity.
Qed.

Lemma upto_last_complete c t post :
  occurs c post = false ->
  GeminiService.upto_last c ((t +:+ String c EmptyString) +:+ post)
  = Some (t +:+ String c EmptyString).
Proof.
  intros Hpost. induction t as [|a t IH].
  - change ((EmptyString +:+ String c EmptyString) +:+ post) with (String c post).
    cbn [GeminiService.upto_last]. rewrite (upto_last_none c post Hpost), Ascii.eqb_refl.
    reflexivity.
  - change ((String a t +:+ String c EmptyString) +:+ post)
      with (String a ((t +:+ String c EmptyString) +:+ post)).
    cbn [GeminiService.upto_last]. rewrite IH. reflexivity.
Qed.

(** What is parsed of a response: exactly the part from its first opening
    bracket to its last closing bracket. *)
Lemma jsonMatch_iff text matched :
  GeminiService.jsonMatch text = Some matched
  <-> exists pre inner post,
        text = pre +:+ matched +:+ post /\ matched = "[" +:+ inner +:+ "]"
        /\ occurs "[" pre = false /\ occurs "]" post = false.
Proof.
  split; [apply jsonMatch_spec|].
  intros (pre & inner & post & -> & -> & Hpre & Hpost). unfold GeminiService.jsonMatch.
  change (pre +:+ ("[" +:+ inner +:+ "]") +:+ post)
    with (pre +:+ String "[" ((inner +:+ "]") +:+ post)).
  rewrite (from_first_complete "[" pre _ Hpre).
  change (String "[" ((inner +:+ "]") +:+ post))
    with ((String "[" inner +:+ String "]" EmptyString) +:+ post).
  rewrite (upto_last_complete "]" (String "[" inner) post Hpost). reflexivity.
Qed.

Lemma recommendations_length now preferences courses : forall i mapped,
  GeminiService.recommendations now preferences i courses = Some mapped ->
  length mapped = length courses /\ Forall (fun course => course <> JNull) courses.
Proof.
  induction courses as [|course rest IH]; intros i mapped; cbn [GeminiService.recommendations].
  - intros [= <-]. split; [reflexivity | constructor].
  - destruct (GeminiService.recommendation now preferences i course) as [r|] eqn:Hr;
      [|discriminate].
    destruct (GeminiService.recommendations now preferences (S i) rest) as [rs|] eqn:Hrs;
      [|discriminate].
    intros [= <-]. destruct (IH _ _ Hrs) as [Hlen Hall]. split; [cbn; rewrite Hlen; reflexivity|].
    constructor; [|exact Hall]. intros ->. discriminate Hr.
Qed.

Lemma recommendations_null now preferences courses : forall i,
  In JNull courses -> GeminiService.recommendations now preferences i courses = None.
Proof.
  induction courses as [|course rest IH]; intros i; [intros []|].
  cbn [GeminiService.recommendations]. intros [->|Hin]; [reflexivity|].
  rewrite (IH (S i) Hin). destruct (GeminiService.recommendation _ _ _ _); reflexivity.
Qed.

Lemma recommendations_nth now preferences courses : forall i mapped,
  GeminiService.recommendations now preferences i courses = Some mapped ->
  forall j course,
    nth_error courses j = Some course ->
    nth_error mapped j = GeminiService.recommendation now preferences (i + j) course.
Proof.
  induction courses as [|c rest IH]; intros i mapped; cbn [GeminiService.recommendations].
  - intros _ [|j] course; discriminate.
  - destruct (GeminiService.recommendation now preferences i c) as [r0|] eqn:Hr; [|discriminate].
    destruct (GeminiService.recommendations now preferences (S i) rest) as [rs|] eqn:Hrs;
      [|discriminate].
    intros [= <-] [|j] course; cbn [nth_error].
    + intros [= <-]. rewrite Nat.add_0_r. symmetry. exact Hr.
    + intros Hj. rewrite (IH (S i) rs Hrs j course Hj). f_equal. lia.
Qed.

Lemma recommendations_some now preferences courses : forall i,
  Forall (fun course => course <> JNull /\ course <> JUndefined) courses ->
  exists mapped, GeminiService.recommendations now preferences i courses = Some mapped.
Proof.
  induction courses as [|c rest IH]; intros i Hall; [eexists; reflexivity|].
  apply Forall_cons_iff in Hall as [[Hn Hu] Hall]. cbn [GeminiService.recommendations].
  destruct (IH (S i) Hall) as [rs ->].
  destruct c; try contradiction; eexists; reflexivity.
Qed.

(** X17.  When the recommendations are the mock, and what they are when
    they are not.  The five mock courses are returned when no API key is
    configured, when the call of the model fails, when its text has no
    bracketed part, and when the array read in that part has a null
    element.  The bracketed part runs from the first opening to the last
    closing bracket of the text.  When it reads as an array without null,
    the result has one recommendation per element, the i-th made of the
    i-th element, so that an empty array gives no recommendation. *)
Theorem recommendations_are_the_mock_or_the_models
    (now : nat -> Z) (GEMINI_API_KEY : option string) (generateContent : Promise string)
    (preferences : GeminiService.UserPreferences) :
  let result :=
    GeminiService.generateCourseRecommendations now GEMINI_API_KEY generateContent preferences in
  let mock := GeminiService.getMockRecommendations preferences in
  length mock = 5%nat
  /\ (truthy_string GEMINI_API_KEY = None -> result = mock)
  /\ (forall message, generateContent = Rejects message -> result = mock)
  /\ (forall text,
        generateContent = Resolves text -> GeminiService.jsonMatch text = None ->
        result = mock)
  /\ (forall text matched,
        GeminiService.jsonMatch text = Some matched
        <-> exists pre inner post,
              text = pre +:+ matched +:+ post /\ matched = "[" +:+ inner +:+ "]"
              /\ occurs "[" pre = false /\ occurs "]" post = false)
  /\ (forall text matched courses,
        truthy_string GEMINI_API_KEY <> None ->
        generateContent = Resolves text ->
        GeminiService.jsonMatch text = Some matched ->
        JSON_parse matched = Ok (JArray courses) ->
        (In JNull courses -> result = mock)
        /\ (Forall (fun course => course <> JNull /\ course <> JUndefined) courses ->
            length result = length courses
            /\ forall i course,
                 nth_error courses i = Some course ->
                 nth_error result i = GeminiService.recommendation now preferences i course)).
Proof.
  intros result mock. subst result mock.
  unfold GeminiService.generateCourseRecommendations.
  split; [reflexivity|]. split; [intros ->; reflexivity|].
  split; [intros message ->; destruct (truthy_string _); reflexivity|].
  split.
  { intros text -> Hm. destruct (truthy_string _); [|reflexivity].
    unfold GeminiService.parseAIResponse. rewrite Hm. reflexivity. }
  split; [intros text matched; apply jsonMatch_iff|].
  intros text matched courses Hk -> Hm Hp.
  destruct (truthy_string GEMINI_API_KEY); [|contradiction].
  unfold GeminiService.parseAIResponse. rewrite Hm, Hp. split.
  - intros Hnull. rewrite (recommendations_null now preferences courses 0 Hnull). reflexivity.
  - intros Hall. destruct (recommendations_some now preferences courses 0 Hall) as [mapped Hr].
    rewrite Hr. split; [apply (recommendations_length _ _ _ _ _ Hr)|].
    intros i course Hi. exact (recommendations_nth _ _ _ _ _ Hr i course Hi).
Qed.

Lemma recommendations_examples :
  let generate text :=
    GeminiService.generateCourseRecommendations epoch (Some "key") (Resolves text)
      python_beginner in
  map (member "title") (generate "Sure: [{}, 7]")
  = [JString "Untitled Course"; JString "Untitled Course"]
  /\ map (member "id") (generate "Sure: [{}, 7]")
     = [JString "gemini-1700000000000-0"; JString "gemini-1700000000000-1"]
  /\ generate "[1] or [2]" = GeminiService.getMockRecommendations python_beginner
  /\ generate "[null]" = GeminiService.getMockRecommendations python_beginner
  /\ generate "no array here" = GeminiService.getMockRecommendations python_beginner
  /\ generate "[]" = [].
Proof. cbv zeta. repeat split; vm_compute; reflexivity. Qed.

Lemma truthy_or_else a b : truthy b = true -> truthy (GeminiService.or_else a b) = true.
Proof. unfold GeminiService.or_else. destruct (truthy a) eqn:Ha; [rewrite Ha|]; auto. Qed.

Lemma append_nonempty s t : t <> EmptyString -> s +:+ t <> EmptyString.
Proof. destruct s; [exact id | discriminate]. Qed.

Lemma truthy_nonempty s : s <> EmptyString -> truthy (JString s) = true.
Proof. intros H. cbn. destruct (String.eqb_spec s EmptyString); [contradiction | reflexivity]. Qed.

Lemma first_topic_nonempty preferences fallback :
  fallback <> EmptyString -> GeminiService.first_topic preferences fallback <> EmptyString.
Proof.
  intros H. unfold GeminiService.first_topic. destruct (GeminiService.topics preferences) as [|t ts];
    [exact H|]. cbn. destruct (String.eqb_spec t EmptyString); [exact H | assumption].
Qed.

Lemma recommendations_In now preferences courses : forall i mapped r,
  GeminiService.recommendations now preferences i courses = Some mapped -> In r mapped ->
  exists j course, GeminiService.recommendation now preferences j course = Some r.
Proof.
  induction courses as [|course rest IH]; intros i mapped r; cbn [GeminiService.recommendations].
  - intros [= <-] [].
  - destruct (GeminiService.recommendation now preferences i course) as [r0|] eqn:Hr;
      [|discriminate].
    destruct (GeminiService.recommendations now preferences (S i) rest) as [rs|] eqn:Hrs;
      [|discriminate].
    intros [= <-] [<-|Hin]; [eauto | eapply IH; eassumption].
Qed.

Lemma mock_complete preferences r field :
  GeminiService.skillLevel preferences <> EmptyString ->
  In r (GeminiService.getMockRecommendations preferences) ->
  In field recommendation_members ->
  truthy (member field r) = true.
Proof.
  intros Hlevel Hr Hfield. pose proof (truthy_nonempty _ Hlevel) as Hl.
  assert (truthy (JString (GeminiService.first_topic preferences "Development" +:+ " Fundamentals"))
          = true) as H2 by (apply truthy_nonempty, append_nonempty; discriminate).
  assert (truthy (JString (String.concat " & " (GeminiService.topics preferences) +:+ " Bootcamp"))
          = true) as H4 by (apply truthy_nonempty, append_nonempty; discriminate).
  unfold GeminiService.getMockRecommendations, GeminiService.mock, recommendation_members in *.
  repeat (destruct Hr as [<-|Hr]; [
    repeat (destruct Hfield as [<-|Hfield]; [first [reflexivity | exact Hl | exact H2 | exact H4]|]);
    destruct Hfield|]).
  destruct Hr.
Qed.

(** X18.  Every recommendation comes complete.  For preferences with a
    skill level, whatever the model answers (or fails to), each
    recommendation returned carries a truthy id, title, description,
    provider, skill level, duration, format, price, rating and topics: a
    member the model left out or left empty is filled in with its
    default. *)
Theorem every_recommendation_is_complete
    (now : nat -> Z) (GEMINI_API_KEY : option string) (generateContent : Promise string)
    (preferences : GeminiService.UserPreferences) (r : json) (field : string) :
  GeminiService.skillLevel preferences <> EmptyString ->
  In r (GeminiService.generateCourseRecommendations now GEMINI_API_KEY generateContent
          preferences) ->
  In field recommendation_members ->
  truthy (member field r) = true.
Proof.
  intros Hlevel Hr Hfield. unfold GeminiService.generateCourseRecommendations in Hr.
  destruct (truthy_string GEMINI_API_KEY); [|eapply mock_complete; eassumption].
  destruct generateContent as [text|m]; [|eapply mock_complete; eassumption].
  unfold GeminiService.parseAIResponse in Hr.
  destruct (GeminiService.jsonMatch text) as [matched|]; [|eapply mock_complete; eassumption].
  destruct (JSON_parse matched) as [[| | | | |courses|]|e|];
    try (eapply mock_complete; eassumption).
  destruct (GeminiService.recommendations now preferences 0 courses) as [mapped|] eqn:Hm;
    [|eapply mock_complete; eassumption].
  destruct (recommendations_In _ _ _ _ _ _ Hm Hr) as (j & course & Hc).
  pose proof (truthy_nonempty _ Hlevel) as Hl.
  unfold GeminiService.recommendation in Hc.
  assert (r = JObject
            [("id", JString ("gemini-" +:+ pretty (now j) +:+ "-" +:+ pretty (Z.of_nat j)));
             ("title", GeminiService.or_else (member "title" course) (JString "Untitled Course"));
             ("description", GeminiService.or_else (member "description" course)
                               (JString "No description available"));
             ("provider", GeminiService.or_else (member "provider" course)
                            (JString "Unknown Provider"));
             ("skillLevel", GeminiService.or_else (member "skillLevel" course)
                              (JString (GeminiService.skillLevel preferences)));
             ("duration", GeminiService.or_else (member "duration" course) (JString "Variable"));
             ("format", GeminiService.or_else (member "format" course) (JString "Mixed"));
             ("price", GeminiService.or_else (member "price" course) (JString "Unknown"));
             ("rating", GeminiService.or_else (member "rating" course) (JNumber 4%float));
             ("topics", GeminiService.or_else (member "topics" course)
                          (GeminiService.topics_json preferences));
             ("url", member "url" course)]) as ->
    by (destruct course; congruence).
  unfold recommendation_members in Hfield.
  repeat (destruct Hfield as [<-|Hfield];
          [first [reflexivity | apply truthy_or_else; first [reflexivity | exact Hl]]|]).
  destruct Hfield.
Qed.

Lemma every_recommendation_is_complete_witness :
  In priced_recommendation
     (GeminiService.generateCourseRecommendations epoch (Some "key") (Resolves priced_answer)
        python_beginner)
  /\ truthy (member "title" priced_recommendation) = true.
Proof.
  assert (In priced_recommendation
            (GeminiService.generateCourseRecommendations epoch (Some "key")
               (Resolves priced_answer) python_beginner)) as Hin
    by (vm_compute; left; reflexivity).
  split; [exact Hin|].
  apply (every_recommendation_is_complete epoch (Some "key") (Resolves priced_answer)
           python_beginner priced_recommendation "title").
  - discriminate.
  - exact Hin.
  - right. left. reflexivity.
Defined.

Lemma trim_end_idem s : RecommendationsRoute.trim_end (RecommendationsRoute.trim_end s)
                        = RecommendationsRoute.trim_end s.
Proof.
  induction s as [|c r IH]; [reflexivity|]. cbn [RecommendationsRoute.trim_end].
  destruct (RecommendationsRoute.trim_end r) as [|d r'] eqn:Hr.
  - destruct (is_js_ws c) eqn:Hc; [reflexivity|]. cbn. rewrite Hc. reflexivity.
  - cbn [RecommendationsRoute.trim_end]. cbn [RecommendationsRoute.trim_end] in IH.
    rewrite IH. reflexivity.
Qed.

Lemma trim_start_head s :
  trim_start s = EmptyString \/ exists c r, trim_start s = String c r /\ is_js_ws c = false.
Proof.
  induction s as [|c r IH]; [left; reflexivity|]. cbn [trim_start].
  destruct (is_js_ws c) eqn:Hc; [exact IH | right; eauto].
Qed.

Lemma trim_end_head c r :
  is_js_ws c = false -> exists r', RecommendationsRoute.trim_end (String c r) = String c r'.
Proof.
  intros Hc. cbn [RecommendationsRoute.trim_end].
  destruct (RecommendationsRoute.trim_end r); [rewrite Hc|]; eauto.
Qed.

Lemma trim_idem s : RecommendationsRoute.trim (RecommendationsRoute.trim s) = RecommendationsRoute.trim s.
Proof.
  unfold RecommendationsRoute.trim. destruct (trim_start_head s) as [->|(c & r & -> & Hc)];
    [reflexivity|].
  destruct (trim_end_head c r Hc) as [r' Hr]. rewrite Hr. cbn [trim_start]. rewrite Hc.
  rewrite <- Hr. apply trim_end_idem.
Qed.

Lemma trimmed_strings elements ts :
  RecommendationsRoute.trimmed elements = Some ts ->
  Forall (fun e => exists s, e = JString s) elements
  /\ Forall (fun t => RecommendationsRoute.trim t = t) ts.
Proof.
  revert ts. induction elements as [|e elements IH]; intros ts; cbn [RecommendationsRoute.trimmed].
  - intros [= <-]. split; constructor.
  - destruct e; try discriminate.
    destruct (RecommendationsRoute.trimmed elements) as [ts'|]; [|discriminate].
    intros [= <-]. destruct (IH ts' eq_refl) as [He Ht].
    split; constructor; eauto using trim_idem.
Qed.

Lemma trimmed_of_strings elements :
  Forall (fun e => exists s, e = JString s) elements ->
  exists ts, RecommendationsRoute.trimmed elements = Some ts.
Proof.
  induction 1 as [|e elements [s ->] _ [ts IH]]; cbn [RecommendationsRoute.trimmed];
    [eauto|]. rewrite IH. eauto.
Qed.

(** X19.  What the recommendations route accepts.  POST answers 200, 400 or
    500.  A body whose topics are a non-empty array of strings and whose
    skill level is one of the three levels is answered 200.  An answer 200
    echoes preferences whose skill level is one of the three levels and
    whose topics are the non-empty ones among the body's, trimmed (there
    may be none left); its count is the number of its recommendations. *)
Theorem recommendations_request_is_validated
    (now : nat -> Z) (generatedAt type_error : string) (GEMINI_API_KEY : option string)
    (generateContent : Promise string) (input : Promise json) :
  let resp := RecommendationsRoute.POST now generatedAt type_error GEMINI_API_KEY
                generateContent input in
  In (status resp) [200; 400; 500]
  /\ (forall ms elements level,
        input = Resolves (JObject ms) ->
        obj_get "topics" ms = Some (JArray elements) -> elements <> [] ->
        Forall (fun e => exists s, e = JString s) elements ->
        obj_get "skillLevel" ms = Some (JString level) -> skill_level_in_enum level = true ->
        status resp = 200)
  /\ (status resp = 200 ->
      exists preferences recommendations,
        member "preferences" (body resp) = RecommendationsRoute.preferences_json preferences
        /\ skill_level_in_enum (GeminiService.skillLevel preferences) = true
        /\ Forall (fun t => t <> EmptyString /\ RecommendationsRoute.trim t = t)
             (GeminiService.topics preferences)
        /\ member "recommendations" (body resp) = JArray recommendations
        /\ member "count" (body resp) = JNumber (Z2F (Z.of_nat (length recommendations)))).
Proof.
  intros resp. subst resp. unfold RecommendationsRoute.POST.
  split; [|split].
  - destruct input as [[| | | | | |ms]|m]; cbn [member default from_option id status
      RecommendationsRoute.failed]; try (cbn; tauto).
    destruct (obj_get "topics" ms) as [[| | | | |[|e es]|]|]; cbn [default from_option id status];
      try (cbn; tauto).
    destruct (obj_get "skillLevel" ms) as [[| | | |level| |]|];
      cbn [default from_option id status]; try (cbn; tauto).
    destruct (skill_level_in_enum level); [|cbn; tauto].
    destruct (RecommendationsRoute.trimmed (e :: es));
      unfold RecommendationsRoute.answer, RecommendationsRoute.failed; cbn [status In];
      tauto.
  - intros ms elements level -> Ht Hne Hs Hl Hlevel. cbn [member]. rewrite Ht, Hl.
    cbn [default from_option id]. destruct elements as [|e es]; [contradiction|].
    rewrite Hlevel. destruct (trimmed_of_strings _ Hs) as [ts ->]. reflexivity.
  - destruct input as [[| | | | | |ms]|m]; cbn [member default from_option id status
      RecommendationsRoute.failed]; try discriminate.
    destruct (obj_get "topics" ms) as [[| | | | |[|e es]|]|]; cbn [default from_option id status];
      try discriminate.
    destruct (obj_get "skillLevel" ms) as [[| | | |level| |]|];
      cbn [default from_option id status]; try discriminate.
    destruct (skill_level_in_enum level) eqn:Hlevel; [|discriminate].
    destruct (RecommendationsRoute.trimmed (e :: es)) as [ts|] eqn:Ht; [|discriminate].
    intros _. unfold RecommendationsRoute.answer. cbn [body].
    do 2 eexists. split; [reflexivity|]. split; [exact Hlevel|].
    split; [|split; reflexivity].
    cbn [GeminiService.topics]. apply trimmed_strings in Ht as [_ Ht].
    apply List.Forall_forall. intros t Hin. apply filter_In in Hin as [Hin Hne].
    rewrite List.Forall_forall in Ht. split; [|apply Ht; exact Hin].
    intros ->. discriminate Hne.
Qed.

(** ** The handlers always answer *)

Lemma try_catch_outcome {A} (P : A -> Prop) (m : M A) (h : exn -> M A) w :
  (forall a w', m w = (Ok a, w') -> P a) ->
  (forall e w', exists a, h e w' = (Ok a, w') /\ P a) ->
  (exists a w', try_catch m h w = (Ok a, w') /\ P a)
  \/ exists w', try_catch m h w = (Pending, w').
Proof.
  intros Hm Hh. unfold try_catch. destruct (m w) as [[a|e|] w'] eqn:E.
  - left. exists a, w'. split; [reflexivity | eapply Hm; reflexivity].
  - left. destruct (Hh e w') as (a & -> & Ha). eauto.
  - right. eauto.
Qed.

Lemma bind_Ok {A B} (m : M A) (k : A -> M B) w b w' :
  (m ≫= k) w = (Ok b, w') -> exists a w1, m w = (Ok a, w1) /\ k a w1 = (Ok b, w').
Proof.
  rewrite bind_run. destruct (m w) as [[a|e|] w1]; [eauto | discriminate | discriminate].
Qed.

Lemma respond_Ok s b resp w w' : respond s b w = (Ok resp, w') -> status resp = s.
Proof. unfold respond. rewrite ret_run. intros [= <- _]. reflexivity. Qed.

(** Peels binds, conditionals and matches off a run that answered, down to
    the [respond] that made the answer. *)
Ltac answered H :=
  repeat match type of H with
         | respond _ _ _ = (Ok _, _) => apply respond_Ok in H; rewrite H; cbn; tauto
         | (_ ≫= _) _ = (Ok _, _) =>
             let a := fresh "a" in let w := fresh "w" in let E := fresh "E" in
             apply bind_Ok in H as (a & w & E & H)
         | (if ?b then _ else _) _ = (Ok _, _) => destruct b
         | match ?x with _ => _ end _ = (Ok _, _) => destruct x
         | (let '(_, _) := ?x in _) _ = (Ok _, _) => destruct x
         | CourseUpload.failed _ _ = (Ok _, _) =>
             unfold CourseUpload.failed in H; apply respond_Ok in H; rewrite H; cbn; tauto
         | _ => progress cbv zeta in H
         end.

(** *** What settles *)

Lemma ret_settles {A} (a : A) : settles (mret a : M A).
Proof. intros w Hr. split; [discriminate | exact Hr]. Qed.

Lemma throw_settles {A} (e : exn) : settles (throw e : M A).
Proof. intros w Hr. split; [discriminate | exact Hr]. Qed.

Lemma respond_settles s b : settles (respond s b).
Proof. apply ret_settles. Qed.

Lemma bind_settles {A B} (m : M A) (k : A -> M B) :
  settles m -> (forall a, settles (k a)) -> settles (m ≫= k).
Proof.
  intros Hm Hk w Hr. rewrite bind_run. destruct (Hm w Hr) as [Hp Hw].
  destruct (m w) as [[a|e|] w']; cbn in *.
  - apply Hk. exact Hw.
  - split; [discriminate | exact Hw].
  - congruence.
Qed.

Lemma try_catch_settles {A} (m : M A) (h : exn -> M A) :
  settles m -> (forall e, settles (h e)) -> settles (try_catch m h).
Proof.
  intros Hm Hh w Hr. unfold try_catch. destruct (Hm w Hr) as [Hp Hw].
  destruct (m w) as [[a|e|] w']; cbn in *.
  - split; [discriminate | exact Hw].
  - apply Hh. exact Hw.
  - congruence.
Qed.

Lemma get_settles key : settles (redisService.get key).
Proof.
  intros w Hr. split.
  - destruct (get_total key w Hr) as (r & -> & _). discriminate.
  - exact (reachable_step _ _ (get_step key w) Hr).
Qed.

Lemma set_settles key value expire : settles (redisService.set key value expire).
Proof.
  intros w Hr. split.
  - destruct (set_total key value expire w Hr) as (r & w' & -> & _). discriminate.
  - exact (reachable_step _ _ (set_step key value expire w) Hr).
Qed.

Lemma del_settles key : settles (redisService.del key).
Proof.
  intros w Hr. split.
  - destruct (del_total key w Hr) as (r & w' & -> & _). discriminate.
  - exact (reachable_step _ _ (del_step key w) Hr).
Qed.

Lemma flushPattern_settles pattern : settles (redisService.flushPattern pattern).
Proof.
  intros w Hr. split.
  - destruct (flushPattern_total pattern w Hr) as (r & w' & -> & _). discriminate.
  - exact (reachable_step _ _ (flushPattern_step pattern w) Hr).
Qed.

Lemma JSON_parse_settles text : settles (Course.of_result (JSON_parse text)).
Proof.
  intros w Hr. split; [|exact Hr]. unfold Course.of_result, JSON_parse, result_of, fst.
  destruct (parse_value (S (String.length text)) text) as [[v rest]|]; [|discriminate].
  destruct (skip_ws rest); discriminate.
Qed.

Lemma findOne_settles courseId : settles (Course.findOne courseId).
Proof. intros w Hr. split; [discriminate | apply reachable_logged; exact Hr]. Qed.

Lemma find_settles E query sort skip limit :
  responsive E -> settles (Course.find E query sort skip limit).
Proof.
  intros (H & _) w Hr. split; [apply H | apply reachable_logged; exact Hr].
Qed.

Lemma countDocuments_settles E query :
  responsive E -> settles (Course.countDocuments E query).
Proof.
  intros (_ & H & _) w Hr. split; [apply H | apply reachable_logged; exact Hr].
Qed.

Lemma findOneAndUpdate_settles courseId updateData :
  settles (Course.findOneAndUpdate courseId updateData).
Proof.
  intros w Hr. pose proof (reachable_logged (CallFindOneAndUpdate courseId) w Hr) as Hl.
  unfold Course.findOneAndUpdate. cbv zeta.
  destruct (invalid_paths false updateData); [|split; [discriminate | exact Hl]].
  destruct (List.find _ _); [|split; [discriminate | exact Hl]].
  destruct (_ && _); (split; [discriminate|]); [exact Hl|].
  apply reachable_with_courses. exact Hl.
Qed.

Lemma findOneAndDelete_settles courseId : settles (Course.findOneAndDelete courseId).
Proof.
  intros w Hr. pose proof (reachable_logged (CallFindOneAndDelete courseId) w Hr) as Hl.
  unfold Course.findOneAndDelete. cbv zeta.
  destruct (List.find _ _); (split; [discriminate|]); [|exact Hl].
  apply reachable_with_courses. exact Hl.
Qed.

Lemma insertMany_settles docs : settles (Course.insertMany docs).
Proof.
  intros w Hr. pose proof (reachable_logged (CallInsertMany (length docs)) w Hr) as Hl.
  unfold Course.insertMany. cbv zeta.
  destruct (insert_unordered _ _ _) as [coll errs].
  destruct errs; (split; [discriminate | apply reachable_with_courses; exact Hl]).
Qed.

(** Peels a handler down to the calls above. *)
Ltac settle :=
  repeat first
    [ apply ret_settles | apply throw_settles | apply respond_settles
    | apply get_settles | apply set_settles | apply del_settles | apply flushPattern_settles
    | apply JSON_parse_settles | apply findOne_settles | apply findOneAndUpdate_settles
    | apply findOneAndDelete_settles | apply insertMany_settles
    | apply find_settles; assumption | apply countDocuments_settles; assumption
    | apply bind_settles; [|intros ?] | apply try_catch_settles; [|intros ?]
    | match goal with
      | |- settles (if ?b then _ else _) => destruct b
      | |- settles (match ?x with _ => _ end) => destruct x
      | |- settles (let '(_, _) := ?x in _) => destruct x
      end
    | progress cbv zeta ].

Lemma detail_settles message_of now courseId :
  settles (CourseIdRoute.GET message_of now courseId).
Proof.
  unfold CourseIdRoute.GET, CourseService.getCourseById. settle.
Qed.

Lemma update_settles message_of now user courseId json :
  settles (CourseIdRoute.PUT message_of now user courseId json).
Proof.
  unfold CourseIdRoute.PUT, CourseService.updateCourse, CourseService.invalidateSearchCaches.
  settle.
Qed.

Lemma delete_settles message_of now user courseId :
  settles (CourseIdRoute.DELETE message_of now user courseId).
Proof.
  unfold CourseIdRoute.DELETE, CourseService.deleteCourse,
    CourseService.invalidateSearchCaches.
  settle.
Qed.

Lemma listing_settles E user page limit category skill_level :
  responsive E -> settles (UploadRoute.GET E user page limit category skill_level).
Proof.
  intros HE. unfold UploadRoute.GET. settle.
Qed.

Lemma upload_settles message_of user formData :
  settles (CourseUpload.POST message_of user formData).
Proof.
  unfold CourseUpload.POST, CourseUpload.failed. settle.
Qed.

(** A handler that settles, with every answer's status in [allowed],
    answers with such a status. *)
Lemma settled_answer (allowed : list Z) (m : M Response) (h : exn -> M Response) w :
  reachable w -> settles (try_catch m h) ->
  (forall resp w', m w = (Ok resp, w') -> In (status resp) allowed) ->
  (forall e w', exists resp, h e w' = (Ok resp, w') /\ In (status resp) allowed) ->
  exists resp w', try_catch m h w = (Ok resp, w') /\ In (status resp) allowed.
Proof.
  intros Hr Hs Hm Hh.
  destruct (try_catch_outcome (fun resp => In (status resp) allowed) m h w Hm Hh)
    as [H | [w' H]]; [exact H|].
  destruct (Hs w Hr) as [Hp _]. rewrite H in Hp. destruct (Hp eq_refl).
Qed.

(** X20.  No handler lets an exception escape, and each answers once the
    calls it waits for end.  Whatever the request, the store engine's
    answers and the fate of the cache commands, the detail, update, delete,
    listing and upload handlers never end with an exception.  With the
    cache server reachable (every command answered or rejected) and a store
    that answers every query, each returns a response whose status is one
    it names: 200, 404 or 500 for the detail, with 400 and 401 besides for
    the update, 401 for the delete, 200, 401 or 500 for the listing, and
    200, 400, 401 or 500 for the upload; this includes the update whose
    request body fails to parse.  Where the server cannot be reached the
    detail handler never answers. *)
Theorem handlers_always_answer
    (message_of : exn -> string) (now : string) (E : Engine) (user : option Auth.JWTPayload)
    (courseId : string) (json : Promise json) (page limit category skill_level : option string)
    (formData : Promise (option CourseUpload.File)) :
  (never_throws (CourseIdRoute.GET message_of now courseId)
   /\ never_throws (CourseIdRoute.PUT message_of now user courseId json)
   /\ never_throws (CourseIdRoute.DELETE message_of now user courseId)
   /\ never_throws (UploadRoute.GET E user page limit category skill_level)
   /\ never_throws (CourseUpload.POST message_of user formData))
  /\ (forall w, reachable w -> responsive E ->
      (exists resp w', CourseIdRoute.GET message_of now courseId w = (Ok resp, w')
                       /\ In (status resp) [200; 404; 500])
      /\ (exists resp w', CourseIdRoute.PUT message_of now user courseId json w = (Ok resp, w')
                          /\ In (status resp) [200; 400; 401; 404; 500])
      /\ (exists resp w', CourseIdRoute.DELETE message_of now user courseId w = (Ok resp, w')
                          /\ In (status resp) [200; 401; 404; 500])
      /\ (exists resp w',
             UploadRoute.GET E user page limit category skill_level w = (Ok resp, w')
             /\ In (status resp) [200; 401; 500])
      /\ (exists resp w', CourseUpload.POST message_of user formData w = (Ok resp, w')
                          /\ In (status resp) [200; 400; 401; 500]))
  /\ (forall w, redis_fate w (redis_clock w) = Unreachable ->
      CourseIdRoute.GET message_of now courseId w = (Pending, w)).
Proof.
  split; [|split].
  - repeat split.
    + apply try_catch_never_throws. intros e w e'. discriminate.
    + apply try_catch_never_throws. intros e w e'. discriminate.
    + apply try_catch_never_throws. intros e w e'. discriminate.
    + unfold UploadRoute.GET. destruct (negb (Auth.isAdmin user)).
      * intros w e'. discriminate.
      * apply try_catch_never_throws. intros e w e'. discriminate.
    + apply try_catch_never_throws. intros e w e'. discriminate.
  - intros w Hr HE. repeat split.
    + apply settled_answer; [exact Hr | apply detail_settles | |].
      * intros resp w' H. answered H.
      * intros e w'. eexists. split; [reflexivity | cbn; tauto].
    + apply settled_answer; [exact Hr | apply update_settles | |].
      * intros resp w' H. answered H.
      * intros e w'. eexists. split; [reflexivity | cbn; tauto].
    + apply settled_answer; [exact Hr | apply delete_settles | |].
      * intros resp w' H. answered H.
      * intros e w'. eexists. split; [reflexivity | cbn; tauto].
    + pose proof (listing_settles E user page limit category skill_level HE) as Hs.
      unfold UploadRoute.GET in *. destruct (negb (Auth.isAdmin user)).
      * do 2 eexists. split; [reflexivity | cbn; tauto].
      * apply settled_answer; [exact Hr | exact Hs | |].
        -- intros resp w' H. answered H.
        -- intros e w'. eexists. split; [reflexivity | cbn; tauto].
    + apply settled_answer; [exact Hr | apply upload_settles | |].
      * intros resp w' H. answered H.
      * intros e w'. eexists. split; [reflexivity | cbn; tauto].
  - intros w H. unfold CourseIdRoute.GET, try_catch. rewrite bind_run.
    rewrite get_pending by exact H. reflexivity.
Qed.

(** ** A cached course reads back *)

Lemma string_app_assoc (a b c : string) : (a +:+ b) +:+ c = a +:+ b +:+ c.
Proof.
  induction a as [|x a IH]; [reflexivity|].
  change ((String x a +:+ b) +:+ c) with (String x ((a +:+ b) +:+ c)). rewrite IH. reflexivity.
Qed.

(** One quoted character parses back to itself. *)
Lemma parse_quote_char c rest :
  parse_chars (quote_char c +:+ rest)
  = match parse_chars rest with
    | Some (t, r) => Some (String c t, r)
    | None => None
    end.
Proof.
  destruct c as [[] [] [] [] [] [] [] []]; reflexivity.
Qed.

Lemma parse_quoted_chars s rest :
  parse_chars (quote_chars s +:+ dquote +:+ rest) = Some (s, rest).
Proof.
  induction s as [|c s IH]; [reflexivity|]. cbn [quote_chars].
  rewrite string_app_assoc, parse_quote_char, IH. reflexivity.
Qed.

Lemma parse_string_value fuel s rest :
  parse_value (S fuel) (QuoteJSONString s +:+ rest) = Some (JString s, rest).
Proof.
  unfold QuoteJSONString. rewrite !string_app_assoc.
  change (dquote +:+ quote_chars s +:+ dquote +:+ rest)
    with (String "034" (quote_chars s +:+ dquote +:+ rest)).
  simpl. rewrite parse_quoted_chars. reflexivity.
Qed.

Lemma parse_member_key fuel k rest acc :
  parse_members (S fuel) (QuoteJSONString k +:+ ":" +:+ rest) acc
  = match parse_value fuel rest with
    | Some (v, r3) =>
        match skip_ws r3 with
        | String c' r4 =>
            if Ascii.eqb c' "," then parse_members fuel r4 (obj_set k v acc)
            else if Ascii.eqb c' "}" then Some (obj_set k v acc, r4)
            else None
        | EmptyString => None
        end
    | None => None
    end.
Proof.
  unfold QuoteJSONString. rewrite !string_app_assoc.
  change (dquote +:+ quote_chars k +:+ dquote +:+ ":" +:+ rest)
    with (String "034" (quote_chars k +:+ dquote +:+ String ":" rest)).
  simpl. rewrite parse_quoted_chars. reflexivity.
Qed.

Lemma parse_string_member fuel k s rest acc :
  parse_members (S (S fuel)) (QuoteJSONString k +:+ ":" +:+ QuoteJSONString s +:+ "," +:+ rest) acc
  = parse_members (S fuel) rest (obj_set k (JString s) acc).
Proof. rewrite parse_member_key, parse_string_value. reflexivity. Qed.

Lemma parse_last_string_member fuel k s rest acc :
  parse_members (S (S fuel)) (QuoteJSONString k +:+ ":" +:+ QuoteJSONString s +:+ "}" +:+ rest) acc
  = Some (obj_set k (JString s) acc, rest).
Proof. rewrite parse_member_key, parse_string_value. reflexivity. Qed.

Lemma parse_number_head c text :
  c <> "-"%char -> digit_val c = None -> parse_number (String c text) = None.
Proof.
  intros Hm Hd. unfold parse_number. destruct (Ascii.eqb_spec c "-") as [|_]; [contradiction|].
  rewrite Hd. reflexivity.
Qed.

(** A text that starts with a minus sign or a digit is read as a number. *)
Lemma parse_value_number fuel c text :
  c = "-"%char \/ (exists d, digit_val c = Some d) ->
  parse_value (S fuel) (String c text)
  = match parse_number (String c text) with
    | Some (x, rest) => Some (JNumber x, rest)
    | None => None
    end.
Proof.
  intros [->|[d Hd]]; [reflexivity|]. unfold digit_val in Hd.
  destruct ((48 <=? Z.of_N (N_of_ascii c)) && (Z.of_N (N_of_ascii c) <=? 57)) eqn:Hr;
    [|discriminate].
  apply andb_prop in Hr as [Hlo Hhi]. apply Z.leb_le in Hlo, Hhi.
  assert (exists n, (48 <= n <= 57)%N /\ c = ascii_of_N n) as (n & Hn & ->).
  { exists (N_of_ascii c). split; [lia | symmetry; apply ascii_N_embedding]. }
  assert (n = 48 \/ n = 49 \/ n = 50 \/ n = 51 \/ n = 52 \/ n = 53 \/ n = 54 \/ n = 55
          \/ n = 56 \/ n = 57)%N as Hcases by lia.
  repeat (destruct Hcases as [->|Hcases]; [reflexivity|]). subst n. reflexivity.
Qed.

Lemma parse_number_value fuel x rest :
  reads_back x ->
  parse_value (S fuel) (Number_toString x +:+ "," +:+ rest) = Some (JNumber x, "," +:+ rest).
Proof.
  intros [_ H]. specialize (H rest). destruct (Number_toString x) as [|c text] eqn:Hx.
  - change (EmptyString +:+ "," +:+ rest) with (String "," rest) in H.
    rewrite parse_number_head in H by (discriminate || reflexivity). discriminate H.
  - change (String c text +:+ "," +:+ rest) with (String c (text +:+ "," +:+ rest)) in *.
    rewrite parse_value_number, H; [reflexivity|].
    destruct (Ascii.eqb_spec c "-") as [|Hm]; [left; assumption | right].
    destruct (digit_val c) as [d|] eqn:Hd; [eauto|].
    rewrite parse_number_head in H by assumption. discriminate H.
Qed.

Lemma parse_number_member fuel k x rest acc :
  reads_back x ->
  parse_members (S (S fuel)) (QuoteJSONString k +:+ ":" +:+ Number_toString x +:+ "," +:+ rest) acc
  = parse_members (S fuel) rest (obj_set k (JNumber x) acc).
Proof. intros H. rewrite parse_member_key, parse_number_value by exact H. reflexivity. Qed.

Lemma parse_object fuel k rest :
  parse_value (S fuel) ("{" +:+ QuoteJSONString k +:+ rest)
  = match parse_members fuel (QuoteJSONString k +:+ rest) [] with
    | Some (ms, r) => Some (JObject ms, r)
    | None => None
    end.
Proof.
  unfold QuoteJSONString. rewrite !string_app_assoc.
  change ("{" +:+ dquote +:+ quote_chars k +:+ dquote +:+ rest)
    with (String "{" (String "034" (quote_chars k +:+ dquote +:+ rest))).
  change (dquote +:+ quote_chars k +:+ dquote +:+ rest)
    with (String "034" (quote_chars k +:+ dquote +:+ rest)).
  reflexivity.
Qed.

Lemma length_app_string a b : String.length (a +:+ b) = (String.length a + String.length b)%nat.
Proof.
  induction a as [|c a IH]; [reflexivity|].
  change (String c a +:+ b) with (String c (a +:+ b)). cbn [String.length]. rewrite IH. reflexivity.
Qed.

(** The text of a stored course parses back to the course. *)
Lemma course_reads_back c :
  reads_back (rating c) -> JSON_parse (JSON_stringify (course_json c)) = Ok (course_json c).
Proof.
  intros Hr. unfold JSON_stringify, course_json.
  cbn [serialize flat_map map snd fst app default from_option id join_comma].
  rewrite (proj1 Hr). rewrite !string_app_assoc. unfold JSON_parse.
  match goal with |- context [parse_value (S (String.length ?T)) _] =>
    assert (11 <= String.length T)%nat as Hlen
      by (rewrite !length_app_string; cbn [String.length]; lia);
    destruct (String.length T) as [|[|[|[|[|[|[|[|[|[|[|fuel]]]]]]]]]]]; try lia
  end.
  rewrite parse_object. rewrite !parse_string_member.
  rewrite parse_number_member by exact Hr.
  replace ("}") with ("}" +:+ EmptyString) by reflexivity.
  rewrite parse_last_string_member. reflexivity.
Qed.

(** X21.  A cached course is the stored course, path by path.  With the
    cache answering its commands and nothing cached under course:{id}, the
    first [getCourseById] of a stored course reads the store; the second is
    answered from the cache, without a query of the store, and agrees with
    the first, and with the stored document, on each of the nine paths of
    the schema: every string member, with whatever quotes, backslashes or
    control characters, survives the serialisation, and so does the rating
    when its decimal form parses back to it.  The members the storage
    assigns ([_id], [__v], [createdAt], [updatedAt]) are not compared: the
    store hands them out as an ObjectId and Dates, the cache as the strings
    of their serialisation. *)
Theorem a_cached_course_is_the_stored_course (courseId : string) (c : ICourseData) (w : World) :
  cache_up w ->
  cached_payload ("course:" +:+ courseId) w = None ->
  List.find (has_id courseId) (courses w) = Some c ->
  reads_back (rating c) ->
  let first := CourseService.getCourseById courseId w in
  let second := CourseService.getCourseById courseId (world_of first) in
  (exists stored cached,
      result_of first = Ok stored /\ result_of second = Ok cached
      /\ Forall (fun path => member path cached = member path stored
                             /\ member path stored = member path (course_json c))
           schema_paths)
  /\ mongo_log (world_of first) = CallFindOne courseId :: mongo_log w
  /\ mongo_log (world_of second) = mongo_log (world_of first)
  /\ cache (world_of second) = cache (world_of first).
Proof.
  intros Hup Hmiss Hfind Hr first second. subst second first.
  rewrite (getCourseById_populates courseId w c Hup Hmiss Hfind). cbn [result_of world_of fst snd].
  set (w1 := with_cache _ _).
  assert (cache_up w1) as Hup1 by (subst w1; auto 12 with world).
  assert (cached_payload ("course:" +:+ courseId) w1 = Some (JSON_stringify (course_json c)))
    as Hhit.
  { subst w1. unfold cached_payload. cbn [cache with_cache]. rewrite lookup_insert_eq.
    reflexivity. }
  rewrite (getCourseById_hit courseId w1 _ (cache_up_now _ Hup1) Hhit).
  cbn [fst snd]. rewrite (course_reads_back c Hr). repeat split.
  exists (course_json c), (course_json c). repeat split. repeat constructor.
Qed.

Lemma a_cached_course_is_the_stored_course_witness :
  let w := world_of_courses [cs101] healthy in
  let first := CourseService.getCourseById "cs101" w in
  let second := CourseService.getCourseById "cs101" (world_of first) in
  (exists stored cached,
      result_of first = Ok stored /\ result_of second = Ok cached
      /\ Forall (fun path => member path cached = member path stored
                             /\ member path stored = member path (course_json cs101))
           schema_paths)
  /\ mongo_log (world_of first) = CallFindOne "cs101" :: mongo_log w
  /\ mongo_log (world_of second) = mongo_log (world_of first)
  /\ cache (world_of second) = cache (world_of first).
Proof.
  apply (a_cached_course_is_the_stored_course "cs101" cs101 (world_of_courses [cs101] healthy)).
  - intros n _. reflexivity.
  - reflexivity.
  - reflexivity.
  - split; [reflexivity|]. intros rest. vm_compute. reflexivity.
Defined.

(** ** Writes and the state of the cache *)

Lemma save_settles courseData : settles (Course.save courseData).
Proof.
  intros w Hr. pose proof (reachable_logged CallSave w Hr) as Hl.
  unfold Course.save. cbv zeta.
  destruct (validated courseData); [|split; [discriminate | exact Hl]].
  destruct (existsb _ _); (split; [discriminate|]); [exact Hl|].
  apply reachable_with_courses. exact Hl.
Qed.

Lemma result_after_invalidate {A B} (store : M A) (k : A -> B) w :
  reachable (world_of (store w)) ->
  result_of ((a ← store; _ ← CourseService.invalidateSearchCaches; mret (k a)) w)
  = match result_of (store w) with
    | Ok a => Ok (k a)
    | Throw e => Throw e
    | Pending => Pending
    end.
Proof.
  rewrite bind_run. destruct (store w) as [[a|e|] w0]; [|reflexivity|reflexivity].
  intros Hr. destruct (invalidateSearchCaches_total w0 Hr) as (w1 & E1 & _).
  rewrite bind_run, E1, ret_run. reflexivity.
Qed.

Lemma result_after_sweep {A} courseId (a : A) w :
  reachable w ->
  result_of ((_ ← redisService.del ("course:" +:+ courseId);
              _ ← CourseService.invalidateSearchCaches;
              mret a) w) = Ok a.
Proof.
  intros Hr.
  destruct (del_total ("course:" +:+ courseId) w Hr) as (b1 & w1 & E1 & Hs).
  destruct (invalidateSearchCaches_total w1 (reachable_step _ _ Hs Hr)) as (w2 & E2 & _).
  rewrite bind_run, E1, bind_run, E2, ret_run. reflexivity.
Qed.

Lemma bulk_store_settles docs :
  settles
    (try_catch
       (result ← Course.insertMany docs;
        mret {| CourseService.insertedCount := Z.of_nat (length result);
                CourseService.duplicateCount := 0; CourseService.errors := [] |})
       (fun error =>
          match error with
          | MongoBulkWriteError 11000 writeErrors =>
              mret {| CourseService.insertedCount :=
                        Z.of_nat (length docs) - Z.of_nat (length writeErrors);
                      CourseService.duplicateCount := Z.of_nat (length writeErrors);
                      CourseService.errors := writeErrors |}
          | MongoServerError 11000 =>
              mret {| CourseService.insertedCount := Z.of_nat (length docs);
                      CourseService.duplicateCount := 0; CourseService.errors := [] |}
          | _ => throw error
          end)).
Proof. settle. Qed.

Local Ltac same_courses :=
  unfold world_of; cbn [snd courses logged with_courses];
  match goal with
  | H : courses _ = courses _ |- _ => rewrite ?H; reflexivity
  end.

(** X22.  The cache has no say in a write.  Two worlds with the same
    collection, whatever their caches hold and whatever the fate of their
    commands, are left with the same collection by [createCourse],
    [updateCourse], [deleteCourse] and [bulkInsertCourses]; and where the
    cache server can be reached in both (each command answered or
    rejected), the four calls also end the same way in both: a write
    succeeds, or fails, with every cache command rejected exactly as with
    the cache up. *)
Theorem writes_do_not_depend_on_the_cache
    (w1 w2 : World) (courseData updateData : PartialCourse) (courseId : string)
    (docs : list PartialCourse) :
  courses w1 = courses w2 ->
  (courses (world_of (CourseService.createCourse courseData w1))
   = courses (world_of (CourseService.createCourse courseData w2))
   /\ courses (world_of (CourseService.updateCourse courseId updateData w1))
      = courses (world_of (CourseService.updateCourse courseId updateData w2))
   /\ courses (world_of (CourseService.deleteCourse courseId w1))
      = courses (world_of (CourseService.deleteCourse courseId w2))
   /\ courses (world_of (CourseService.bulkInsertCourses docs w1))
      = courses (world_of (CourseService.bulkInsertCourses docs w2)))
  /\ (reachable w1 -> reachable w2 ->
      result_of (CourseService.createCourse courseData w1)
      = result_of (CourseService.createCourse courseData w2)
      /\ result_of (CourseService.updateCourse courseId updateData w1)
         = result_of (CourseService.updateCourse courseId updateData w2)
      /\ result_of (CourseService.deleteCourse courseId w1)
         = result_of (CourseService.deleteCourse courseId w2)
      /\ result_of (CourseService.bulkInsertCourses docs w1)
         = result_of (CourseService.bulkInsertCourses docs w2)).
Proof.
  intros Hc. split; [repeat split | intros Hr1 Hr2; repeat split].
  - unfold CourseService.createCourse.
    rewrite !(courses_after_store_then_invalidate _ (fun a => a)).
    unfold Course.save. cbn [courses logged]. rewrite Hc.
    destruct (validated courseData); [destruct (existsb _ _)|]; same_courses.
  - rewrite !courses_after_update. unfold Course.findOneAndUpdate. cbn [courses logged].
    rewrite Hc. destruct (invalid_paths false updateData); [|same_courses].
    destruct (List.find _ _); [|same_courses]. destruct (negb _ && _); same_courses.
  - rewrite !courses_after_delete. unfold Course.findOneAndDelete. cbn [courses logged].
    rewrite Hc. destruct (List.find _ _); same_courses.
  - rewrite !courses_after_bulk_insert, Hc. reflexivity.
  - unfold CourseService.createCourse.
    rewrite !(result_after_invalidate _ (fun a => a)) by (apply save_settles; assumption).
    unfold Course.save. cbn [courses logged]. rewrite Hc.
    destruct (validated courseData); [destruct (existsb _ _)|]; reflexivity.
  - unfold CourseService.updateCourse. rewrite !bind_run. unfold Course.findOneAndUpdate.
    cbn [courses logged]. rewrite Hc. destruct (invalid_paths false updateData); [|reflexivity].
    destruct (List.find _ _); [|reflexivity]. destruct (negb _ && _); [reflexivity|].
    rewrite !result_after_sweep by auto with world. reflexivity.
  - unfold CourseService.deleteCourse. rewrite !bind_run. unfold Course.findOneAndDelete.
    cbn [courses logged]. rewrite Hc. destruct (List.find _ _); [|reflexivity].
    rewrite !result_after_sweep by auto with world. reflexivity.
  - unfold CourseService.bulkInsertCourses.
    rewrite !(result_after_invalidate _ (fun a => a)) by (apply bulk_store_settles; assumption).
    unfold try_catch. rewrite !bind_run. unfold Course.insertMany. cbn [courses logged].
    rewrite Hc. destruct (insert_unordered _ _ _) as [coll errs].
    destruct errs as [|e errs]; [reflexivity|]. cbv beta iota.
    destruct (we_code e) as [|code|code]; try reflexivity.
    repeat (destruct code as [code|code|]; try reflexivity).
Qed.

Lemma writes_do_not_depend_on_the_cache_witness :
  let up := world_of_courses [cs101] healthy in
  let down := detail_world_down in
  (courses (world_of (CourseService.createCourse (to_partial cs101) up))
   = courses (world_of (CourseService.createCourse (to_partial cs101) down))
   /\ courses (world_of (CourseService.updateCourse "cs101" (rating_update 3%float) up))
      = courses (world_of (CourseService.updateCourse "cs101" (rating_update 3%float) down))
   /\ courses (world_of (CourseService.deleteCourse "cs101" up))
      = courses (world_of (CourseService.deleteCourse "cs101" down))
   /\ courses (world_of (CourseService.bulkInsertCourses [to_partial cs101] up))
      = courses (world_of (CourseService.bulkInsertCourses [to_partial cs101] down)))
  /\ (result_of (CourseService.createCourse (to_partial cs101) up)
      = result_of (CourseService.createCourse (to_partial cs101) down)
      /\ result_of (CourseService.updateCourse "cs101" (rating_update 3%float) up)
         = result_of (CourseService.updateCourse "cs101" (rating_update 3%float) down)
      /\ result_of (CourseService.deleteCourse "cs101" up)
         = result_of (CourseService.deleteCourse "cs101" down)
      /\ result_of (CourseService.bulkInsertCourses [to_partial cs101] up)
         = result_of (CourseService.bulkInsertCourses [to_partial cs101] down)).
Proof.
  destruct (writes_do_not_depend_on_the_cache (world_of_courses [cs101] healthy)
              detail_world_down (to_partial cs101) (rating_update 3%float) "cs101"
              [to_partial cs101] eq_refl) as [Hstore Hresult].
  split; [exact Hstore|]. apply Hresult; intros n _; discriminate.
Defined.

(** ** Rejected commands and an unreachable server *)

Lemma invalidateSearchCaches_pending w :
  redis_fate w (redis_clock w) = Unreachable ->
  CourseService.invalidateSearchCaches w = (Pending, w).
Proof.
  intros H. unfold CourseService.invalidateSearchCaches.
  rewrite bind_run, flushPattern_pending by exact H. reflexivity.
Qed.

Lemma sweep_pending {A} courseId (a : A) w :
  redis_fate w (redis_clock w) = Unreachable ->
  (_ ← redisService.del ("course:" +:+ courseId);
   _ ← CourseService.invalidateSearchCaches;
   mret a) w = (Pending, w).
Proof.
  intros H. rewrite bind_run, del_pending by exact H. reflexivity.
Qed.



(** X24.  Nothing answers where the cache server cannot be reached.  When
    the server is unreachable the client retries its connection without
    end, so the command never settles: each of the five gateway methods
    stays pending and so does every read, without a query of the store.  A
    write runs its store operation first: where that fails, or finds no
    document to update or delete, the write ends as the store operation
    does; where it succeeds, the store is changed and the write never
    returns. *)
Theorem an_unreachable_cache_blocks_the_calls
    (E : Engine) (w : World) (key value pattern courseId : string) (expire : option Z)
    (options : list (string * json)) (courseData updateData : PartialCourse) :
  redis_fate w (redis_clock w) = Unreachable ->
  (redisService.get key w = (Pending, w)
   /\ redisService.set key value expire w = (Pending, w)
   /\ redisService.del key w = (Pending, w)
   /\ redisService.exists_ key w = (Pending, w)
   /\ redisService.flushPattern pattern w = (Pending, w))
  /\ (CourseService.getCourseById courseId w = (Pending, w)
      /\ CourseService.searchCourses E options w = (Pending, w)
      /\ CourseService.getCourseStats E w = (Pending, w))
  /\ (result_of (CourseService.createCourse courseData w)
      = match result_of (Course.save courseData w) with
        | Ok _ => Pending
        | r => r
        end
      /\ courses (world_of (CourseService.createCourse courseData w))
         = courses (world_of (Course.save courseData w)))
  /\ (result_of (CourseService.updateCourse courseId updateData w)
      = match result_of (Course.findOneAndUpdate courseId updateData w) with
        | Ok (Some _) => Pending
        | r => r
        end
      /\ courses (world_of (CourseService.updateCourse courseId updateData w))
         = courses (world_of (Course.findOneAndUpdate courseId updateData w)))
  /\ (result_of (CourseService.deleteCourse courseId w)
      = match result_of (Course.findOneAndDelete courseId w) with
        | Ok (Some _) => Pending
        | Ok None => Ok false
        | Throw e => Throw e
        | Pending => Pending
        end
      /\ courses (world_of (CourseService.deleteCourse courseId w))
         = courses (world_of (Course.findOneAndDelete courseId w))).
Proof.
  intros H. split; [|split; [|split; [|split]]].
  - repeat split.
    + apply get_pending; exact H.
    + apply set_pending; exact H.
    + apply del_pending; exact H.
    + apply exists_pending; exact H.
    + apply flushPattern_pending; exact H.
  - repeat split.
    + apply getCourseById_pending; exact H.
    + apply searchCourses_pending; exact H.
    + apply getCourseStats_pending; exact H.
  - unfold CourseService.createCourse. rewrite bind_run. unfold Course.save. cbv zeta.
    destruct (validated courseData); [|split; reflexivity].
    destruct (existsb _ _); [split; reflexivity|].
    rewrite bind_run, invalidateSearchCaches_pending by exact H. split; reflexivity.
  - unfold CourseService.updateCourse. rewrite bind_run. unfold Course.findOneAndUpdate.
    cbv zeta. destruct (invalid_paths false updateData); [|split; reflexivity].
    destruct (List.find _ _); [|split; reflexivity].
    destruct (negb _ && _); [split; reflexivity|].
    rewrite sweep_pending by exact H. split; reflexivity.
  - unfold CourseService.deleteCourse. rewrite bind_run. unfold Course.findOneAndDelete.
    cbv zeta. destruct (List.find _ _); [|split; reflexivity].
    rewrite sweep_pending by exact H. split; reflexivity.
Qed.

Lemma an_unreachable_cache_blocks_the_calls_witness :
  let w := world_of_courses [cs101] unreachable in
  redisService.get "course:cs101" w = (Pending, w)
  /\ CourseService.getCourseById "cs101" w = (Pending, w)
  /\ result_of (CourseService.updateCourse "cs101" (rating_update 3%float) w) = Pending
  /\ courses (world_of (CourseService.updateCourse "cs101" (rating_update 3%float) w))
     = [apply_update (rating_update 3%float) cs101].
Proof.
  destruct (an_unreachable_cache_blocks_the_calls ScanEngine.engine
              (world_of_courses [cs101] unreachable) "course:cs101" "{}" "search:*" "cs101"
              (Some 1800) [] (to_partial cs101) (rating_update 3%float) eq_refl)
    as ((Hget & _) & (Hread & _) & _ & (Hresult & Hworld) & _).
  intros w. split; [exact Hget | split; [exact Hread | split; [exact Hresult|]]].
  subst w. rewrite Hworld. reflexivity.
Defined.
